(** * card-tapestry-value: the price and collection edge functions

    A shallow embedding of [supabase/functions/prices/index.ts] (price
    repository, service and controller, followed by the collection
    repository, service and controller) and of the service and controller
    of [supabase/functions/cards/index.ts], with the properties of the
    latest-price resolver, the price history, the top-gainers ranking,
    the collection statistics and the status codes of the controllers.

    Conventions of the embedding.
    - A JavaScript [number] holding a price is an exact rational ([Q]);
      rounding of IEEE doubles is not modelled.  Counters, limits and
      day-counts are integers ([Z]), as [parseInt] produces them; the
      not-a-number result of [parseInt] is not modelled.
    - A timestamp ([recorded_at], [new Date()]) is the number of
      milliseconds since the epoch, the value [Date] objects compare by.
      All clock reads of one request return the same instant [now], and
      local time is UTC.  A date computed from a day-count of the caller
      may leave the range of valid dates, in which case [toISOString]
      throws; [now] itself and the fixed offsets of 7 and 14 days are
      taken to stay inside it.
    - A JavaScript [Map] is an association list in insertion order, which
      is the order [Map.prototype.values] enumerates.
    - A string is held as the UTF-8 bytes of its text, taken to be well
      formed; [trim] and [length] are read off these bytes.
    - [throw] is the [Throw] constructor of [result]; [async] is
      transparent.
    - The relational store answers the selects on [card_prices] and
      [user_collections] from in-memory tables and never fails on them.
      What it answers to inserts, updates and deletes, to
      [auth.getUser] and to the select of the statistics, whose rows
      embed a price, is a field of the client. *)

From Stdlib Require Import ZArith QArith Lia.
From stdpp Require Import base list strings sorting.

Open Scope Z_scope.

(** ** Domain models *)

Inductive Condition :=
  | mint | near_mint | light_play | moderate_play | heavy_play | damaged.

Inductive Game := yugioh | mtg | pokemon.

Definition condition_str (c : Condition) : string :=
  match c with
  | mint => "mint"
  | near_mint => "near_mint"
  | light_play => "light_play"
  | moderate_play => "moderate_play"
  | heavy_play => "heavy_play"
  | damaged => "damaged"
  end.

Definition game_str (g : Game) : string :=
  match g with
  | yugioh => "yugioh"
  | mtg => "mtg"
  | pokemon => "pokemon"
  end.

#[global] Instance Condition_eq_dec : EqDecision Condition.
Proof. solve_decision. Defined.

#[global] Instance Game_eq_dec : EqDecision Game.
Proof. solve_decision. Defined.

Module Card.
Record t := mk {
  id : string;
  name : string;
  game : Game;
  set_name : option string;
  rarity : option string;
}.
End Card.

Module CardPrice.
Record t := mk {
  id : string;
  card_id : string;
  condition : Condition;
  price : Q;
  currency : string;
  source : option string;
  recorded_at : Z;
}.
End CardPrice.

(** [CardPriceWithCard extends CardPrice] with the joined [cards] row. *)
Module CardPriceWithCard.
Record t := mk {
  base : CardPrice.t;
  cards : Card.t;
}.
End CardPriceWithCard.

(** ** Exceptions *)

Inductive result (A : Type) :=
  | Ok (a : A)
  | Throw (message : string).
Arguments Ok {A} a.
Arguments Throw {A} message.

#[global] Instance result_ret : MRet result := λ A a, Ok a.
#[global] Instance result_bind : MBind result := λ A B k r,
  match r with
  | Ok a => k a
  | Throw m => Throw m
  end.
#[global] Instance result_fmap : FMap result := λ A B f r,
  match r with
  | Ok a => Ok (f a)
  | Throw m => Throw m
  end.

(** ** JavaScript [Map] with string keys *)

Section JsMap.
Context {V : Type}.

Definition JsMap := list (string * V).

Fixpoint Map_get (k : string) (m : JsMap) : option V :=
  match m with
  | [] => None
  | (k', v) :: m' => if decide (k' = k) then Some v else Map_get k m'
  end.

Definition Map_has (k : string) (m : JsMap) : bool :=
  match Map_get k m with Some _ => true | None => false end.

(** [set] overwrites in place when the key exists and appends otherwise. *)
Fixpoint Map_set (k : string) (v : V) (m : JsMap) : JsMap :=
  match m with
  | [] => [(k, v)]
  | (k', v') :: m' =>
      if decide (k' = k) then (k', v) :: m' else (k', v') :: Map_set k v m'
  end.

Definition Map_keys (m : JsMap) : list string := m.*1.
Definition Map_values (m : JsMap) : list V := m.*2.

End JsMap.
Arguments JsMap V : clear implicits.

(** ** Sorting

    [Array.prototype.sort] and the store's [ORDER BY] are stable sorts;
    both are modelled by a stable insertion sort over the comparison
    [le x y], read as "x may stay before y". *)

Section Sort.
Context {A : Type} (le : A → A → bool).

Fixpoint insert_sorted (x : A) (l : list A) : list A :=
  match l with
  | [] => [x]
  | y :: l' => if le x y then x :: y :: l' else y :: insert_sorted x l'
  end.

Definition stable_sort (l : list A) : list A := foldr insert_sorted [] l.

End Sort.

(** ** Rows and request bodies *)

Module UserCollection.
Record t := mk {
  id : string;
  user_id : string;
  card_id : string;
  condition : Condition;
  quantity : Z;
  purchase_price : option Q;
  notes : option string;
  created_at : Z;
}.
End UserCollection.

(** [CollectionWithCard extends UserCollection] with the embedded
    [cards] row. *)
Module CollectionWithCard.
Record t := mk {
  base : UserCollection.t;
  cards : option Card.t;
}.
End CollectionWithCard.

(** The embedded [card_prices (price, recorded_at)] object of a row of the
    statistics select. *)
Module PriceRef.
Record t := mk {
  price : Q;
  recorded_at : Z;
}.
End PriceRef.

(** A row of [user_collections] with its embedded [cards] and
    [card_prices], as [getCollectionStats] reads it. *)
Module CollectionRow.
Record t := mk {
  card_id : string;
  condition : Condition;
  quantity : Z;
  cards : Card.t;
  card_prices : PriceRef.t;
}.
End CollectionRow.

(** The JSON body of a request to the prices function; an absent string
    field is the empty string, an absent number is [None]. *)
Module PriceBody.
Record t := mk {
  card_id : string;
  condition : string;
  price : option Q;
  currency : option string;
  source : option string;
}.
End PriceBody.

Module CollectionBody.
Record t := mk {
  card_id : string;
  condition : string;
  quantity : option Z;
  purchase_price : option Q;
  notes : option string;
}.
End CollectionBody.

Module CardBody.
Record t := mk {
  name : string;
  game : string;
  set_name : option string;
  rarity : option string;
}.
End CardBody.

(** ** The relational store *)

Module Supabase.
Record t := mk {
  (** tables *)
  cards : list Card.t;
  card_prices : list CardPrice.t;
  user_collections : list UserCollection.t;
  (** the answer to the embedded select of [user_collections] with
      [cards!inner] and [card_prices!inner] for a user; [None] is a
      null [data] *)
  collections_with_prices : string → option (list CollectionRow.t);
  (** answers to writes on [card_prices] *)
  insert_price : PriceBody.t → result CardPrice.t;
  update_price : string → PriceBody.t → result CardPrice.t;
  delete_price : string → result ();
  (** answers to writes on [user_collections], for a user *)
  insert_collection : string → CollectionBody.t → result UserCollection.t;
  update_collection :
    string → string → CollectionBody.t → result UserCollection.t;
  delete_collection : string → string → result ();
  (** [auth.getUser()] under an authorization header: the user id *)
  auth_getUser : string → option string;
}.
End Supabase.

(** [.order(column, { ascending })] on an integer-valued column. *)
Definition order_by {A} (column : A → Z) (ascending : bool) (rows : list A) :
    list A :=
  stable_sort
    (λ a b, if ascending then column a <=? column b else column b <=? column a)
    rows.

Definition order_recorded_at : bool → list CardPrice.t → list CardPrice.t :=
  order_by CardPrice.recorded_at.

(** The value type of the [cardPriceChanges] map of [getTopGainers]. *)
Module PriceChange.
Record t := mk {
  card : Card.t;
  currentPrice : Q;
  previousPrice : Q;
  change : Q;
  changePercent : Q;
}.
End PriceChange.

Definition msPerDay : Z := 86400000.

(** [d = new Date(); d.setDate(d.getDate() - days)], in a runtime whose
    local time is UTC. *)
Definition daysAgo (now days : Z) : Z := now - days * msPerDay.

(** [x > 0] on prices. *)
Definition Qpositive (x : Q) : bool := negb (Qle_bool x 0).

(** [Array.prototype.slice(0, end)] for an integer [end]. *)
Definition slice0 {A} (final : Z) (l : list A) : list A :=
  let len := Z.of_nat (length l) in
  let final' := if final <? 0 then Z.max (len + final) 0 else Z.min final len in
  take (Z.to_nat final') l.

(** The greatest magnitude of a time value; beyond it a [Date] is
    invalid and [toISOString] raises a [RangeError]. *)
Definition maxTime : Z := 8640000000000000.

Definition toISOString (t : Z) : result Z :=
  if Z.abs t <=? maxTime then Ok t else Throw "Invalid time value".

(** The parts of [PriceRepository.getTopGainers]. *)
Module TopGainers.


(** The key of the map: the card id, a dash, the condition. *)
Definition key (priceRecord : CardPriceWithCard.t) : string :=
  CardPrice.card_id (CardPriceWithCard.base priceRecord)
    +:+ "-"
    +:+ condition_str (CardPrice.condition (CardPriceWithCard.base priceRecord)).

(** Lines 121-142, the body of the [forEach]. *)
Definition step (sevenDaysAgo fourteenDaysAgo : Z)
    (cardPriceChanges : JsMap PriceChange.t)
    (priceRecord : CardPriceWithCard.t) : JsMap PriceChange.t :=
  let key := key priceRecord in
  let recordDate := CardPrice.recorded_at (CardPriceWithCard.base priceRecord) in
  let price := CardPrice.price (CardPriceWithCard.base priceRecord) in
  let cardPriceChanges :=
    if negb (Map_has key cardPriceChanges)
    then Map_set key
           (PriceChange.mk (CardPriceWithCard.cards priceRecord) 0 0 0 0)
           cardPriceChanges
    else cardPriceChanges in
  match Map_get key cardPriceChanges with
  | Some existing =>
      if (sevenDaysAgo <=? recordDate)
         && Qeq_bool (PriceChange.currentPrice existing) 0
      then
        Map_set key
          (PriceChange.mk (PriceChange.card existing) price
             (PriceChange.previousPrice existing)
             (PriceChange.change existing) (PriceChange.changePercent existing))
          cardPriceChanges
      else if (recordDate <? sevenDaysAgo) && (fourteenDaysAgo <=? recordDate)
              && Qeq_bool (PriceChange.previousPrice existing) 0
      then
        Map_set key
          (PriceChange.mk (PriceChange.card existing)
             (PriceChange.currentPrice existing) price
             (PriceChange.change existing) (PriceChange.changePercent existing))
          cardPriceChanges
      else cardPriceChanges
  | None => cardPriceChanges
  end.

Definition cardPriceChanges (now : Z) (data : list CardPriceWithCard.t) :
    JsMap PriceChange.t :=
  fold_left (step (daysAgo now 7) (daysAgo now 14)) data [].

(** Lines 147-151, the function given to [map]. *)
Definition withChange (item : PriceChange.t) : PriceChange.t :=
  let change :=
    (PriceChange.currentPrice item - PriceChange.previousPrice item)%Q in
  PriceChange.mk (PriceChange.card item)
    (PriceChange.currentPrice item) (PriceChange.previousPrice item)
    change
    ((change / PriceChange.previousPrice item) * 100)%Q.

(** Line 146, the function given to [filter]. *)
Definition bothPrices (item : PriceChange.t) : bool :=
  Qpositive (PriceChange.currentPrice item)
  && Qpositive (PriceChange.previousPrice item).

(** Lines 145-151: the entries with both prices, with their changes. *)
Definition changes (now : Z) (data : list CardPriceWithCard.t) :
    list PriceChange.t :=
  withChange <$> List.filter bothPrices (Map_values (cardPriceChanges now data)).

(** The comparison of [.sort((a, b) => b.changePercent - a.changePercent)]:
    [a] stays before [b] when the comparator is not positive. *)
Definition byChangePercent (a b : PriceChange.t) : bool :=
  Qle_bool (PriceChange.changePercent b) (PriceChange.changePercent a).

(** Lines 145-153: the constant [gainers]. *)
Definition gainers (now : Z) (data : list CardPriceWithCard.t) (limit : Z) :
    list PriceChange.t :=
  slice0 limit (stable_sort byChangePercent (changes now data)).

(** Lines 155-163, the function given to the last [map]. *)
Definition output (now : Z) (item : PriceChange.t) : CardPriceWithCard.t :=
  CardPriceWithCard.mk
    (CardPrice.mk "" (Card.id (PriceChange.card item)) near_mint
       (PriceChange.currentPrice item) "EUR" None now)
    (PriceChange.card item).

(** The select of lines 94-107: prices joined with their card, not older
    than fourteen days, newest first, optionally of one game. *)
Definition select (supabase : Supabase.t) (now : Z) (game : option string) :
    list CardPriceWithCard.t :=
  let joined :=
    omap (λ p, c ← List.find (λ c, bool_decide (Card.id c = CardPrice.card_id p))
                    (Supabase.cards supabase);
               Some (CardPriceWithCard.mk p c))
      (order_recorded_at false
         (List.filter (λ p, daysAgo now 14 <=? CardPrice.recorded_at p)
            (Supabase.card_prices supabase))) in
  match game with
  | Some g =>
      if bool_decide (g = "") then joined
      else List.filter
             (λ r, bool_decide (game_str (Card.game (CardPriceWithCard.cards r)) = g))
             joined
  | None => joined
  end.

End TopGainers.

Module PricePoint.
Record t := mk {
  price : Q;
  currency : string;
  source : option string;
  recorded_at : Z;
}.
End PricePoint.

Module PriceHistory.
Record t := mk {
  card_id : string;
  condition : string;
  prices : list PricePoint.t;
}.
End PriceHistory.

(** ** Repository layer: [PriceRepository] *)

Module PriceRepository.

(** The body of the [forEach] of [getLatestPricesForCard]. *)
Definition latest_step (latestPrices : JsMap CardPrice.t) (price : CardPrice.t) :
    JsMap CardPrice.t :=
  let key := condition_str (CardPrice.condition price) in
  if negb (Map_has key latestPrices)
     || match Map_get key latestPrices with
        | Some kept => CardPrice.recorded_at kept <? CardPrice.recorded_at price
        | None => false
        end
  then Map_set key price latestPrices
  else latestPrices.

(** Lines 56-67: group [data] by condition and keep the latest. *)
Definition latestPrices (data : option (list CardPrice.t)) : list CardPrice.t :=
  Map_values
    (match data with
     | Some rows => fold_left latest_step rows []
     | None => []
     end).

Definition getLatestPricesForCard (supabase : Supabase.t) (cardId : string) :
    result (list CardPrice.t) :=
  let data :=
    order_recorded_at false
      (filter (λ p, CardPrice.card_id p = cardId) (Supabase.card_prices supabase)) in
  Ok (latestPrices (Some data)).

(** Lines 70-84; [days] defaults to 30. *)
Definition getPriceHistory (supabase : Supabase.t) (now : Z)
    (cardId condition : string) (days : option Z) : result (list CardPrice.t) :=
  let days := default 30 days in
  cutoffDate ← toISOString (daysAgo now days);
  Ok (order_recorded_at true
        (filter (λ p, CardPrice.card_id p = cardId
                      ∧ condition_str (CardPrice.condition p) = condition
                      ∧ cutoffDate ≤ CardPrice.recorded_at p)
           (Supabase.card_prices supabase))).

(** Lines 86-164; [limit] defaults to 10. *)
Definition getTopGainers (supabase : Supabase.t) (now : Z)
    (game : option string) (limit : option Z) :
    result (list CardPriceWithCard.t) :=
  let limit := default 10 limit in
  let data := TopGainers.select supabase now game in
  match data with
  | [] => Ok []
  | _ => Ok (TopGainers.output now <$> TopGainers.gainers now data limit)
  end.

Definition addPrice (supabase : Supabase.t) (priceData : PriceBody.t) :
    result CardPrice.t :=
  Supabase.insert_price supabase priceData.

Definition updatePrice (supabase : Supabase.t) (priceId : string)
    (updates : PriceBody.t) : result CardPrice.t :=
  Supabase.update_price supabase priceId updates.

Definition deletePrice (supabase : Supabase.t) (priceId : string) : result () :=
  Supabase.delete_price supabase priceId.

End PriceRepository.

(** ** Service layer: [PriceService] *)

Definition validConditions : list string :=
  ["mint"; "near_mint"; "light_play"; "moderate_play"; "heavy_play"; "damaged"].
Definition validGames : list string := ["yugioh"; "mtg"; "pokemon"].
Definition validCurrencies : list string := ["EUR"; "USD"; "GBP"; "JPY"].

(** [Array.prototype.includes] on strings. *)
Definition includes (l : list string) (s : string) : bool := bool_decide (s ∈ l).

(** Truthiness of a string and of an optional string. *)
Definition truthy (s : string) : bool := negb (bool_decide (s = "")).
Definition truthy_opt (s : option string) : bool :=
  match s with Some s => truthy s | None => false end.

Module PriceService.

Definition getCardPrices (supabase : Supabase.t) (cardId : string) :
    result (list CardPrice.t) :=
  if negb (truthy cardId) then Throw "Card ID is required"
  else PriceRepository.getLatestPricesForCard supabase cardId.

(** Lines 230-235, the function given to [map]. *)
Definition pricePoint (p : CardPrice.t) : PricePoint.t :=
  PricePoint.mk (CardPrice.price p) (CardPrice.currency p)
    (CardPrice.source p) (CardPrice.recorded_at p).

(** Lines 211-237; [days] defaults to 30. *)
Definition getPriceHistory (supabase : Supabase.t) (now : Z)
    (cardId condition : string) (days : option Z) : result PriceHistory.t :=
  let days := default 30 days in
  if negb (truthy cardId) || negb (truthy condition)
  then Throw "Card ID and condition are required"
  else if 365 <? days
  then Throw "Cannot fetch price history for more than 365 days"
  else if negb (includes validConditions condition)
  then Throw "Invalid card condition"
  else
    prices ← PriceRepository.getPriceHistory supabase now cardId condition (Some days);
    Ok (PriceHistory.mk cardId condition (pricePoint <$> prices)).

(** Lines 239-250; [limit] defaults to 10. *)
Definition getTopGainers (supabase : Supabase.t) (now : Z)
    (game : option string) (limit : option Z) :
    result (list CardPriceWithCard.t) :=
  let limit := default 10 limit in
  if truthy_opt game && negb (includes validGames (default "" game))
  then Throw "Invalid game type"
  else if 50 <? limit
  then Throw "Limit cannot exceed 50"
  else PriceRepository.getTopGainers supabase now game (Some limit).

(** Lines 252-285; [currency] defaults to EUR. *)
Definition addPrice (supabase : Supabase.t) (cardId condition : string)
    (price : option Q) (currency : option string) (source : option string) :
    result CardPrice.t :=
  let currency := default "EUR" currency in
  if negb (truthy cardId) || negb (truthy condition)
  then Throw "Card ID and condition are required"
  else if match price with Some p => Qle_bool p 0 | None => false end
  then Throw "Price must be greater than 0"
  else if negb (includes validConditions condition)
  then Throw "Invalid card condition"
  else if negb (includes validCurrencies currency)
  then Throw "Invalid currency"
  else PriceRepository.addPrice supabase
         (PriceBody.mk cardId condition price (Some currency) source).

Definition updatePrice (supabase : Supabase.t) (priceId : string)
    (updates : PriceBody.t) : result CardPrice.t :=
  if negb (truthy priceId) then Throw "Price ID is required"
  else if match PriceBody.price updates with
          | Some p => Qle_bool p 0
          | None => false
          end
  then Throw "Price must be greater than 0"
  else PriceRepository.updatePrice supabase priceId updates.

Definition deletePrice (supabase : Supabase.t) (priceId : string) : result () :=
  if negb (truthy priceId) then Throw "Price ID is required"
  else PriceRepository.deletePrice supabase priceId.

End PriceService.

(** ** Requests and responses *)

(** The query string, read as the controllers read it: a text parameter
    is [None] when [searchParams.get] answers [null]; a numeric parameter
    is the integer [parseInt] reads, [None] when the parameter is absent
    or empty. *)
Module Query.
Record t := mk {
  game : option string;
  limit : option Z;
  card_id : option string;
  condition : option string;
  days : option Z;
  search : option string;
  include_prices : option string;
  offset : option Z;
  set : option string;
}.
End Query.

Module Request.
Record t (Body : Type) := mk {
  method : string;
  pathSegments : list string;
  searchParams : Query.t;
  authorization : option string;
  (** [None] when [req.json()] cannot parse the body *)
  json : option Body;
}.
Arguments mk {Body}.
Arguments method {Body}.
Arguments pathSegments {Body}.
Arguments searchParams {Body}.
Arguments authorization {Body}.
Arguments json {Body}.
End Request.

(** A JSON response: a payload, or the object [{ error }]. *)
Module Response.
Inductive body (A : Type) :=
  | Json (a : A)
  | Error (error : string)
  | Empty.
Arguments Json {A}.
Arguments Error {A}.
Arguments Empty {A}.
Record t (A : Type) := mk {
  status : Z;
  content : body A;
}.
Arguments mk {A}.
Arguments status {A}.
Arguments content {A}.
End Response.

(** [new Response(JSON.stringify(x), { headers })] has status 200. *)
Definition ok_response {A} (a : A) : Response.t A := Response.mk 200 (Response.Json a).

(** [{ error: error.message || 'Internal server error' }] *)
Definition error_body {A} (message : string) : Response.body A :=
  Response.Error (if truthy message then message else "Internal server error").

(** [req.json()] *)
Definition req_json {B} (req : Request.t B) : result B :=
  match Request.json req with
  | Some b => Ok b
  | None => Throw "Unexpected end of JSON input"
  end.

(** [pathSegments[pathSegments.length - 1]]; [undefined] is read as the
    empty string, which is as falsy. *)
Definition last_segment (pathSegments : list string) : string :=
  default "" (last pathSegments).

(** ** Controller layer: [PriceController] *)

Module PricePayload.
Inductive t :=
  | Gainers (gainers : list CardPriceWithCard.t)
  | History (history : PriceHistory.t)
  | Prices (prices : list CardPrice.t)
  | Price (price : CardPrice.t)
  | Success.
End PricePayload.

Module PriceController.

(** The [try] block of [handleRequest], lines 318-394. *)
Definition dispatch (supabase : Supabase.t) (now : Z)
    (req : Request.t PriceBody.t) : result (Response.t PricePayload.t) :=
  let url := Request.searchParams req in
  let pathSegments := Request.pathSegments req in
  let method := Request.method req in
  if bool_decide (method = "GET") then
    if includes pathSegments "top-gainers" then
      let game := if truthy_opt (Query.game url) then Query.game url else None in
      let limit := default 10 (Query.limit url) in
      gainers ← PriceService.getTopGainers supabase now game (Some limit);
      Ok (ok_response (PricePayload.Gainers gainers))
    else if includes pathSegments "history" then
      let cardId := Query.card_id url in
      let condition := Query.condition url in
      let days := default 30 (Query.days url) in
      if negb (truthy_opt cardId) || negb (truthy_opt condition) then
        Ok (Response.mk 400 (Response.Error "card_id and condition are required"))
      else
        history ← PriceService.getPriceHistory supabase now
                    (default "" cardId) (default "" condition) (Some days);
        Ok (ok_response (PricePayload.History history))
    else
      let cardId := Query.card_id url in
      if negb (truthy_opt cardId) then
        Ok (Response.mk 400 (Response.Error "card_id is required"))
      else
        prices ← PriceService.getCardPrices supabase (default "" cardId);
        Ok (ok_response (PricePayload.Prices prices))
  else if bool_decide (method = "POST") then
    priceData ← req_json req;
    newPrice ← PriceService.addPrice supabase
                 (PriceBody.card_id priceData) (PriceBody.condition priceData)
                 (PriceBody.price priceData) (PriceBody.currency priceData)
                 (PriceBody.source priceData);
    Ok (Response.mk 201 (Response.Json (PricePayload.Price newPrice)))
  else if bool_decide (method = "PUT") then
    let priceId := last_segment pathSegments in
    updateData ← req_json req;
    updatedPrice ← PriceService.updatePrice supabase priceId updateData;
    Ok (ok_response (PricePayload.Price updatedPrice))
  else if bool_decide (method = "DELETE") then
    let deleteId := last_segment pathSegments in
    _ ← PriceService.deletePrice supabase deleteId;
    Ok (ok_response PricePayload.Success)
  else
    Ok (Response.mk 405 (Response.Error "Method not allowed")).

(** Lines 313-402: the [try] block and its [catch]. *)
Definition handleRequest (supabase : Supabase.t) (now : Z)
    (req : Request.t PriceBody.t) : Response.t PricePayload.t :=
  match dispatch supabase now req with
  | Ok response => response
  | Throw message => Response.mk 500 (error_body message)
  end.

(** Lines 406-422, the handler given to [serve]. *)
Definition serve (supabase : Supabase.t) (now : Z)
    (req : Request.t PriceBody.t) : Response.t PricePayload.t :=
  if bool_decide (Request.method req = "OPTIONS")
  then Response.mk 200 Response.Empty
  else handleRequest supabase now req.

End PriceController.

(** ** The collection function: repository, service, controller *)

Module TopGainer.
Record t := mk {
  name : string;
  change : Q;
}.
End TopGainer.

Module CollectionStats.
Record t := mk {
  totalCards : Z;
  totalValue : Q;
  topGainer : TopGainer.t;
  rarest : string;
}.
End CollectionStats.

Module CollectionRepository.

Definition getUserCollections (supabase : Supabase.t) (userId : string) :
    result (list CollectionWithCard.t) :=
  Ok ((λ u, CollectionWithCard.mk u
              (List.find (λ c, bool_decide (Card.id c = UserCollection.card_id u))
                 (Supabase.cards supabase)))
        <$> order_by UserCollection.created_at false
              (filter (λ u, UserCollection.user_id u = userId)
                 (Supabase.user_collections supabase))).

Definition addToCollection (supabase : Supabase.t) (userId : string)
    (collectionData : CollectionBody.t) : result UserCollection.t :=
  Supabase.insert_collection supabase userId collectionData.

Definition updateCollection (supabase : Supabase.t) (userId collectionId : string)
    (updates : CollectionBody.t) : result UserCollection.t :=
  Supabase.update_collection supabase userId collectionId updates.

Definition removeFromCollection (supabase : Supabase.t)
    (userId collectionId : string) : result () :=
  Supabase.delete_collection supabase userId collectionId.

Definition cardKey (item : CollectionRow.t) : string :=
  CollectionRow.card_id item +:+ "-" +:+ condition_str (CollectionRow.condition item).

(** Lines 539-545, the body of the first [forEach]. *)
Definition price_step (cardPriceMap : JsMap PriceRef.t) (item : CollectionRow.t) :
    JsMap PriceRef.t :=
  let cardKey := cardKey item in
  if negb (Map_has cardKey cardPriceMap)
     || match Map_get cardKey cardPriceMap with
        | Some kept =>
            PriceRef.recorded_at kept
              <? PriceRef.recorded_at (CollectionRow.card_prices item)
        | None => false
        end
  then Map_set cardKey (CollectionRow.card_prices item) cardPriceMap
  else cardPriceMap.

(** Lines 547-553, the body of the second [forEach]. *)
Definition value_step (cardPriceMap : JsMap PriceRef.t) (totalValue : Q)
    (item : CollectionRow.t) : Q :=
  match Map_get (cardKey item) cardPriceMap with
  | Some latestPrice =>
      (totalValue
       + PriceRef.price latestPrice * inject_Z (CollectionRow.quantity item))%Q
  | None => totalValue
  end.

(** [cardPriceMap.get(key)?.price || 0] *)
Definition priceOr0 (cardPriceMap : JsMap PriceRef.t) (item : CollectionRow.t) : Q :=
  match Map_get (cardKey item) cardPriceMap with
  | Some p => if Qeq_bool (PriceRef.price p) 0 then 0%Q else PriceRef.price p
  | None => 0%Q
  end.

(** The label of line 563; a null [set_name] prints as [null]. *)
Definition label (item : CollectionRow.t) : string :=
  Card.name (CollectionRow.cards item)
    +:+ " (" +:+ default "null" (Card.set_name (CollectionRow.cards item)) +:+ ")".

(** Lines 515-573. *)
Definition getCollectionStats (supabase : Supabase.t) (userId : string) :
    CollectionStats.t :=
  let totalCards :=
    Z.of_nat (length (filter (λ u, UserCollection.user_id u = userId)
                        (Supabase.user_collections supabase))) in
  let collections := Supabase.collections_with_prices supabase userId in
  let '(totalValue, rarestCard) :=
    match collections with
    | Some ((_ :: _) as collections) =>
        let cardPriceMap := fold_left price_step collections [] in
        let totalValue := fold_left (value_step cardPriceMap) collections 0%Q in
        let sortedByPrice :=
          stable_sort
            (λ a b, Qle_bool (priceOr0 cardPriceMap b) (priceOr0 cardPriceMap a))
            collections in
        (totalValue,
         match sortedByPrice with
         | first :: _ => label first
         | [] => ""
         end)
    | _ => (0%Q, "")
    end in
  CollectionStats.mk
    totalCards
    totalValue
    (TopGainer.mk "Dark Magician" 8.2)
    (if truthy rarestCard then rarestCard else "No cards").

End CollectionRepository.

Module CollectionService.

Definition getUserCollections (supabase : Supabase.t) (userId : string) :
    result (list CollectionWithCard.t) :=
  if negb (truthy userId) then Throw "User ID is required"
  else CollectionRepository.getUserCollections supabase userId.

Definition addCardToCollection (supabase : Supabase.t) (userId cardId : string)
    (condition : string) (quantity : option Z) (purchasePrice : option Q)
    (notes : option string) : result UserCollection.t :=
  if negb (truthy userId) || negb (truthy cardId)
  then Throw "User ID and Card ID are required"
  else if match quantity with Some q => q <=? 0 | None => false end
  then Throw "Quantity must be greater than 0"
  else if negb (includes validConditions condition)
  then Throw "Invalid card condition"
  else CollectionRepository.addToCollection supabase userId
         (CollectionBody.mk cardId condition quantity purchasePrice notes).

Definition updateCollectionItem (supabase : Supabase.t)
    (userId collectionId : string) (updates : CollectionBody.t) :
    result UserCollection.t :=
  if negb (truthy userId) || negb (truthy collectionId)
  then Throw "User ID and Collection ID are required"
  else CollectionRepository.updateCollection supabase userId collectionId updates.

Definition removeFromCollection (supabase : Supabase.t)
    (userId collectionId : string) : result () :=
  if negb (truthy userId) || negb (truthy collectionId)
  then Throw "User ID and Collection ID are required"
  else CollectionRepository.removeFromCollection supabase userId collectionId.

Definition getCollectionStats (supabase : Supabase.t) (userId : string) :
    result CollectionStats.t :=
  if negb (truthy userId) then Throw "User ID is required"
  else Ok (CollectionRepository.getCollectionStats supabase userId).

End CollectionService.

Module CollectionPayload.
Inductive t :=
  | Stats (stats : CollectionStats.t)
  | Collections (collections : list CollectionWithCard.t)
  | Item (item : UserCollection.t)
  | Success.
End CollectionPayload.

Module CollectionController.

(** The [try] block of [handleRequest], for the authenticated user. *)
Definition dispatch (supabase : Supabase.t) (user_id : string)
    (req : Request.t CollectionBody.t) : result (Response.t CollectionPayload.t) :=
  let pathSegments := Request.pathSegments req in
  let method := Request.method req in
  if bool_decide (method = "GET") then
    if includes pathSegments "stats" then
      stats ← CollectionService.getCollectionStats supabase user_id;
      Ok (ok_response (CollectionPayload.Stats stats))
    else
      collections ← CollectionService.getUserCollections supabase user_id;
      Ok (ok_response (CollectionPayload.Collections collections))
  else if bool_decide (method = "POST") then
    addData ← req_json req;
    newItem ← CollectionService.addCardToCollection supabase user_id
                (CollectionBody.card_id addData) (CollectionBody.condition addData)
                (CollectionBody.quantity addData)
                (CollectionBody.purchase_price addData) (CollectionBody.notes addData);
    Ok (Response.mk 201 (Response.Json (CollectionPayload.Item newItem)))
  else if bool_decide (method = "PUT") then
    let collectionId := last_segment pathSegments in
    updateData ← req_json req;
    updatedItem ← CollectionService.updateCollectionItem supabase user_id
                    collectionId updateData;
    Ok (ok_response (CollectionPayload.Item updatedItem))
  else if bool_decide (method = "DELETE") then
    let deleteId := last_segment pathSegments in
    _ ← CollectionService.removeFromCollection supabase user_id deleteId;
    Ok (ok_response CollectionPayload.Success)
  else
    Ok (Response.mk 405 (Response.Error "Method not allowed")).

Definition handleRequest (supabase : Supabase.t)
    (req : Request.t CollectionBody.t) : Response.t CollectionPayload.t :=
  match Request.authorization req with
  | Some authHeader =>
      if negb (truthy authHeader)
      then Response.mk 401 (Response.Error "Authorization header required")
      else
        match Supabase.auth_getUser supabase authHeader with
        | None => Response.mk 401 (Response.Error "Unauthorized")
        | Some user_id =>
            match dispatch supabase user_id req with
            | Ok response => response
            | Throw message => Response.mk 500 (error_body message)
            end
        end
  | None => Response.mk 401 (Response.Error "Authorization header required")
  end.

End CollectionController.

(** ** The cards function: service and controller

    [CardService] receives its repository through its constructor; the
    repository is kept as the interface of its seven operations. *)

Module LatestPrice.
Record t := mk {
  price : Q;
  condition : string;
  currency : string;
  recorded_at : Z;
}.
End LatestPrice.

Module CardWithLatestPrice.
Record t := mk {
  base : Card.t;
  latest_price : option LatestPrice.t;
}.
End CardWithLatestPrice.

Module CardRepository.
Record t := mk {
  getAllCards : option string → option string → Z → Z → result (list Card.t);
  getCardById : string → result (option Card.t);
  getCardsWithLatestPrices :
    option string → option string → Z → result (list CardWithLatestPrice.t);
  createCard : CardBody.t → result Card.t;
  updateCard : string → CardBody.t → result Card.t;
  deleteCard : string → result ();
  searchCardsBySet : string → option string → result (list Card.t);
}.
End CardRepository.

(** The white space that [String.prototype.trim] strips: the WhiteSpace
    and LineTerminator code points of ECMAScript, by the length of their
    UTF-8 encoding.
    - One byte: U+0009 to U+000D and U+0020.
    - Two bytes: U+00A0 (C2 A0).
    - Three bytes: U+1680 (E1 9A 80), U+2000 to U+200A (E2 80 80 to
      E2 80 8A), U+2028 and U+2029 (E2 80 A8, E2 80 A9), U+202F
      (E2 80 AF), U+205F (E2 81 9F), U+3000 (E3 80 80) and U+FEFF
      (EF BB BF). *)
Definition whiteSpace1 (a : Ascii.ascii) : bool :=
  let x := Ascii.N_of_ascii a in
  ((9 <=? x) && (x <=? 13) || (x =? 32))%N.

Definition whiteSpace2 (a b : Ascii.ascii) : bool :=
  ((Ascii.N_of_ascii a =? 194) && (Ascii.N_of_ascii b =? 160))%N.

Definition whiteSpace3 (a b c : Ascii.ascii) : bool :=
  let x := Ascii.N_of_ascii a in
  let y := Ascii.N_of_ascii b in
  let z := Ascii.N_of_ascii c in
  ((x =? 225) && (y =? 154) && (z =? 128)
   || (x =? 226) && (y =? 128)
      && ((128 <=? z) && (z <=? 138) || (z =? 168) || (z =? 169) || (z =? 175))
   || (x =? 226) && (y =? 129) && (z =? 159)
   || (x =? 227) && (y =? 128) && (z =? 128)
   || (x =? 239) && (y =? 187) && (z =? 191))%N.

(** [String.prototype.trimStart]; on a reversed string ([backwards]) the
    bytes of a code point come last byte first. *)
Fixpoint strip (backwards : bool) (s : string) : string :=
  match s with
  | String a s1 =>
      if whiteSpace1 a then strip backwards s1
      else
        match s1 with
        | String b s2 =>
            if (if backwards then whiteSpace2 b a else whiteSpace2 a b)
            then strip backwards s2
            else
              match s2 with
              | String c s3 =>
                  if (if backwards then whiteSpace3 c b a else whiteSpace3 a b c)
                  then strip backwards s3
                  else s
              | EmptyString => s
              end
        | EmptyString => s
        end
  | EmptyString => EmptyString
  end.

Definition trimStart (s : string) : string := strip false s.

Definition trimEnd (s : string) : string := String.rev (strip true (String.rev s)).

Definition trim (s : string) : string := trimEnd (trimStart s).

(** The [length] of a string: its number of UTF-16 code units, one for a
    code point of one, two or three bytes and two for one of four bytes.
    [pending] counts the continuation bytes that the code point being
    read still has. *)
Fixpoint utf16_units (pending : nat) (s : string) : nat :=
  match s with
  | String a s' =>
      let x := Ascii.N_of_ascii a in
      if (x <? 128)%N then S (utf16_units 0 s')
      else if (x <? 192)%N then
        match pending with
        | S pending' => utf16_units pending' s'
        | O => S (utf16_units 0 s')
        end
      else if (x <? 224)%N then S (utf16_units 1 s')
      else if (x <? 240)%N then S (utf16_units 2 s')
      else S (S (utf16_units 3 s'))
  | EmptyString => O
  end.

Definition js_length (s : string) : nat := utf16_units 0 s.

Module CardPayload.
Inductive t :=
  | Cards (cards : list Card.t)
  | CardsWithPrices (cards : list CardWithLatestPrice.t)
  | OneCard (card : Card.t)
  | Success.
End CardPayload.

Module CardService.

(** [includePrices] defaults to false, [limit] to 50, [offset] to 0. *)
Definition getCards (repository : CardRepository.t) (game searchTerm : option string)
    (includePrices : bool) (limit offset : option Z) : result CardPayload.t :=
  let limit := default 50 limit in
  let offset := default 0 offset in
  if truthy_opt game && negb (includes validGames (default "" game))
  then Throw "Invalid game type. Must be one of: yugioh, mtg, pokemon"
  else if 100 <? limit
  then Throw "Limit cannot exceed 100 cards"
  else if includePrices
  then CardPayload.CardsWithPrices
         <$> CardRepository.getCardsWithLatestPrices repository game searchTerm limit
  else CardPayload.Cards
         <$> CardRepository.getAllCards repository game searchTerm limit offset.

Definition getCardById (repository : CardRepository.t) (cardId : string) :
    result Card.t :=
  if negb (truthy cardId) then Throw "Card ID is required"
  else
    card ← CardRepository.getCardById repository cardId;
    match card with
    | Some card => Ok card
    | None => Throw "Card not found"
    end.

Definition searchCardsBySet (repository : CardRepository.t) (setName : string)
    (game : option string) : result (list Card.t) :=
  if negb (truthy setName) || (js_length (trim setName) <? 2)%nat
  then Throw "Set name must be at least 2 characters long"
  else CardRepository.searchCardsBySet repository (trim setName) game.

Definition createCard (repository : CardRepository.t) (cardData : CardBody.t) :
    result Card.t :=
  if negb (truthy (CardBody.name cardData))
     || (js_length (trim (CardBody.name cardData)) =? 0)%nat
  then Throw "Card name is required"
  else if negb (includes validGames (CardBody.game cardData))
  then Throw "Invalid game type"
  else CardRepository.createCard repository
         (CardBody.mk (trim (CardBody.name cardData)) (CardBody.game cardData)
            (CardBody.set_name cardData) (CardBody.rarity cardData)).

Definition updateCard (repository : CardRepository.t) (cardId : string)
    (updates : CardBody.t) : result Card.t :=
  if negb (truthy cardId) then Throw "Card ID is required"
  else
    _ ← getCardById repository cardId;
    CardRepository.updateCard repository cardId updates.

Definition deleteCard (repository : CardRepository.t) (cardId : string) :
    result () :=
  if negb (truthy cardId) then Throw "Card ID is required"
  else
    _ ← getCardById repository cardId;
    CardRepository.deleteCard repository cardId.

End CardService.

Module CardController.

(** The [try] block of [handleRequest], lines 281-341. *)
Definition dispatch (repository : CardRepository.t) (req : Request.t CardBody.t) :
    result (Response.t CardPayload.t) :=
  let url := Request.searchParams req in
  let pathSegments := Request.pathSegments req in
  let method := Request.method req in
  if bool_decide (method = "GET") then
    if (1 <? length pathSegments)%nat then
      let cardId := last_segment pathSegments in
      card ← CardService.getCardById repository cardId;
      Ok (ok_response (CardPayload.OneCard card))
    else
      let game := if truthy_opt (Query.game url) then Query.game url else None in
      let search := if truthy_opt (Query.search url) then Query.search url else None in
      let includePrices := bool_decide (Query.include_prices url = Some "true") in
      let limit := default 50 (Query.limit url) in
      let offset := default 0 (Query.offset url) in
      let set := Query.set url in
      if truthy_opt set then
        cards ← CardService.searchCardsBySet repository (default "" set) game;
        Ok (ok_response (CardPayload.Cards cards))
      else
        cards ← CardService.getCards repository game search includePrices
                  (Some limit) (Some offset);
        Ok (ok_response cards)
  else if bool_decide (method = "POST") then
    createData ← req_json req;
    newCard ← CardService.createCard repository createData;
    Ok (Response.mk 201 (Response.Json (CardPayload.OneCard newCard)))
  else if bool_decide (method = "PUT") then
    let cardId := last_segment pathSegments in
    updateData ← req_json req;
    updatedCard ← CardService.updateCard repository cardId updateData;
    Ok (ok_response (CardPayload.OneCard updatedCard))
  else if bool_decide (method = "DELETE") then
    let deleteId := last_segment pathSegments in
    _ ← CardService.deleteCard repository deleteId;
    Ok (ok_response CardPayload.Success)
  else
    Ok (Response.mk 405 (Response.Error "Method not allowed")).

(** Lines 276-351: the [try] block and its [catch]. *)
Definition handleRequest (repository : CardRepository.t)
    (req : Request.t CardBody.t) : Response.t CardPayload.t :=
  match dispatch repository req with
  | Ok response => response
  | Throw message =>
      let status := if bool_decide (message = "Card not found") then 404 else 500 in
      Response.mk status (error_body message)
  end.

End CardController.

(** ** Vocabulary of the properties *)

(** [r] is, among the records of [data] with its condition, the first one
    in traversal order that carries the greatest timestamp. *)
Definition first_latest (data : list CardPrice.t) (r : CardPrice.t) : Prop :=
  ∃ pre post,
    data = pre ++ r :: post ∧
    (∀ r', r' ∈ pre → CardPrice.condition r' = CardPrice.condition r →
           CardPrice.recorded_at r' < CardPrice.recorded_at r) ∧
    (∀ r', r' ∈ post → CardPrice.condition r' = CardPrice.condition r →
           CardPrice.recorded_at r' ≤ CardPrice.recorded_at r).

(** The tie-break as the specification words it: [r] is the last record
    in traversal order that carries the greatest timestamp of its
    condition. *)
Definition last_latest (data : list CardPrice.t) (r : CardPrice.t) : Prop :=
  ∃ pre post,
    data = pre ++ r :: post ∧
    (∀ r', r' ∈ pre → CardPrice.condition r' = CardPrice.condition r →
           CardPrice.recorded_at r' ≤ CardPrice.recorded_at r) ∧
    (∀ r', r' ∈ post → CardPrice.condition r' = CardPrice.condition r →
           CardPrice.recorded_at r' < CardPrice.recorded_at r).

(** The distinct elements of a list, in the order of their first
    occurrence: the order in which a [Map] receives its keys. *)
Fixpoint nub (l : list string) : list string :=
  match l with
  | [] => []
  | x :: l' => x :: filter (λ y, y ≠ x) (nub l')
  end.

(** The two windows of the top-gainers ranking as the code tests them, and
    the current window as the specification words it, closed at [now]. *)
Definition in_current (now : Z) (r : CardPriceWithCard.t) : bool :=
  daysAgo now 7 <=? CardPrice.recorded_at (CardPriceWithCard.base r).

Definition in_current_until_now (now : Z) (r : CardPriceWithCard.t) : bool :=
  (daysAgo now 7 <=? CardPrice.recorded_at (CardPriceWithCard.base r))
  && (CardPrice.recorded_at (CardPriceWithCard.base r) <=? now).

Definition in_previous (now : Z) (r : CardPriceWithCard.t) : bool :=
  (daysAgo now 14 <=? CardPrice.recorded_at (CardPriceWithCard.base r))
  && (CardPrice.recorded_at (CardPriceWithCard.base r) <? daysAgo now 7).

(** The first record of [data] with key [k] inside a window. *)
Definition first_of (window : CardPriceWithCard.t → bool) (k : string)
    (data : list CardPriceWithCard.t) : option CardPriceWithCard.t :=
  List.find (λ r, bool_decide (TopGainers.key r = k) && window r) data.

(** What the ranking is to hold for key [k]: nothing unless both windows
    have a record, else the two prices, their difference and the
    percentage. *)
Definition expected_change (current : CardPriceWithCard.t → bool) (now : Z)
    (data : list CardPriceWithCard.t) (k : string) : option PriceChange.t :=
  match first_of (λ _, true) k data,
        first_of current k data,
        first_of (in_previous now) k data with
  | Some r0, Some c, Some p =>
      let current := CardPrice.price (CardPriceWithCard.base c) in
      let previous := CardPrice.price (CardPriceWithCard.base p) in
      Some (PriceChange.mk (CardPriceWithCard.cards r0) current previous
              (current - previous)%Q
              (((current - previous) / previous) * 100)%Q)
  | _, _, _ => None
  end.

Definition expected_changes (current : CardPriceWithCard.t → bool) (now : Z)
    (data : list CardPriceWithCard.t) : list PriceChange.t :=
  omap (expected_change current now data) (nub (TopGainers.key <$> data)).

(** The records of the store that a history query with the given cutoff
    selects. *)
Definition history_rows (supabase : Supabase.t) (cardId condition : string)
    (cutoff : Z) : list CardPrice.t :=
  filter (λ p, CardPrice.card_id p = cardId
               ∧ condition_str (CardPrice.condition p) = condition
               ∧ cutoff ≤ CardPrice.recorded_at p)
    (Supabase.card_prices supabase).

(** The requests that the prices controller refuses by itself. *)
Definition missing_parameter (req : Request.t PriceBody.t) : bool :=
  bool_decide (Request.method req = "GET")
  && negb (includes (Request.pathSegments req) "top-gainers")
  && (if includes (Request.pathSegments req) "history"
      then negb (truthy_opt (Query.card_id (Request.searchParams req)))
           || negb (truthy_opt (Query.condition (Request.searchParams req)))
      else negb (truthy_opt (Query.card_id (Request.searchParams req)))).

(** The latest price among the rows of key [k]: the first row in
    traversal order that carries the greatest timestamp. *)
Fixpoint latest_for (k : string) (rows : list CollectionRow.t) : option PriceRef.t :=
  match rows with
  | [] => None
  | item :: rest =>
      if decide (CollectionRepository.cardKey item = k) then
        match latest_for k rest with
        | Some later =>
            if PriceRef.recorded_at (CollectionRow.card_prices item)
                 <? PriceRef.recorded_at later
            then Some later
            else Some (CollectionRow.card_prices item)
        | None => Some (CollectionRow.card_prices item)
        end
      else latest_for k rest
  end.

(** The sum, over the rows, of the latest price of the row's key times
    the row's quantity. *)
Definition valuation (rows : list CollectionRow.t) : Q :=
  foldr Qplus 0%Q
    ((λ item,
        match latest_for (CollectionRepository.cardKey item) rows with
        | Some latest => PriceRef.price latest * inject_Z (CollectionRow.quantity item)
        | None => 0
        end%Q) <$> rows).

(** ** Invariants of the loops *)

(** The map of the resolver once [data] has been traversed. *)
Definition resolver_inv (data : list CardPrice.t) (m : JsMap CardPrice.t) : Prop :=
  NoDup (Map_keys m) ∧
  (∀ k, k ∈ Map_keys m ↔
        ∃ r, r ∈ data ∧ condition_str (CardPrice.condition r) = k) ∧
  (∀ k r, Map_get k m = Some r →
          k = condition_str (CardPrice.condition r) ∧ first_latest data r).

Definition price_of (r : CardPriceWithCard.t) : Q :=
  CardPrice.price (CardPriceWithCard.base r).

(** What the entry of key [k] holds once [data] has been scanned. *)
Definition entry_ok (now : Z) (data : list CardPriceWithCard.t) (k : string)
    (e : PriceChange.t) : Prop :=
  (∃ r0, first_of (λ _, true) k data = Some r0
         ∧ PriceChange.card e = CardPriceWithCard.cards r0) ∧
  PriceChange.currentPrice e
    = from_option price_of 0%Q (first_of (in_current now) k data) ∧
  PriceChange.previousPrice e
    = from_option price_of 0%Q (first_of (in_previous now) k data) ∧
  PriceChange.change e = 0%Q ∧
  PriceChange.changePercent e = 0%Q.

Definition gainers_inv (now : Z) (data : list CardPriceWithCard.t)
    (m : JsMap PriceChange.t) : Prop :=
  Map_keys m = nub (TopGainers.key <$> data) ∧
  ∀ k e, Map_get k m = Some e → entry_ok now data k e.


(** ** Sample data *)

Definition ex_card : Card.t :=
  Card.mk "card-1" "Dark Magician" yugioh (Some "Legend of Blue Eyes")
    (Some "Ultra Rare").

Definition ex_now : Z := 20000 * msPerDay.

(** An observation of [ex_card], near mint, [daysBack] days before
    [ex_now]. *)
Definition ex_price (id : string) (price : Q) (daysBack : Z) : CardPriceWithCard.t :=
  CardPriceWithCard.mk
    (CardPrice.mk id "card-1" near_mint price "EUR" None (daysAgo ex_now daysBack))
    ex_card.

(** Newest first: 110 yesterday, 100 ten days ago. *)
Definition ex_data : list CardPriceWithCard.t :=
  [ex_price "p2" 110 1; ex_price "p1" 100 10].

(** The same with an observation dated one day after [ex_now] in front. *)
Definition ex_data_future : list CardPriceWithCard.t :=
  ex_price "p3" 200 (-1) :: ex_data.

(** A store without answers to writes. *)
Definition read_only_store (cards : list Card.t) (card_prices : list CardPrice.t)
    (user_collections : list UserCollection.t)
    (collections_with_prices : string → option (list CollectionRow.t)) :
    Supabase.t :=
  Supabase.mk cards card_prices user_collections collections_with_prices
    (λ _, Throw "read only") (λ _ _, Throw "read only") (λ _, Throw "read only")
    (λ _ _, Throw "read only") (λ _ _ _, Throw "read only")
    (λ _ _, Throw "read only") (λ _, None).

(** Fifty-two cards, each with a price of today and a lower one of ten
    days ago: fifty-two gainers. *)
Definition bulk_id (n : nat) : string := foldr String.append "" (replicate n "i").

Definition bulk_store : Supabase.t :=
  read_only_store
    ((λ n, Card.mk (bulk_id n) "Card" yugioh None None) <$> seq 1 52)
    (mbind (λ n, [CardPrice.mk "" (bulk_id n) near_mint (inject_Z (Z.of_nat n) + 1)
                    "EUR" None ex_now;
                  CardPrice.mk "" (bulk_id n) near_mint 1
                    "EUR" None (daysAgo ex_now 10)])
       (seq 1 52))
    [] (λ _, None).

(** A store with one observation of [ex_card], near mint, recorded at
    [recorded_at]. *)
Definition one_price_store (recorded_at : Z) : Supabase.t :=
  read_only_store [ex_card]
    [CardPrice.mk "p0" "card-1" near_mint 100 "EUR" None recorded_at]
    [] (λ _, None).

(** Requests to the three functions. *)
Definition no_query : Query.t := Query.mk None None None None None None None None None.

Definition history_request (cardId condition : string) (days : Z) :
    Request.t PriceBody.t :=
  Request.mk "GET" ["prices"; "history"]
    (Query.mk None None (Some cardId) (Some condition) (Some days) None None None None)
    None None.

Definition top_gainers_request (game : option string) (limit : Z) :
    Request.t PriceBody.t :=
  Request.mk "GET" ["prices"; "top-gainers"]
    (Query.mk game (Some limit) None None None None None None None)
    None None.

Definition add_price_request (priceData : PriceBody.t) : Request.t PriceBody.t :=
  Request.mk "POST" ["prices"] no_query None (Some priceData).

Definition add_to_collection_request (authHeader : string)
    (addData : CollectionBody.t) : Request.t CollectionBody.t :=
  Request.mk "POST" ["collections"] no_query (Some authHeader) (Some addData).

Definition create_card_request (createData : CardBody.t) : Request.t CardBody.t :=
  Request.mk "POST" ["cards"] no_query None (Some createData).

(** The collection of the specification: two of card A at 10.00 and one of
    card B at 50.00. *)
Definition card_a : Card.t := Card.mk "card-a" "Card A" yugioh (Some "Set A") None.
Definition card_b : Card.t := Card.mk "card-b" "Card B" mtg (Some "Set B") None.

Definition two_entries_store : Supabase.t :=
  read_only_store [card_a; card_b] []
    [UserCollection.mk "e1" "user-1" "card-a" near_mint 2 None None 1;
     UserCollection.mk "e2" "user-1" "card-b" near_mint 1 None None 2]
    (λ _, Some [CollectionRow.mk "card-a" near_mint 2 card_a (PriceRef.mk 10 ex_now);
                CollectionRow.mk "card-b" near_mint 1 card_b (PriceRef.mk 50 ex_now)]).

(** Two observations of one condition that share their timestamp. *)
Definition tie_a : CardPrice.t :=
  CardPrice.mk "a" "card-1" near_mint 10 "EUR" None 1000.
Definition tie_b : CardPrice.t :=
  CardPrice.mk "b" "card-1" near_mint 12 "EUR" None 1000.

(** Whether a string holds the dash that separates the two parts of a
    map key. *)
Fixpoint has_dash (s : string) : bool :=
  match s with
  | EmptyString => false
  | String a s' => bool_decide (String a "" = "-") || has_dash s'
  end.

(** ** Further parts of the three functions *)

(** Lines 355-370 of the cards function and the last lines of the
    collection function: the handlers given to [serve]. *)
Definition CardController_serve (repository : CardRepository.t)
    (req : Request.t CardBody.t) : Response.t CardPayload.t :=
  if bool_decide (Request.method req = "OPTIONS")
  then Response.mk 200 Response.Empty
  else CardController.handleRequest repository req.

Definition CollectionController_serve (supabase : Supabase.t)
    (req : Request.t CollectionBody.t) : Response.t CollectionPayload.t :=
  if bool_decide (Request.method req = "OPTIONS")
  then Response.mk 200 Response.Empty
  else CollectionController.handleRequest supabase req.

(** A row of the select of [getCardsWithLatestPrices] as the [forEach]
    reads it: the columns of the card, and one [card_prices] object with
    price, condition, currency and timestamp. *)
Module CardRow.
Record t := mk {
card : Card.t;
card_prices : LatestPrice.t;
}.
End CardRow.

(** Lines 98-122 of the cards function: the processing of the rows in
    [CardRepository.getCardsWithLatestPrices]. *)
Module CardsWithLatestPrices.

(** The value that [cardMap.set] stores for a row. *)
Definition entry (item : CardRow.t) : CardWithLatestPrice.t :=
CardWithLatestPrice.mk (CardRow.card item)
  (Some (LatestPrice.mk
           (LatestPrice.price (CardRow.card_prices item))
           (LatestPrice.condition (CardRow.card_prices item))
           (LatestPrice.currency (CardRow.card_prices item))
           (LatestPrice.recorded_at (CardRow.card_prices item)))).

(** Lines 102-119, the body of the [forEach]. *)
Definition step (cardMap : JsMap CardWithLatestPrice.t) (item : CardRow.t) :
  JsMap CardWithLatestPrice.t :=
let cardId := Card.id (CardRow.card item) in
let existingCard := Map_get cardId cardMap in
if match existingCard with
   | None => true
   | Some existingCard =>
       match CardWithLatestPrice.latest_price existingCard with
       | Some latest =>
           LatestPrice.recorded_at latest
             <? LatestPrice.recorded_at (CardRow.card_prices item)
       | None => false
       end
   end
then Map_set cardId (entry item) cardMap
else cardMap.

Definition process (data : option (list CardRow.t)) : list CardWithLatestPrice.t :=
Map_values
  (match data with
   | Some rows => fold_left step rows []
   | None => []
   end).

End CardsWithLatestPrices.

(** The ranking of [getTopGainers] before its truncation. *)
Definition ranking (now : Z) (data : list CardPriceWithCard.t) : list PriceChange.t :=
  stable_sort TopGainers.byChangePercent (TopGainers.changes now data).

(** The length that [slice(0, limit)] leaves of a list of length [len]. *)
Definition sliced_length (limit : Z) (len : nat) : nat :=
  if limit <? 0
  then Z.to_nat (Z.max (Z.of_nat len + limit) 0)
  else Z.to_nat (Z.min limit (Z.of_nat len)).

(** A row is, among the rows of [data] with its card, the first one in
    traversal order that carries the greatest timestamp. *)
Definition first_latest_row (data : list CardRow.t) (r : CardRow.t) : Prop :=
  ∃ pre post,
    data = pre ++ r :: post ∧
    (∀ r', r' ∈ pre → Card.id (CardRow.card r') = Card.id (CardRow.card r) →
           LatestPrice.recorded_at (CardRow.card_prices r')
             < LatestPrice.recorded_at (CardRow.card_prices r)) ∧
    (∀ r', r' ∈ post → Card.id (CardRow.card r') = Card.id (CardRow.card r) →
           LatestPrice.recorded_at (CardRow.card_prices r')
             ≤ LatestPrice.recorded_at (CardRow.card_prices r)).

(** The methods that the controllers serve. *)
Definition served_methods : list string := ["GET"; "POST"; "PUT"; "DELETE"].

(** A card repository over a list of cards that refuses every write. *)
Definition list_card_repository (cards : list Card.t) : CardRepository.t :=
  CardRepository.mk
    (λ _ _ _ _, Ok cards)
    (λ cardId, Ok (List.find (λ c, bool_decide (Card.id c = cardId)) cards))
    (λ _ _ _, Ok [])
    (λ _, Throw "read only")
    (λ _ _, Throw "read only")
    (λ _, Throw "read only")
    (λ _ _, Ok cards).

(** The order of a list that goes from the newest record to the oldest. *)
Definition newer_first (a b : CardPrice.t) : Prop :=
  CardPrice.recorded_at b ≤ CardPrice.recorded_at a.

(** Newest first: 90 yesterday, 100 ten days ago. *)
Definition ex_data_falling : list CardPriceWithCard.t :=
  [ex_price "p2" 90 1; ex_price "p1" 100 10].

(** Where the entry of key [k] takes its card and its prices from, once
    [data] has been scanned: a price is still unset, or it is the price of
    a scanned record of that key inside the window. *)
Definition entry_from (now : Z) (data : list CardPriceWithCard.t) (k : string)
    (e : PriceChange.t) : Prop :=
  (∃ r, r ∈ data ∧ TopGainers.key r = k
        ∧ PriceChange.card e = CardPriceWithCard.cards r) ∧
  (PriceChange.currentPrice e = 0%Q
   ∨ ∃ r, r ∈ data ∧ TopGainers.key r = k ∧ in_current now r = true
          ∧ PriceChange.currentPrice e = price_of r) ∧
  (PriceChange.previousPrice e = 0%Q
   ∨ ∃ r, r ∈ data ∧ TopGainers.key r = k ∧ in_previous now r = true
          ∧ PriceChange.previousPrice e = price_of r).

Definition ranks_above (a b : PriceChange.t) : Prop :=
  (PriceChange.changePercent b <= PriceChange.changePercent a)%Q.

(** The price that the statistics take for a row: the price of the latest
    row of its key. *)
Definition latest_price (rows : list CollectionRow.t) (item : CollectionRow.t) : Q :=
  match latest_for (CollectionRepository.cardKey item) rows with
  | Some latest => PriceRef.price latest
  | None => 0%Q
  end.

(** The map of [getCardsWithLatestPrices] once [data] has been traversed. *)
Definition card_rows_inv (data : list CardRow.t)
    (m : JsMap CardWithLatestPrice.t) : Prop :=
  Map_keys m = nub ((λ r, Card.id (CardRow.card r)) <$> data) ∧
  ∀ k e, Map_get k m = Some e →
         ∃ r, first_latest_row data r ∧ Card.id (CardRow.card r) = k
              ∧ e = CardsWithLatestPrices.entry r.

(** A store in which every authorization header is the session of
    [user_id]. *)
Definition signed_in (supabase : Supabase.t) (user_id : string) : Supabase.t :=
  Supabase.mk (Supabase.cards supabase) (Supabase.card_prices supabase)
    (Supabase.user_collections supabase) (Supabase.collections_with_prices supabase)
    (Supabase.insert_price supabase) (Supabase.update_price supabase)
    (Supabase.delete_price supabase) (Supabase.insert_collection supabase)
    (Supabase.update_collection supabase) (Supabase.delete_collection supabase)
    (λ _, Some user_id).

Definition collections_request (authHeader : string) : Request.t CollectionBody.t :=
  Request.mk "GET" ["collections"] no_query (Some authHeader) None.

(** [url.searchParams.get(name) || undefined] *)
Definition given (value : option string) : option string :=
  if truthy_opt value then value else None.

Definition list_cards_request (query : Query.t) : Request.t CardBody.t :=
  Request.mk "GET" ["cards"] query None None.

(** The no-break space U+00A0, which [trim] strips. *)
Definition nbsp : string :=
  String (Ascii.ascii_of_N 194) (String (Ascii.ascii_of_N 160) "").

(** * Properties *)

(** ** Facts about [JsMap] *)

Section JsMapFacts.
Context {V : Type}.
Implicit Types m : JsMap V.

Lemma Map_get_set (k k' : string) (v : V) (m : JsMap V) :
  Map_get k' (Map_set k v m) = if decide (k = k') then Some v else Map_get k' m.
Proof.
  induction m as [|[k0 v0] m IH]; simpl.
  - repeat case_decide; congruence.
  - repeat (case_decide; simpl); try congruence.
Qed.

Lemma Map_keys_set (k : string) (v : V) (m : JsMap V) :
  Map_keys (Map_set k v m) =
  if Map_has k m then Map_keys m else Map_keys m ++ [k].
Proof.
  unfold Map_has, Map_keys.
  induction m as [|[k0 v0] m IH]; cbn [Map_set Map_get]; [done|].
  case_decide; [done|].
  rewrite !fmap_cons, IH. by destruct (Map_get k m).
Qed.

Lemma Map_get_Some_key (k : string) (v : V) (m : JsMap V) :
  Map_get k m = Some v → k ∈ Map_keys m.
Proof.
  unfold Map_keys.
  induction m as [|[k0 v0] m IH]; cbn [Map_get]; [done|].
  rewrite fmap_cons.
  case_decide; subst; intros; [left | right; auto].
Qed.

Lemma Map_get_None_key (k : string) (m : JsMap V) :
  Map_get k m = None ↔ k ∉ Map_keys m.
Proof.
  unfold Map_keys.
  induction m as [|[k0 v0] m IH]; cbn [Map_get].
  - split; [intros _; apply not_elem_of_nil | done].
  - rewrite fmap_cons, not_elem_of_cons. cbn [fst]. case_decide; subst.
    + split; [done | intros [? _]; done].
    + rewrite IH. split; [by split | by intros [_ ?]].
Qed.

Lemma Map_values_get (v : V) (m : JsMap V) :
  v ∈ Map_values m → ∃ k, (k, v) ∈ m.
Proof.
  unfold Map_values. intros [[k v'] [-> Hin]]%list_elem_of_fmap. eauto.
Qed.

Lemma Map_elem_get (k : string) (v : V) (m : JsMap V) :
  NoDup (Map_keys m) → (k, v) ∈ m → Map_get k m = Some v.
Proof.
  unfold Map_keys.
  induction m as [|[k0 v0] m IH]; cbn [Map_get]; intros Hnd Hin.
  - by apply elem_of_nil in Hin.
  - rewrite fmap_cons in Hnd. apply NoDup_cons in Hnd as [Hk0 Hnd].
    apply elem_of_cons in Hin as [Heq | Hin].
    + injection Heq as -> ->. by rewrite decide_True.
    + case_decide; subst; [|by apply IH].
      exfalso. apply Hk0. apply list_elem_of_fmap. by exists (k, v).
Qed.

Lemma Map_get_elem (k : string) (v : V) (m : JsMap V) :
  Map_get k m = Some v → (k, v) ∈ m.
Proof.
  induction m as [|[k0 v0] m IH]; simpl; [done|].
  case_decide; subst.
  - intros [= ->]. left.
  - intros. right. auto.
Qed.
End JsMapFacts.

(** ** Facts about [stable_sort] *)

Section SortFacts.
Context {A : Type} (le : A → A → bool).

Lemma insert_sorted_Permutation (x : A) (l : list A) :
  insert_sorted le x l ≡ₚ x :: l.
Proof.
  induction l as [|y l IH]; simpl; [done|].
  destruct (le x y); [done|]. rewrite IH. apply Permutation_swap.
Qed.

Lemma stable_sort_Permutation (l : list A) : stable_sort le l ≡ₚ l.
Proof.
  induction l as [|x l IH]; simpl; [done|].
  by rewrite insert_sorted_Permutation, IH.
Qed.

Lemma stable_sort_length (l : list A) : length (stable_sort le l) = length l.
Proof. by rewrite stable_sort_Permutation. Qed.

Lemma stable_sort_elem_of (x : A) (l : list A) : x ∈ stable_sort le l ↔ x ∈ l.
Proof. by rewrite stable_sort_Permutation. Qed.

Hypothesis le_total : ∀ x y, le x y = true ∨ le y x = true.

Lemma insert_sorted_Sorted (x : A) (l : list A) :
  Sorted (λ a b, le a b = true) l →
  Sorted (λ a b, le a b = true) (insert_sorted le x l).
Proof.
  induction 1 as [|y l Hs IH Hhd]; simpl.
  - repeat constructor.
  - destruct (le x y) eqn:Hxy.
    + repeat constructor; done.
    + constructor; [done|].
      destruct Hhd as [|z l Hyz]; simpl.
      * constructor. destruct (le_total x y); congruence.
      * destruct (le x z); constructor; [|done].
        destruct (le_total x y); congruence.
Qed.

Lemma stable_sort_Sorted (l : list A) :
  Sorted (λ a b, le a b = true) (stable_sort le l).
Proof.
  induction l as [|x l IH]; simpl; [constructor|].
  by apply insert_sorted_Sorted.
Qed.
End SortFacts.

(** ** The latest-price resolver *)

Lemma condition_str_inj (c1 c2 : Condition) :
  condition_str c1 = condition_str c2 → c1 = c2.
Proof. by destruct c1, c2. Qed.

Section Resolver.
Import PriceRepository.

Lemma first_latest_snoc_keep data r x :
  first_latest data r →
  (CardPrice.condition x = CardPrice.condition r →
   CardPrice.recorded_at x ≤ CardPrice.recorded_at r) →
  first_latest (data ++ [x]) r.
Proof.
  intros (pre & post & -> & Hpre & Hpost) Hx.
  exists pre, (post ++ [x]). split; [by rewrite <- app_assoc|].
  split; [done|].
  intros r' [Hin | ->%list_elem_of_singleton]%elem_of_app; auto.
Qed.

Lemma first_latest_snoc_new data x :
  (∀ r', r' ∈ data → CardPrice.condition r' = CardPrice.condition x →
         CardPrice.recorded_at r' < CardPrice.recorded_at x) →
  first_latest (data ++ [x]) x.
Proof.
  intros Hlt. exists data, []. split; [done|]. split; [done|].
  intros r' Hin. by apply elem_of_nil in Hin.
Qed.

Lemma first_latest_bound data r r' :
  first_latest data r → r' ∈ data →
  CardPrice.condition r' = CardPrice.condition r →
  CardPrice.recorded_at r' ≤ CardPrice.recorded_at r.
Proof.
  intros (pre & post & -> & Hpre & Hpost).
  intros [Hin | [-> | Hin]%elem_of_cons]%elem_of_app Hc.
  - specialize (Hpre _ Hin Hc). lia.
  - lia.
  - auto.
Qed.

Lemma first_latest_elem_of data r : first_latest data r → r ∈ data.
Proof.
  intros (pre & post & -> & _). apply elem_of_app. right. left.
Qed.

Lemma latest_step_inv data m x :
  resolver_inv data m → resolver_inv (data ++ [x]) (latest_step m x).
Proof.
  intros (Hnd & Hkeys & Hget). unfold latest_step, Map_has.
  set (key := condition_str (CardPrice.condition x)).
  destruct (Map_get key m) as [kept|] eqn:Hkept; simpl.
  - destruct (Hget _ _ Hkept) as [Hk Hfl].
    assert (Hcond : CardPrice.condition x = CardPrice.condition kept)
      by (apply condition_str_inj; fold key; congruence).
    assert (Hsame : ∀ k, (∃ r, r ∈ data ++ [x] ∧
               condition_str (CardPrice.condition r) = k) ↔ k ∈ Map_keys m).
    { intros k. rewrite Hkeys. split.
      - intros (r & [Hin | ->%list_elem_of_singleton]%elem_of_app & <-).
        + eauto.
        + exists kept. split; [by apply first_latest_elem_of|].
          by rewrite Hcond.
      - intros (r & Hin & <-). exists r. split; [|done].
        apply elem_of_app. by left. }
    destruct (Z.ltb_spec (CardPrice.recorded_at kept) (CardPrice.recorded_at x))
      as [Hlt | Hge].
    + split; [|split].
      * rewrite Map_keys_set. unfold Map_has. by rewrite Hkept.
      * intros k. rewrite Map_keys_set. unfold Map_has. rewrite Hkept.
        by rewrite Hsame.
      * intros k r. rewrite Map_get_set. case_decide as Hk'.
        -- intros [= <-]. split; [done|].
           apply first_latest_snoc_new. intros r' Hin Hc.
           pose proof (first_latest_bound _ _ r' Hfl Hin ltac:(congruence)). lia.
        -- intros Hr. destruct (Hget _ _ Hr) as [-> Hflr].
           split; [done|]. apply first_latest_snoc_keep; [done|].
           intros Hc. exfalso. apply Hk'. unfold key. by rewrite Hc.
    + split; [done|]. split; [intros k; by rewrite Hsame|].
      intros k r Hr. destruct (Hget _ _ Hr) as [-> Hflr].
      split; [done|]. apply first_latest_snoc_keep; [done|].
      intros Hc.
      assert (r = kept) as ->.
      { rewrite <- Hc in Hr. fold key in Hr. congruence. }
      done.
  - assert (Hfresh : key ∉ Map_keys m) by by apply Map_get_None_key.
    split; [|split].
    + rewrite Map_keys_set. unfold Map_has. rewrite Hkept.
      apply NoDup_app. split; [done|]. split; [|apply NoDup_singleton].
      intros k Hk ->%list_elem_of_singleton. done.
    + intros k. rewrite Map_keys_set. unfold Map_has. rewrite Hkept.
      rewrite elem_of_app, Hkeys, list_elem_of_singleton. split.
      * intros [(r & Hin & <-) | ->].
        -- exists r. split; [|done]. apply elem_of_app. by left.
        -- exists x. split; [|done]. apply elem_of_app. right. left.
      * intros (r & [Hin | ->%list_elem_of_singleton]%elem_of_app & <-);
          [left; eauto | by right].
    + intros k r. rewrite Map_get_set. case_decide as Hk'.
      * intros [= <-]. split; [done|].
        apply first_latest_snoc_new. intros r' Hin Hc.
        exfalso. apply Hfresh. apply Hkeys. exists r'. split; [done|].
        unfold key. by rewrite Hc.
      * intros Hr. destruct (Hget _ _ Hr) as [-> Hflr].
        split; [done|]. apply first_latest_snoc_keep; [done|].
        intros Hc. exfalso. apply Hk'. unfold key. by rewrite Hc.
Qed.

Lemma latest_fold_inv data : resolver_inv data (fold_left latest_step data []).
Proof.
  induction data as [|x data IH] using rev_ind.
  - split; [constructor|]. split.
    + intros k. split; [by intros ?%elem_of_nil|].
      by intros (r & ?%elem_of_nil & _).
    + done.
  - rewrite fold_left_app. simpl. by apply latest_step_inv.
Qed.

Lemma latestPrices_first_latest data r :
  r ∈ latestPrices (Some data) → first_latest data r.
Proof.
  unfold latestPrices. intros [k Hin]%Map_values_get.
  destruct (latest_fold_inv data) as (Hnd & _ & Hget).
  by apply (Hget k), Map_elem_get.
Qed.
End Resolver.

Lemma latestPrices_conditions (data : list CardPrice.t) :
  let out := PriceRepository.latestPrices (Some data) in
  NoDup (CardPrice.condition <$> out) ∧
  ∀ c, c ∈ CardPrice.condition <$> out ↔ c ∈ CardPrice.condition <$> data.
Proof.
  unfold PriceRepository.latestPrices.
  destruct (latest_fold_inv data) as (Hnd & Hkeys & Hget).
  set (m := fold_left PriceRepository.latest_step data []) in *.
  assert (Hm : Map_keys m = condition_str <$> (CardPrice.condition <$> Map_values m)).
  { unfold Map_keys, Map_values. rewrite <- !list_fmap_compose.
    apply Forall_fmap_ext_1, Forall_forall. intros [k r] Hin. simpl.
    by apply (Map_elem_get _ _ _ Hnd), Hget in Hin as [-> _]. }
  split.
  - rewrite Hm in Hnd. by apply NoDup_fmap_1 in Hnd.
  - intros c. split.
    + intros (r & -> & Hin)%list_elem_of_fmap. apply list_elem_of_fmap.
      exists r. split; [done|]. by apply latestPrices_first_latest, first_latest_elem_of in Hin.
    + intros (r & -> & Hin)%list_elem_of_fmap.
      assert (Hk : condition_str (CardPrice.condition r) ∈ Map_keys m)
        by (apply Hkeys; eauto).
      rewrite Hm in Hk.
      apply list_elem_of_fmap in Hk as (c & Hc & Hin').
      by apply condition_str_inj in Hc as ->.
Qed.

(** C4. For every store and card, [getLatestPricesForCard] returns a list
    with exactly one record per distinct condition occurring among the
    card's price records (no condition twice, and the same set of
    conditions as the input), and each returned record is an input record
    whose [recorded_at] is greater than or equal to that of every input
    record of the same condition. *)
Theorem latest_prices_one_per_condition (supabase : Supabase.t) (cardId : string) :
  let input :=
    filter (λ p, CardPrice.card_id p = cardId) (Supabase.card_prices supabase) in
  ∃ out,
    PriceRepository.getLatestPricesForCard supabase cardId = Ok out ∧
    NoDup (CardPrice.condition <$> out) ∧
    (∀ c, c ∈ CardPrice.condition <$> out ↔ c ∈ CardPrice.condition <$> input) ∧
    (∀ r, r ∈ out →
       r ∈ input ∧
       ∀ r', r' ∈ input →
             CardPrice.condition r' = CardPrice.condition r →
             CardPrice.recorded_at r' ≤ CardPrice.recorded_at r).
Proof.
  intros input. unfold PriceRepository.getLatestPricesForCard. fold input.
  set (data := order_recorded_at false input).
  assert (Hperm : ∀ r, r ∈ data ↔ r ∈ input)
    by (intros r; apply stable_sort_elem_of).
  exists (PriceRepository.latestPrices (Some data)). split; [done|].
  destruct (latestPrices_conditions data) as [Hnd Hcs].
  split; [done|]. split.
  - intros c. rewrite Hcs. rewrite !list_elem_of_fmap.
    by setoid_rewrite Hperm.
  - intros r Hr%latestPrices_first_latest. split.
    + by apply Hperm, first_latest_elem_of.
    + intros r' Hin%Hperm Hc. by eapply first_latest_bound.
Qed.

(** C2, as stated, fails: on two records of one condition with equal
    timestamps the resolver returns the first one traversed, which is not
    the last record carrying the greatest timestamp. *)
Lemma tie_break_last_wins_refuted :
  PriceRepository.latestPrices (Some [tie_a; tie_b]) = [tie_a] ∧
  ¬ (∀ r, r ∈ PriceRepository.latestPrices (Some [tie_a; tie_b]) →
          last_latest [tie_a; tie_b] r).
Proof.
  assert (Hout : PriceRepository.latestPrices (Some [tie_a; tie_b]) = [tie_a])
    by reflexivity.
  split; [done|]. rewrite Hout. intros Hlast.
  destruct (Hlast tie_a ltac:(left)) as (pre & post & Hsplit & _ & Hpost).
  destruct pre as [|p pre].
  - injection Hsplit as <-.
    specialize (Hpost tie_b ltac:(left) eq_refl). simpl in Hpost. lia.
  - injection Hsplit as <- Hrest.
    destruct pre as [|q pre]; [discriminate|].
    injection Hrest as _ Hrest. by destruct pre.
Qed.

(** C2, amended. For every input sequence, each record the resolver
    returns is the first record in traversal order among the records of
    its condition that carry the greatest timestamp: every earlier record
    of that condition is strictly older, every later one is not newer
    (first one encountered wins). *)
Theorem tie_break_first_wins (data : list CardPrice.t) (r : CardPrice.t) :
  r ∈ PriceRepository.latestPrices (Some data) →
  ∃ pre post,
    data = pre ++ r :: post ∧
    (∀ r', r' ∈ pre → CardPrice.condition r' = CardPrice.condition r →
           CardPrice.recorded_at r' < CardPrice.recorded_at r) ∧
    (∀ r', r' ∈ post → CardPrice.condition r' = CardPrice.condition r →
           CardPrice.recorded_at r' ≤ CardPrice.recorded_at r).
Proof. intros Hr. by apply latestPrices_first_latest in Hr. Qed.

Lemma tie_break_first_wins_witness :
  ∃ pre post,
    [tie_a; tie_b] = pre ++ tie_a :: post ∧
    (∀ r', r' ∈ pre → CardPrice.condition r' = CardPrice.condition tie_a →
           CardPrice.recorded_at r' < CardPrice.recorded_at tie_a) ∧
    (∀ r', r' ∈ post → CardPrice.condition r' = CardPrice.condition tie_a →
           CardPrice.recorded_at r' ≤ CardPrice.recorded_at tie_a).
Proof. apply (tie_break_first_wins [tie_a; tie_b] tie_a). vm_compute. left. Defined.

(** ** The top-gainers ranking *)

Lemma has_dash_app (s t : string) : has_dash (s +:+ "-" +:+ t) = true.
Proof.
  induction s as [|a s IH]; [done|].
  change (has_dash (String a (s +:+ "-" +:+ t)) = true).
  cbn [has_dash]. rewrite IH. apply orb_true_r.
Qed.

Lemma has_dash_condition (c : Condition) : has_dash (condition_str c) = false.
Proof. by destruct c. Qed.

(** A key determines its card and its condition: no condition holds a
    dash, so the last dash of a key is the separator. *)
Lemma dash_key_inj (id1 id2 : string) (c1 c2 : Condition) :
  id1 +:+ "-" +:+ condition_str c1 = id2 +:+ "-" +:+ condition_str c2 →
  id1 = id2 ∧ c1 = c2.
Proof.
  revert id2. induction id1 as [|a id1 IH]; intros [|b id2];
    change (String ?x ?s +:+ ?t) with (String x (s +:+ t));
    change ("" +:+ ?t) with t.
  - intros [= H%condition_str_inj]. done.
  - intros [= <- H]. exfalso. change ("" +:+ ?t) with t in H.
    pose proof (has_dash_condition c1) as Hc. rewrite H in Hc.
    by rewrite has_dash_app in Hc.
  - intros [= -> H]. exfalso. change ("" +:+ ?t) with t in H.
    pose proof (has_dash_condition c2) as Hc. rewrite <- H in Hc.
    by rewrite has_dash_app in Hc.
  - intros [= -> H]. apply IH in H as [-> ->]. done.
Qed.

(** X22. Two price records share their key in the map of the top gainers
    exactly when they share card id and condition, also when a card id
    holds dashes: distinct pairs are never merged. *)
Lemma key_inj (r1 r2 : CardPriceWithCard.t) :
  TopGainers.key r1 = TopGainers.key r2 ↔
  CardPrice.card_id (CardPriceWithCard.base r1)
    = CardPrice.card_id (CardPriceWithCard.base r2)
  ∧ CardPrice.condition (CardPriceWithCard.base r1)
    = CardPrice.condition (CardPriceWithCard.base r2).
Proof.
  unfold TopGainers.key. split; [apply dash_key_inj|]. by intros [-> ->].
Qed.

Lemma find_snoc {A} (f : A → bool) (l : list A) (x : A) :
  List.find f (l ++ [x]) =
  match List.find f l with
  | Some y => Some y
  | None => if f x then Some x else None
  end.
Proof.
  induction l as [|y l IH]; simpl; [done|]. by destruct (f y).
Qed.

Lemma elem_of_nub (x : string) (l : list string) : x ∈ nub l ↔ x ∈ l.
Proof.
  induction l as [|y l IH]; [done|]. cbn [nub].
  rewrite !elem_of_cons, list_elem_of_filter, IH.
  destruct (decide (x = y)); tauto.
Qed.

Lemma NoDup_nub (l : list string) : NoDup (nub l).
Proof.
  induction l as [|y l IH]; cbn [nub]; [constructor|].
  apply NoDup_cons. split; [|by apply NoDup_filter].
  rewrite list_elem_of_filter. tauto.
Qed.

Lemma nub_snoc (l : list string) (x : string) :
  nub (l ++ [x]) = if decide (x ∈ l) then nub l else nub l ++ [x].
Proof.
  induction l as [|y l IH].
  - rewrite decide_False by apply not_elem_of_nil. done.
  - cbn [nub app]. rewrite IH. destruct (decide (x = y)) as [->|Hne].
    + rewrite (decide_True (P := y ∈ y :: l)) by left.
      destruct (decide (y ∈ l)); [done|].
      rewrite filter_app, filter_cons_False, filter_nil by (intros ?; done).
      by rewrite app_nil_r.
    + destruct (decide (x ∈ l)) as [Hin|Hnin].
      * by rewrite decide_True by by right.
      * rewrite decide_False by (rewrite elem_of_cons; intros [?|?]; done).
        by rewrite filter_app, filter_cons_True, filter_nil by done.
Qed.

Lemma Qpositive_true (x : Q) : Qpositive x = true ↔ (0 < x)%Q.
Proof.
  unfold Qpositive. rewrite negb_true_iff, <- not_true_iff_false, Qle_bool_iff.
  split; [apply Qnot_le_lt | apply Qlt_not_le].
Qed.

Lemma Qeq_bool_positive (x : Q) : (0 < x)%Q → Qeq_bool x 0 = false.
Proof.
  intros Hx. apply not_true_iff_false. rewrite Qeq_bool_iff.
  intros Heq. rewrite Heq in Hx. by apply Qlt_irrefl in Hx.
Qed.

Section Gainers.
Variable now : Z.

Lemma first_of_snoc window k data x :
  first_of window k (data ++ [x]) =
  match first_of window k data with
  | Some y => Some y
  | None => if bool_decide (TopGainers.key x = k) && window x then Some x else None
  end.
Proof. unfold first_of. by rewrite find_snoc. Qed.

Lemma first_of_snoc_other window k data x :
  TopGainers.key x ≠ k → first_of window k (data ++ [x]) = first_of window k data.
Proof.
  intros Hne. rewrite first_of_snoc. rewrite bool_decide_eq_false_2 by done.
  by destruct (first_of window k data).
Qed.

Lemma first_of_None_key window k data :
  k ∉ TopGainers.key <$> data → first_of window k data = None.
Proof.
  intros Hk. unfold first_of.
  destruct (List.find _ data) as [r|] eqn:Hfind; [|done].
  apply find_some in Hfind as [Hin [Hkey _]%andb_prop].
  apply bool_decide_eq_true in Hkey. exfalso. apply Hk.
  apply list_elem_of_fmap. exists r. split; [done|]. by apply list_elem_of_In.
Qed.

Lemma in_current_previous x : in_current now x = true → in_previous now x = false.
Proof.
  unfold in_current, in_previous. intros H%Z.leb_le.
  apply andb_false_iff. right. apply Z.ltb_ge. done.
Qed.

Lemma step_inv data m x :
  (∀ r, r ∈ data ++ [x] → (0 < price_of r)%Q) →
  gainers_inv now data m →
  gainers_inv now (data ++ [x])
    (TopGainers.step (daysAgo now 7) (daysAgo now 14) m x).
Proof.
  intros Hpos [Hkeys Hget]. unfold TopGainers.step.
  set (kx := TopGainers.key x).
  set (init := PriceChange.mk (CardPriceWithCard.cards x) 0 0 0 0).
  set (m1 := if negb (Map_has kx m) then Map_set kx init m else m).
  assert (Hm1keys : Map_keys m1 = nub (TopGainers.key <$> (data ++ [x]))).
  { rewrite fmap_app, list_fmap_singleton, nub_snoc. fold kx. unfold m1, Map_has.
    destruct (Map_get kx m) as [e|] eqn:He; simpl.
    - rewrite decide_True; [done|].
      apply elem_of_nub. rewrite <- Hkeys. by eapply Map_get_Some_key.
    - rewrite decide_False.
      + rewrite Map_keys_set. unfold Map_has. rewrite He. by rewrite Hkeys.
      + rewrite <- elem_of_nub, <- Hkeys. by apply Map_get_None_key. }
  assert (Hm1other : ∀ k, k ≠ kx → Map_get k m1 = Map_get k m).
  { intros k Hk. unfold m1. destruct (Map_has kx m); simpl; [done|].
    rewrite Map_get_set. by rewrite decide_False. }
  assert (Hexisting : ∃ existing, Map_get kx m1 = Some existing ∧
     (first_of (λ _, true) kx (data ++ [x]) = None ∨
       ∃ r0, first_of (λ _, true) kx (data ++ [x]) = Some r0
             ∧ PriceChange.card existing = CardPriceWithCard.cards r0) ∧
     PriceChange.currentPrice existing
       = from_option price_of 0%Q (first_of (in_current now) kx data) ∧
     PriceChange.previousPrice existing
       = from_option price_of 0%Q (first_of (in_previous now) kx data) ∧
     PriceChange.change existing = 0%Q ∧ PriceChange.changePercent existing = 0%Q).
  { unfold m1, Map_has. destruct (Map_get kx m) as [e|] eqn:He; simpl.
    - exists e. split; [done|].
      destruct (Hget _ _ He) as ((r0 & Hr0 & Hcard) & Hc & Hp & Hch & Hcp).
      split; [|done]. right. exists r0. split; [|done].
      rewrite first_of_snoc. by rewrite Hr0.
    - exists init. rewrite Map_get_set, decide_True by done. split; [done|].
      assert (Hfresh : kx ∉ TopGainers.key <$> data).
      { rewrite <- elem_of_nub, <- Hkeys. by apply Map_get_None_key. }
      rewrite !(first_of_None_key _ kx data) by done. split; [|done].
      right. exists x. split; [|done].
      rewrite first_of_snoc, first_of_None_key by done.
      fold kx. by rewrite bool_decide_eq_true_2. }
  destruct Hexisting as (existing & Hex & Hcard & Hc & Hp & Hch & Hcp).
  rewrite Hex.
  assert (Hcard' : ∃ r0, first_of (λ _, true) kx (data ++ [x]) = Some r0
             ∧ PriceChange.card existing = CardPriceWithCard.cards r0).
  { destruct Hcard as [Hnone|?]; [|done]. exfalso.
    rewrite first_of_snoc in Hnone. fold kx in Hnone.
    rewrite bool_decide_eq_true_2 in Hnone by done. simpl in Hnone.
    by destruct (first_of _ kx data). }
  clear Hcard.
  (* what the entry of [kx] must satisfy after the step *)
  assert (Hfinish : ∀ m2 e2,
     Map_keys m2 = Map_keys m1 →
     (∀ k, Map_get k m2 = if decide (kx = k) then Some e2 else Map_get k m1) →
     entry_ok now (data ++ [x]) kx e2 →
     gainers_inv now (data ++ [x]) m2).
  { intros m2 e2 Hk2 Hg2 He2. split; [by rewrite Hk2|].
    intros k e. rewrite Hg2. case_decide as Hk.
    - intros [= <-]. by subst k.
    - rewrite Hm1other by done. intros He.
      destruct (Hget _ _ He) as ((r0 & Hr0 & Hcard) & Hc' & Hp' & Hch' & Hcp').
      unfold entry_ok. rewrite !first_of_snoc_other by done. eauto 10. }
  assert (Hsetkeys : ∀ e2, Map_keys (Map_set kx e2 m1) = Map_keys m1).
  { intros e2. rewrite Map_keys_set. unfold Map_has. by rewrite Hex. }
  set (t := CardPrice.recorded_at (CardPriceWithCard.base x)) in *.
  fold (price_of x).
  assert (Hfound : ∀ window c, first_of window kx data = Some c →
            Qeq_bool (price_of c) 0 = false).
  { intros window c Hfc. apply Qeq_bool_positive, Hpos.
    apply find_some in Hfc as [Hin _]. apply elem_of_app. left.
    by apply list_elem_of_In. }
  assert (Hx : Qeq_bool (price_of x) 0 = false).
  { apply Qeq_bool_positive, Hpos, elem_of_app. right. left. }
  destruct (Z.leb_spec (daysAgo now 7) t) as [Ht|Ht]; simpl.
  - assert (Hlt : (t <? daysAgo now 7) = false) by (apply Z.ltb_ge; lia).
    rewrite Hlt. cbn [andb].
    assert (Hcur : in_current now x = true) by by apply Z.leb_le.
    assert (Hprev : in_previous now x = false) by by apply in_current_previous.
    destruct (Qeq_bool (PriceChange.currentPrice existing) 0) eqn:Hzero.
    + eapply Hfinish; [apply Hsetkeys | intros k; apply Map_get_set |].
      split; [done|]. simpl. rewrite !first_of_snoc. fold kx.
      rewrite bool_decide_eq_true_2 by done. simpl.
      rewrite Hcur, Hprev.
      split; [|split; [|done]].
      * destruct (first_of (in_current now) kx data) as [c|] eqn:Hfc; [|done]. exfalso.
        rewrite Hc in Hzero. simpl in Hzero.
        by rewrite (Hfound _ _ Hfc) in Hzero.
      * rewrite Hp. by destruct (first_of (in_previous now) kx data).
    + apply (Hfinish m1 existing); [done | |].
      { intros k. case_decide; [by subst|done]. }
      split; [done|]. rewrite !first_of_snoc. fold kx.
      rewrite bool_decide_eq_true_2 by done. simpl.
      rewrite Hcur, Hprev.
      split; [|split; [|done]].
      * rewrite Hc. destruct (first_of (in_current now) kx data) as [c|] eqn:Hfc; [done|].
        exfalso. rewrite Hc in Hzero. simpl in Hzero. done.
      * rewrite Hp. by destruct (first_of (in_previous now) kx data).
  - assert (Hlt : (t <? daysAgo now 7) = true) by (apply Z.ltb_lt; lia).
    rewrite Hlt. cbn [andb].
    assert (Hcur : in_current now x = false) by by apply Z.leb_gt.
    assert (Hprev : in_previous now x = (daysAgo now 14 <=? t)).
    { unfold in_previous. fold t. by rewrite Hlt, andb_true_r. }
    destruct ((daysAgo now 14 <=? t)
              && Qeq_bool (PriceChange.previousPrice existing) 0) eqn:Hc2.
    + apply andb_prop in Hc2 as [Ht14 Hzero].
      eapply Hfinish; [apply Hsetkeys | intros k; apply Map_get_set |].
      split; [done|]. simpl. rewrite !first_of_snoc. fold kx.
      rewrite bool_decide_eq_true_2 by done. simpl.
      rewrite Hcur, Hprev, Ht14.
      split; [|split; [|done]].
      * rewrite Hc. by destruct (first_of (in_current now) kx data).
      * destruct (first_of (in_previous now) kx data) as [c|] eqn:Hfc; [|done]. exfalso.
        rewrite Hp in Hzero. simpl in Hzero.
        by rewrite (Hfound _ _ Hfc) in Hzero.
    + apply (Hfinish m1 existing); [done | |].
      { intros k. case_decide; [by subst|done]. }
      split; [done|]. rewrite !first_of_snoc. fold kx.
      rewrite bool_decide_eq_true_2 by done. simpl.
      rewrite Hcur, Hprev.
      split; [|split; [|done]].
      * rewrite Hc. by destruct (first_of (in_current now) kx data).
      * rewrite Hp. destruct (first_of (in_previous now) kx data) as [c|] eqn:Hfc; [done|].
        rewrite Hp in Hc2. simpl in Hc2.
        change (Qeq_bool 0 0) with true in Hc2. rewrite andb_true_r in Hc2.
        by rewrite Hc2.
Qed.

Lemma cardPriceChanges_inv data :
  (∀ r, r ∈ data → (0 < price_of r)%Q) →
  gainers_inv now data (TopGainers.cardPriceChanges now data).
Proof.
  unfold TopGainers.cardPriceChanges.
  induction data as [|x data IH] using rev_ind; intros Hpos.
  - split; [done|]. intros k e. done.
  - rewrite fold_left_app. cbn [fold_left]. apply step_inv; [done|].
    apply IH. intros r Hr. apply Hpos, elem_of_app. by left.
Qed.

Lemma entry_expected data k e :
  (∀ r, r ∈ data → (0 < price_of r)%Q) →
  entry_ok now data k e →
  (if TopGainers.bothPrices e then Some (TopGainers.withChange e) else None)
  = expected_change (in_current now) now data k.
Proof.
  intros Hpos ((r0 & Hr0 & Hcard) & Hc & Hp & _ & _).
  unfold expected_change, TopGainers.bothPrices, TopGainers.withChange.
  rewrite Hr0, Hc, Hp, Hcard.
  assert (Hfound : ∀ window c, first_of window k data = Some c →
            Qpositive (price_of c) = true).
  { intros window c Hfc. apply Qpositive_true, Hpos.
    apply find_some in Hfc as [Hin _]. by apply list_elem_of_In. }
  destruct (first_of (in_current now) k data) as [c|] eqn:Hfc; simpl.
  - rewrite (Hfound _ _ Hfc). simpl.
    destruct (first_of (in_previous now) k data) as [p|] eqn:Hfp; simpl.
    + by rewrite (Hfound _ _ Hfp).
    + done.
  - done.
Qed.

Lemma changes_expected data :
  (∀ r, r ∈ data → (0 < price_of r)%Q) →
  TopGainers.changes now data = expected_changes (in_current now) now data.
Proof.
  intros Hpos. unfold TopGainers.changes, expected_changes.
  destruct (cardPriceChanges_inv data Hpos) as [Hkeys Hget].
  rewrite <- Hkeys.
  assert (Hnd : NoDup (Map_keys (TopGainers.cardPriceChanges now data)))
    by (rewrite Hkeys; apply NoDup_nub).
  assert (Hall : ∀ k e, (k, e) ∈ TopGainers.cardPriceChanges now data →
            (if TopGainers.bothPrices e then Some (TopGainers.withChange e) else None)
            = expected_change (in_current now) now data k).
  { intros k e Hin. apply entry_expected; [done|].
    by apply Hget, Map_elem_get. }
  clear Hkeys Hget Hnd.
  unfold Map_values, Map_keys.
  induction (TopGainers.cardPriceChanges now data) as [|[k e] m IH]; [done|].
  rewrite !fmap_cons. cbn [List.filter omap list_omap fst snd].
  rewrite <- (Hall k e) by left. fold (TopGainers.bothPrices e).
  destruct (TopGainers.bothPrices e); cbn [fmap list_fmap]; rewrite IH; try done.
  all: intros k' e' Hin; apply Hall; by right.
Qed.
End Gainers.

Lemma changes_formula (now : Z) (data : list CardPriceWithCard.t) (item : PriceChange.t) :
  item ∈ TopGainers.changes now data →
  (0 < PriceChange.currentPrice item)%Q ∧
  (0 < PriceChange.previousPrice item)%Q ∧
  PriceChange.change item
    = (PriceChange.currentPrice item - PriceChange.previousPrice item)%Q ∧
  PriceChange.changePercent item
    = ((PriceChange.change item / PriceChange.previousPrice item) * 100)%Q.
Proof.
  unfold TopGainers.changes.
  intros (e & -> & He)%list_elem_of_fmap.
  apply list_elem_of_In, filter_In in He as [_ [Hc Hp]%andb_prop].
  apply Qpositive_true in Hc, Hp. done.
Qed.

(** C1, as stated, fails: with an observation dated after [now] in front,
    the ranking takes that observation as the current price (200, a
    change of 100 percent), while the first record inside
    [now - 7d, now] carries 110 (a change of 10 percent). *)
Lemma current_window_until_now_refuted :
  (∀ r, r ∈ ex_data_future → (0 < CardPrice.price (CardPriceWithCard.base r))%Q) ∧
  PriceChange.currentPrice <$> TopGainers.changes ex_now ex_data_future = [200%Q] ∧
  PriceChange.currentPrice
    <$> expected_changes (in_current_until_now ex_now) ex_now ex_data_future
    = [110%Q] ∧
  TopGainers.changes ex_now ex_data_future
    ≠ expected_changes (in_current_until_now ex_now) ex_now ex_data_future.
Proof.
  split; [|split; [|split]].
  - intros r Hr. repeat (apply elem_of_cons in Hr as [->|Hr]); try reflexivity.
    by apply elem_of_nil in Hr.
  - reflexivity.
  - reflexivity.
  - intros Heq.
    apply (f_equal (fmap PriceChange.currentPrice)) in Heq.
    vm_compute in Heq. discriminate.
Qed.

(** C1, amended. When every price is positive, the entries that the
    ranking keeps are, for the keys of [data] in the order of their first
    occurrence, exactly those for which [data] holds a record with
    [recorded_at >= now - 7d] (no upper bound at [now]) and a record within
    [now - 14d, now - 7d); the entry of such a key carries the price of the
    first record of each kind as current and previous price, their
    difference as change and [(change / previous) * 100] as change
    percent.  With current 110 and previous 100 the change percent is 10. *)
Theorem top_gainers_changes (now : Z) (data : list CardPriceWithCard.t) :
  (∀ r, r ∈ data → (0 < CardPrice.price (CardPriceWithCard.base r))%Q) →
  TopGainers.changes now data = expected_changes (in_current now) now data ∧
  (∀ item, item ∈ TopGainers.changes now data →
     PriceChange.change item
       = (PriceChange.currentPrice item - PriceChange.previousPrice item)%Q ∧
     PriceChange.changePercent item
       = ((PriceChange.change item / PriceChange.previousPrice item) * 100)%Q) ∧
  (∀ card,
     (PriceChange.changePercent
        (TopGainers.withChange (PriceChange.mk card 110 100 0 0)) == 10)%Q).
Proof.
  intros Hpos. split; [by apply changes_expected|]. split.
  - intros item Hitem. by apply changes_formula in Hitem as (_ & _ & ? & ?).
  - intros card. reflexivity.
Qed.

Lemma top_gainers_changes_witness :
  TopGainers.changes ex_now ex_data = expected_changes (in_current ex_now) ex_now ex_data ∧
  (∀ item, item ∈ TopGainers.changes ex_now ex_data →
     PriceChange.change item
       = (PriceChange.currentPrice item - PriceChange.previousPrice item)%Q ∧
     PriceChange.changePercent item
       = ((PriceChange.change item / PriceChange.previousPrice item) * 100)%Q) ∧
  (∀ card,
     (PriceChange.changePercent
        (TopGainers.withChange (PriceChange.mk card 110 100 0 0)) == 10)%Q).
Proof.
  apply (top_gainers_changes ex_now ex_data).
  intros r Hr. repeat (apply elem_of_cons in Hr as [->|Hr]); try reflexivity.
  by apply elem_of_nil in Hr.
Defined.

Example top_gainers_110_100 :
  PriceChange.changePercent <$> TopGainers.changes ex_now ex_data = [10.00%Q].
Proof. reflexivity. Qed.

(** C8. Every element of the result of [getTopGainers] carries the
    currency EUR, the time of the computation as [recorded_at], the
    condition [near_mint] and the empty string as [id], whatever the
    records of the store hold. *)
Theorem top_gainers_output_constants (supabase : Supabase.t) (now : Z)
    (game : option string) (limit : option Z) :
  ∃ out,
    PriceRepository.getTopGainers supabase now game limit = Ok out ∧
    Forall (λ r, CardPrice.currency (CardPriceWithCard.base r) = "EUR"
                 ∧ CardPrice.recorded_at (CardPriceWithCard.base r) = now
                 ∧ CardPrice.condition (CardPriceWithCard.base r) = near_mint
                 ∧ CardPrice.id (CardPriceWithCard.base r) = "")
      out.
Proof.
  unfold PriceRepository.getTopGainers.
  destruct (TopGainers.select supabase now game) as [|r data].
  - exists []. split; [done|constructor].
  - eexists. split; [done|]. apply Forall_fmap, Forall_forall. by intros item _.
Qed.

(** ** Ranking and truncation *)

Lemma Sorted_take {A} (R : relation A) (n : nat) (l : list A) :
  Sorted R l → Sorted R (take n l).
Proof.
  intros Hs. revert n. induction Hs as [|x l Hs IH Hhd]; intros [|n]; simpl;
    try constructor.
  - apply IH.
  - destruct Hhd as [|y l Hxy]; destruct n; simpl; by constructor.
Qed.

Lemma Sorted_weaken {A} (R R' : relation A) (l : list A) :
  (∀ a b, R a b → R' a b) → Sorted R l → Sorted R' l.
Proof.
  intros HR. induction 1 as [|x l Hs IH Hhd]; constructor; [done|].
  destruct Hhd; constructor; auto.
Qed.

Lemma slice0_length {A} (final : Z) (l : list A) :
  0 ≤ final → Z.of_nat (length (slice0 final l)) ≤ final.
Proof.
  intros Hfinal. unfold slice0.
  rewrite (proj2 (Z.ltb_ge _ _) Hfinal), length_take. lia.
Qed.

Lemma slice0_Sorted {A} (R : relation A) (final : Z) (l : list A) :
  Sorted R l → Sorted R (slice0 final l).
Proof. apply Sorted_take. Qed.

Lemma byChangePercent_total (a b : PriceChange.t) :
  TopGainers.byChangePercent a b = true ∨ TopGainers.byChangePercent b a = true.
Proof.
  unfold TopGainers.byChangePercent. rewrite !Qle_bool_iff.
  destruct (Qlt_le_dec (PriceChange.changePercent a) (PriceChange.changePercent b));
    [right; by apply Qlt_le_weak | by left].
Qed.

Lemma gainers_Sorted (now : Z) (data : list CardPriceWithCard.t) (limit : Z) :
  Sorted (λ a b, (PriceChange.changePercent b <= PriceChange.changePercent a)%Q)
    (TopGainers.gainers now data limit).
Proof.
  unfold TopGainers.gainers. apply slice0_Sorted.
  eapply Sorted_weaken; [|apply stable_sort_Sorted, byChangePercent_total].
  intros a b Hab. by apply Qle_bool_iff.
Qed.

(** X21. For a game that is absent or valid and a limit from 0 to 50, the
    service answers the outputs, in their order, of the gainers of the
    selected records: the entries with both prices, ranked by descending
    change percent and cut at the limit.  These gainers are sorted by
    descending change percent and not more than the limit; a limit above
    50 is refused, and an absent limit is 10. *)
Lemma top_gainers_ranked_within_limit (supabase : Supabase.t) (now : Z)
    (game : option string) (limit : Z) :
  (truthy_opt game = true → default "" game ∈ validGames) →
  (0 ≤ limit ≤ 50 →
   let gainers :=
     TopGainers.gainers now (TopGainers.select supabase now game) limit in
   PriceService.getTopGainers supabase now game (Some limit)
     = Ok (TopGainers.output now <$> gainers) ∧
   Sorted (λ a b, (PriceChange.changePercent b <= PriceChange.changePercent a)%Q)
     gainers ∧
   Z.of_nat (length (TopGainers.output now <$> gainers)) ≤ limit) ∧
  (50 < limit →
   PriceService.getTopGainers supabase now game (Some limit)
     = Throw "Limit cannot exceed 50") ∧
  PriceService.getTopGainers supabase now game None
    = PriceService.getTopGainers supabase now game (Some 10).
Proof.
  intros Hgame.
  assert (Hg : truthy_opt game && negb (includes validGames (default "" game)) = false).
  { destruct (truthy_opt game); [|done]. simpl. apply negb_false_iff.
    apply bool_decide_eq_true. by apply Hgame. }
  unfold PriceService.getTopGainers. rewrite Hg. cbn [default from_option id]. split; [|split].
  - intros [Hlo Hhi]. rewrite (proj2 (Z.ltb_ge _ _) Hhi).
    unfold PriceRepository.getTopGainers. cbn [default from_option id].
    split; [|split; [apply gainers_Sorted|]].
    + destruct (TopGainers.select supabase now game) as [|r data] eqn:Hsel; [|done].
      unfold TopGainers.gainers, slice0.
      change (stable_sort _ (TopGainers.changes now [])) with (@nil PriceChange.t).
      cbv zeta. by rewrite take_nil.
    + rewrite length_fmap. by apply slice0_length.
  - intros Hhi. by rewrite (proj2 (Z.ltb_lt _ _) Hhi).
  - done.
Qed.

(** C7 fails on the code for a negative limit: the service accepts the
    limit -1, [slice(0, -1)] drops the last gainer only, and 51 results
    come back from a store with 52 gainers, more than the limit and more
    than the cap of 50. *)
Theorem top_gainers_negative_limit :
  length <$> PriceService.getTopGainers bulk_store ex_now None (Some (-1))
    = Ok 51%nat ∧
  length <$> PriceService.getTopGainers bulk_store ex_now None (Some 50)
    = Ok 50%nat.
Proof. split; vm_compute; reflexivity. Qed.

(** ** The price history *)

Section History.
Variables (supabase : Supabase.t) (now : Z) (cardId condition : string).

Lemma repository_history_ok (days : Z) :
  Z.abs (daysAgo now days) ≤ maxTime →
  PriceRepository.getPriceHistory supabase now cardId condition (Some days)
    = Ok (order_recorded_at true (history_rows supabase cardId condition (daysAgo now days))).
Proof.
  intros Hrange. unfold PriceRepository.getPriceHistory, toISOString.
  cbn [default from_option id]. by rewrite (proj2 (Z.leb_le _ _) Hrange).
Qed.

Lemma repository_history_range_error (days : Z) :
  maxTime < Z.abs (daysAgo now days) →
  PriceRepository.getPriceHistory supabase now cardId condition (Some days)
    = Throw "Invalid time value".
Proof.
  intros Hrange. unfold PriceRepository.getPriceHistory, toISOString.
  cbn [default from_option id]. by rewrite (proj2 (Z.leb_gt _ _) Hrange).
Qed.

Lemma history_rows_elem_of (cutoff : Z) (p : CardPrice.t) :
  p ∈ order_recorded_at true (history_rows supabase cardId condition cutoff) ↔
  p ∈ Supabase.card_prices supabase
  ∧ CardPrice.card_id p = cardId
  ∧ condition_str (CardPrice.condition p) = condition
  ∧ cutoff ≤ CardPrice.recorded_at p.
Proof.
  unfold order_recorded_at, order_by, history_rows.
  rewrite stable_sort_elem_of, list_elem_of_filter. tauto.
Qed.

Lemma history_rows_Sorted (cutoff : Z) :
  Sorted (λ a b, CardPrice.recorded_at a ≤ CardPrice.recorded_at b)
    (order_recorded_at true (history_rows supabase cardId condition cutoff)).
Proof.
  unfold order_recorded_at, order_by.
  eapply Sorted_weaken; [|apply stable_sort_Sorted].
  - intros a b Hab. by apply Z.leb_le.
  - intros a b. rewrite !Z.leb_le. lia.
Qed.

Lemma service_history_valid (days : Z) :
  cardId ≠ "" → condition ∈ validConditions → days ≤ 365 →
  PriceService.getPriceHistory supabase now cardId condition (Some days) =
  prices ← PriceRepository.getPriceHistory supabase now cardId condition (Some days);
  Ok (PriceHistory.mk cardId condition (PriceService.pricePoint <$> prices)).
Proof.
  intros Hid Hcond Hdays. unfold PriceService.getPriceHistory.
  cbn [default from_option id].
  assert (Hc : condition ≠ "").
  { intros ->. vm_compute in Hcond. 
    repeat (apply elem_of_cons in Hcond as [?|Hcond]; [discriminate|]).
    by apply elem_of_nil in Hcond. }
  unfold truthy. rewrite !bool_decide_eq_false_2 by done. cbn [negb orb].
  rewrite (proj2 (Z.ltb_ge _ _) Hdays).
  unfold includes. by rewrite bool_decide_eq_true_2.
Qed.
End History.

Lemma service_history_ok (supabase : Supabase.t) (now : Z)
    (cardId condition : string) (days : Z) :
  cardId ≠ "" → condition ∈ validConditions → days ≤ 365 →
  Z.abs (daysAgo now days) ≤ maxTime →
  PriceService.getPriceHistory supabase now cardId condition (Some days)
    = Ok (PriceHistory.mk cardId condition
            (PriceService.pricePoint
               <$> order_recorded_at true
                     (history_rows supabase cardId condition (daysAgo now days)))).
Proof.
  intros Hid Hcond Hdays Hrange.
  rewrite service_history_valid by done.
  by rewrite repository_history_ok.
Qed.

Lemma service_history_too_many_days (supabase : Supabase.t) (now : Z)
    (cardId condition : string) (days : Z) :
  365 < days →
  ∃ message,
    PriceService.getPriceHistory supabase now cardId condition (Some days)
      = Throw message ∧
    (cardId ≠ "" → condition ≠ "" →
     message = "Cannot fetch price history for more than 365 days").
Proof.
  intros Hdays. unfold PriceService.getPriceHistory. cbn [default from_option id].
  destruct (negb (truthy cardId) || negb (truthy condition)) eqn:Hreq.
  - eexists. split; [done|]. intros Hid Hc. exfalso.
    unfold truthy in Hreq. by rewrite !bool_decide_eq_false_2 in Hreq.
  - rewrite (proj2 (Z.ltb_lt _ _) Hdays). eauto.
Qed.

Lemma service_history_bad_condition (supabase : Supabase.t) (now : Z)
    (cardId condition : string) (days : option Z) :
  condition ∉ validConditions →
  ∃ message,
    PriceService.getPriceHistory supabase now cardId condition days = Throw message ∧
    (cardId ≠ "" → condition ≠ "" → default 30 days ≤ 365 →
     message = "Invalid card condition").
Proof.
  intros Hcond. unfold PriceService.getPriceHistory.
  destruct (negb (truthy cardId) || negb (truthy condition)) eqn:Hreq.
  - eexists. split; [done|]. intros Hid Hc. exfalso.
    unfold truthy in Hreq. by rewrite !bool_decide_eq_false_2 in Hreq.
  - destruct (Z.ltb_spec 365 (default 30 days)).
    + eexists. split; [done|]. lia.
    + unfold includes. rewrite bool_decide_eq_false_2 by done. simpl. eauto.
Qed.

(** C6, as stated, fails: for valid inputs the query returns a record
    dated one day after [now], outside [now - 30d, now]. *)
Lemma price_history_until_now_refuted :
  PriceService.getPriceHistory (one_price_store (ex_now + msPerDay)) ex_now
      "card-1" "near_mint" (Some 30)
    = Ok (PriceHistory.mk "card-1" "near_mint"
            [PricePoint.mk 100 "EUR" None (ex_now + msPerDay)]) ∧
  ¬ (ex_now - 30 * msPerDay ≤ ex_now + msPerDay ≤ ex_now).
Proof. split; [reflexivity|]. unfold msPerDay. lia. Qed.

(** C6, amended. The history query fails when the day-count exceeds 365
    and when the condition is not one of the six valid values.  For a
    non-empty card id, a valid condition and a day-count of at most 365
    whose cutoff is a valid time value it returns, without error, records
    that all have [recorded_at >= now - days], sorted by ascending
    [recorded_at]; no upper bound is applied, so the records lie within
    [now - days, now] when the store holds no record dated after [now];
    the result is empty when no record of the card and condition is dated
    at or after the cutoff. *)
Theorem price_history_window (supabase : Supabase.t) (now : Z)
    (cardId condition : string) (days : Z) :
  (365 < days →
   ∃ message,
     PriceService.getPriceHistory supabase now cardId condition (Some days)
       = Throw message) ∧
  (condition ∉ validConditions →
   ∃ message,
     PriceService.getPriceHistory supabase now cardId condition (Some days)
       = Throw message) ∧
  (cardId ≠ "" → condition ∈ validConditions → days ≤ 365 →
   Z.abs (daysAgo now days) ≤ maxTime →
   ∃ prices,
     PriceService.getPriceHistory supabase now cardId condition (Some days)
       = Ok (PriceHistory.mk cardId condition prices) ∧
     Forall (λ p, now - days * msPerDay ≤ PricePoint.recorded_at p) prices ∧
     Sorted (λ a b, PricePoint.recorded_at a ≤ PricePoint.recorded_at b) prices ∧
     ((∀ r, r ∈ Supabase.card_prices supabase → CardPrice.recorded_at r ≤ now) →
      Forall (λ p, PricePoint.recorded_at p ≤ now) prices) ∧
     ((∀ r, r ∈ Supabase.card_prices supabase →
            CardPrice.card_id r = cardId →
            condition_str (CardPrice.condition r) = condition →
            CardPrice.recorded_at r < now - days * msPerDay) →
      prices = [])).
Proof.
  split; [|split].
  - intros Hdays.
    destruct (service_history_too_many_days supabase now cardId condition days Hdays)
      as (message & -> & _). eauto.
  - intros Hcond.
    destruct (service_history_bad_condition supabase now cardId condition
                (Some days) Hcond) as (message & -> & _). eauto.
  - intros Hid Hcond Hdays Hrange. eexists. split; [by apply service_history_ok|].
    fold (daysAgo now days).
    set (rows := order_recorded_at true _).
    assert (Hrows : ∀ p, p ∈ rows ↔
              p ∈ Supabase.card_prices supabase
              ∧ CardPrice.card_id p = cardId
              ∧ condition_str (CardPrice.condition p) = condition
              ∧ daysAgo now days ≤ CardPrice.recorded_at p)
      by apply history_rows_elem_of.
    split; [|split; [|split]].
    + apply Forall_fmap, Forall_forall. intros p Hp.
      apply Hrows in Hp as (_ & _ & _ & Ht). exact Ht.
    + apply (Sorted_fmap _ (λ a b, CardPrice.recorded_at a ≤ CardPrice.recorded_at b));
        [by intros ?? | apply history_rows_Sorted].
    + intros Hpast. apply Forall_fmap, Forall_forall. intros p Hp.
      apply Hrows in Hp as (Hin & _). by apply Hpast.
    + intros Hold. destruct rows as [|p rows]; [done|]. exfalso.
      destruct (proj1 (Hrows p) ltac:(left)) as (Hin & Hc & Hk & Ht).
      specialize (Hold p Hin Hc Hk). unfold daysAgo in *. lia.
Qed.

Lemma price_history_window_witness :
  ∃ prices,
    PriceService.getPriceHistory (one_price_store (ex_now - msPerDay)) ex_now
        "card-1" "near_mint" (Some 30)
      = Ok (PriceHistory.mk "card-1" "near_mint" prices) ∧
    Forall (λ p, ex_now - 30 * msPerDay ≤ PricePoint.recorded_at p) prices ∧
    Forall (λ p, PricePoint.recorded_at p ≤ ex_now) prices.
Proof.
  destruct (price_history_window (one_price_store (ex_now - msPerDay)) ex_now
              "card-1" "near_mint" 30) as (_ & _ & Hvalid).
  destruct Hvalid as (prices & Heq & Hlo & _ & Hhi & _).
  - discriminate.
  - vm_compute. do 1 right. left.
  - lia.
  - vm_compute. discriminate.
  - exists prices. split; [done|]. split; [done|]. apply Hhi.
    intros r Hr. apply list_elem_of_singleton in Hr as ->. vm_compute. discriminate.
Defined.

(** C10, as stated, fails at the day-count zero: the cutoff is [now]
    itself, not later, and a record dated exactly [now], which is not
    future-dated, is returned. *)
Lemma zero_days_cutoff_refuted :
  daysAgo ex_now 0 = ex_now ∧
  (∀ r, r ∈ Supabase.card_prices (one_price_store ex_now) →
        CardPrice.recorded_at r ≤ ex_now) ∧
  PriceService.getPriceHistory (one_price_store ex_now) ex_now
      "card-1" "near_mint" (Some 0)
    = Ok (PriceHistory.mk "card-1" "near_mint" [PricePoint.mk 100 "EUR" None ex_now]).
Proof.
  split; [reflexivity|]. split; [|reflexivity].
  intros r Hr. apply list_elem_of_singleton in Hr as ->. reflexivity.
Qed.

(** C10, amended. For a non-empty card id and a valid condition, the
    history query raises its day-count error exactly when the day-count
    exceeds 365.  A day-count of zero or less whose cutoff is a valid time
    value is accepted without error; the cutoff [now - days] is then not
    earlier than [now] (equal to [now] for zero, later for a negative
    day-count), only records dated at or after the cutoff are returned,
    and the result is empty when no record is dated at or after the
    cutoff, as for a negative day-count when no record is future-dated.  A
    day-count whose cutoff is not a valid time value makes the query raise
    a range error instead. *)
Theorem price_history_nonpositive_days (supabase : Supabase.t) (now : Z)
    (cardId condition : string) (days : Z) :
  cardId ≠ "" → condition ∈ validConditions →
  (PriceService.getPriceHistory supabase now cardId condition (Some days)
     = Throw "Cannot fetch price history for more than 365 days"
   ↔ 365 < days) ∧
  (days ≤ 0 → Z.abs (daysAgo now days) ≤ maxTime →
   now ≤ daysAgo now days ∧
   (days < 0 → now < daysAgo now days) ∧
   ∃ prices,
     PriceService.getPriceHistory supabase now cardId condition (Some days)
       = Ok (PriceHistory.mk cardId condition prices) ∧
     Forall (λ p, daysAgo now days ≤ PricePoint.recorded_at p) prices ∧
     ((∀ r, r ∈ Supabase.card_prices supabase →
            CardPrice.recorded_at r < daysAgo now days) →
      prices = []) ∧
     (days < 0 →
      (∀ r, r ∈ Supabase.card_prices supabase → CardPrice.recorded_at r ≤ now) →
      prices = [])) ∧
  (days ≤ 365 → maxTime < Z.abs (daysAgo now days) →
   PriceService.getPriceHistory supabase now cardId condition (Some days)
     = Throw "Invalid time value").
Proof.
  intros Hid Hcond. split; [|split].
  - split.
    + intros Hthrow. destruct (Z.lt_ge_cases 365 days) as [|Hdays]; [done|].
      exfalso. rewrite service_history_valid in Hthrow by (done || lia).
      destruct (Z.le_gt_cases (Z.abs (daysAgo now days)) maxTime) as [Hrange|Hrange].
      * by rewrite repository_history_ok in Hthrow.
      * by rewrite repository_history_range_error in Hthrow.
    + intros Hdays.
      destruct (service_history_too_many_days supabase now cardId condition days Hdays)
        as (message & -> & Hmsg).
      f_equal. apply Hmsg; [done|]. intros ->.
      repeat (apply elem_of_cons in Hcond as [?|Hcond]; [discriminate|]).
      by apply elem_of_nil in Hcond.
  - intros Hdays Hrange.
    assert (Hcut : now ≤ daysAgo now days ∧ (days < 0 → now < daysAgo now days))
      by (unfold daysAgo, msPerDay; lia).
    destruct Hcut as [Hle Hlt]. split; [done|]. split; [done|].
    eexists. split; [apply service_history_ok; (done || lia)|].
    set (rows := order_recorded_at true _).
    assert (Hrows : ∀ p, p ∈ rows → p ∈ Supabase.card_prices supabase
                                 ∧ daysAgo now days ≤ CardPrice.recorded_at p).
    { intros p Hp%history_rows_elem_of. tauto. }
    assert (Hempty : (∀ r, r ∈ Supabase.card_prices supabase →
                           CardPrice.recorded_at r < daysAgo now days) →
                     PriceService.pricePoint <$> rows = []).
    { intros Hold. destruct rows as [|p rows]; [done|]. exfalso.
      destruct (Hrows p ltac:(left)) as [Hin Ht]. specialize (Hold p Hin). lia. }
    split; [|split].
    + apply Forall_fmap, Forall_forall. intros p Hp. by apply Hrows in Hp as [_ Ht].
    + done.
    + intros Hneg Hpast. apply Hempty. intros r Hr.
      specialize (Hpast r Hr). specialize (Hlt Hneg). lia.
  - intros Hdays Hrange. rewrite service_history_valid by done.
    by rewrite repository_history_range_error.
Qed.

Lemma price_history_nonpositive_days_witness :
  PriceService.getPriceHistory (one_price_store ex_now) ex_now
      "card-1" "near_mint" (Some (-3))
    = Ok (PriceHistory.mk "card-1" "near_mint" []).
Proof.
  destruct (price_history_nonpositive_days (one_price_store ex_now) ex_now
              "card-1" "near_mint" (-3)) as (_ & Hneg & _).
  - discriminate.
  - vm_compute. do 1 right. left.
  - destruct Hneg as (_ & _ & prices & Heq & _ & _ & Hempty).
    + lia.
    + vm_compute. discriminate.
    + rewrite Heq. do 2 f_equal. apply Hempty; [lia|].
      intros r Hr. apply list_elem_of_singleton in Hr as ->. vm_compute. discriminate.
Defined.

(** ** Status codes of the controllers *)

Ltac run_controller :=
  repeat case_bool_decide; cbn [negb andb orb];
  repeat match goal with
         | |- context [if negb ?b || negb ?c then _ else _] =>
             destruct b, c; cbn [negb andb orb]
         | |- context [if negb ?b then _ else _] =>
             destruct b; cbn [negb andb orb]
         | |- context [if ?b then _ else _] =>
             destruct b; cbn [negb andb orb]
         | |- context [mbind _ ?r] => destruct r; cbn [mbind result_bind]
         end.

Lemma price_status_400 supabase now req :
  Response.status (PriceController.handleRequest supabase now req) = 400
  ↔ missing_parameter req = true.
Proof.
  unfold PriceController.handleRequest, PriceController.dispatch, missing_parameter.
  run_controller; cbn; first [done | split; congruence].
Qed.

Lemma card_status_not_400 repository req :
  Response.status (CardController.handleRequest repository req) ≠ 400.
Proof.
  unfold CardController.handleRequest, CardController.dispatch.
  run_controller; cbn; try case_bool_decide; cbn; (congruence || lia || done).
Qed.

Lemma collection_status_not_400 supabase req :
  Response.status (CollectionController.handleRequest supabase req) ≠ 400.
Proof.
  unfold CollectionController.handleRequest, CollectionController.dispatch.
  destruct (Request.authorization req) as [authHeader|]; [|done].
  destruct (truthy authHeader); cbn [negb]; [|done].
  destruct (Supabase.auth_getUser supabase authHeader); [|done].
  run_controller; cbn; (congruence || lia || done).
Qed.

(** Only the empty string has length zero. *)
Lemma js_length_0 (s : string) : js_length s = 0%nat ↔ s = "".
Proof.
  split; [|by intros ->]. destruct s as [|a s]; [done|].
  unfold js_length. cbn [utf16_units]. cbv zeta.
  repeat (destruct (_ <? _)%N; [discriminate|]). discriminate.
Qed.

Lemma js_length_blank (s : string) : s ≠ "" → (js_length s =? 0)%nat = false.
Proof. intros Hs. apply Nat.eqb_neq. by rewrite js_length_0. Qed.

Lemma truthy_true (s : string) : s ≠ "" → truthy s = true.
Proof. intros Hs. unfold truthy. by rewrite bool_decide_eq_false_2. Qed.

Lemma includes_false (l : list string) (s : string) : s ∉ l → includes l s = false.
Proof. intros Hs. unfold includes. by rewrite bool_decide_eq_false_2. Qed.

(** Evaluate the tests of a controller that only involve constants. *)
Ltac decide_constants :=
  repeat match goal with
         | |- context [includes ?l ?s] =>
             let b := eval vm_compute in (includes l s) in
             match b with
             | true => change (includes l s) with true
             | false => change (includes l s) with false
             end
         | |- context [@bool_decide ?P ?d] =>
             let b := eval vm_compute in (@bool_decide P d) in
             match b with
             | true => change (@bool_decide P d) with true
             | false => change (@bool_decide P d) with false
             end
         end;
  cbn [negb andb orb].

(** C3, as stated, fails: a history request for 366 days fails the
    validation of the service and is answered with status 500. *)
Lemma validation_status_400_refuted :
  PriceService.getPriceHistory (one_price_store ex_now) ex_now
      "card-1" "near_mint" (Some 366)
    = Throw "Cannot fetch price history for more than 365 days" ∧
  PriceController.handleRequest (one_price_store ex_now) ex_now
      (history_request "card-1" "near_mint" 366)
    = Response.mk 500
        (Response.Error "Cannot fetch price history for more than 365 days") ∧
  Response.status
    (PriceController.handleRequest (one_price_store ex_now) ex_now
       (history_request "card-1" "near_mint" 366)) ≠ 400.
Proof. split; [|split]; [reflexivity | reflexivity | discriminate]. Qed.

(** C3, amended. A request that fails the validation of the service layer
    is answered with status 500 and the message of the validation: a
    history request for more than 365 days or with an invalid condition, a
    top-gainers request with a limit above 50 or an invalid game, a price
    that is not positive, a quantity that is not positive, a card of an
    invalid game.  Status 400 is answered only by the prices controller
    itself, to a GET request without its [card_id] (or, for the history,
    without its [condition]); the cards and the collection controllers
    never answer 400. *)
Theorem validation_failures_answer_500 (supabase : Supabase.t) (now : Z)
    (repository : CardRepository.t) :
  (∀ cardId condition days,
     cardId ≠ "" → condition ≠ "" → 365 < days →
     PriceController.handleRequest supabase now (history_request cardId condition days)
       = Response.mk 500
           (Response.Error "Cannot fetch price history for more than 365 days")) ∧
  (∀ cardId condition days,
     cardId ≠ "" → condition ≠ "" → days ≤ 365 → condition ∉ validConditions →
     PriceController.handleRequest supabase now (history_request cardId condition days)
       = Response.mk 500 (Response.Error "Invalid card condition")) ∧
  (∀ limit,
     50 < limit →
     PriceController.handleRequest supabase now (top_gainers_request None limit)
       = Response.mk 500 (Response.Error "Limit cannot exceed 50")) ∧
  (∀ game limit,
     game ≠ "" → game ∉ validGames →
     PriceController.handleRequest supabase now (top_gainers_request (Some game) limit)
       = Response.mk 500 (Response.Error "Invalid game type")) ∧
  (∀ cardId condition price currency source,
     cardId ≠ "" → condition ≠ "" → (price <= 0)%Q →
     PriceController.handleRequest supabase now
       (add_price_request (PriceBody.mk cardId condition (Some price) currency source))
       = Response.mk 500 (Response.Error "Price must be greater than 0")) ∧
  (∀ authHeader user_id cardId condition quantity purchase_price notes,
     authHeader ≠ "" → Supabase.auth_getUser supabase authHeader = Some user_id →
     user_id ≠ "" → cardId ≠ "" → quantity ≤ 0 →
     CollectionController.handleRequest supabase
       (add_to_collection_request authHeader
          (CollectionBody.mk cardId condition (Some quantity) purchase_price notes))
       = Response.mk 500 (Response.Error "Quantity must be greater than 0")) ∧
  (∀ name game set_name rarity,
     trim name ≠ "" → game ∉ validGames →
     CardController.handleRequest repository
       (create_card_request (CardBody.mk name game set_name rarity))
       = Response.mk 500 (Response.Error "Invalid game type")) ∧
  (∀ req,
     Response.status (PriceController.handleRequest supabase now req) = 400
     ↔ missing_parameter req = true) ∧
  (∀ req, Response.status (CardController.handleRequest repository req) ≠ 400) ∧
  (∀ req, Response.status (CollectionController.handleRequest supabase req) ≠ 400).
Proof.
  repeat split.
  - intros cardId condition days Hid Hc Hdays.
    unfold PriceController.handleRequest, PriceController.dispatch,
      PriceService.getPriceHistory; cbn. decide_constants.
    repeat (rewrite truthy_true by done; cbn).
    by rewrite (proj2 (Z.ltb_lt _ _) Hdays).
  - intros cardId condition days Hid Hc Hdays Hcond.
    unfold PriceController.handleRequest, PriceController.dispatch,
      PriceService.getPriceHistory; cbn. decide_constants.
    repeat (rewrite truthy_true by done; cbn).
    rewrite (proj2 (Z.ltb_ge _ _) Hdays).
    by rewrite includes_false.
  - intros limit Hlimit.
    unfold PriceController.handleRequest, PriceController.dispatch,
      PriceService.getTopGainers; cbn. decide_constants.
    by rewrite (proj2 (Z.ltb_lt _ _) Hlimit).
  - intros game limit Hg Hgame.
    unfold PriceController.handleRequest, PriceController.dispatch,
      PriceService.getTopGainers; cbn. decide_constants.
    repeat (rewrite truthy_true by done; cbn).
    by rewrite includes_false.
  - intros cardId condition price currency source Hid Hc Hprice.
    unfold PriceController.handleRequest, PriceController.dispatch,
      PriceService.addPrice; cbn. decide_constants.
    repeat (rewrite truthy_true by done; cbn).
    by rewrite (proj2 (Qle_bool_iff _ _) Hprice).
  - intros authHeader user_id cardId condition quantity purchase_price notes
      Hauth Huser Huid Hid Hq.
    unfold CollectionController.handleRequest, CollectionController.dispatch,
      CollectionService.addCardToCollection; cbn.
    rewrite !truthy_true by done. cbn. rewrite Huser. decide_constants. cbn.
    repeat (rewrite truthy_true by done; cbn).
    by rewrite (proj2 (Z.leb_le _ _) Hq).
  - intros name game set_name rarity Hname Hgame.
    unfold CardController.handleRequest, CardController.dispatch,
      CardService.createCard; cbn -[trim js_length]. decide_constants.
    assert (Hn : name ≠ "") by (intros ->; by apply Hname).
    rewrite truthy_true by done. cbn -[trim js_length].
    rewrite js_length_blank by done. cbn.
    rewrite includes_false by done. cbn. by decide_constants.
  - by apply price_status_400.
  - by apply price_status_400.
  - apply card_status_not_400.
  - apply collection_status_not_400.
Qed.

(** ** The collection statistics *)

Section Valuation.
Import CollectionRepository.

Lemma latest_for_snoc (k : string) (rows : list CollectionRow.t)
    (x : CollectionRow.t) :
  latest_for k (rows ++ [x]) =
  if decide (cardKey x = k) then
    match latest_for k rows with
    | Some kept =>
        if PriceRef.recorded_at kept <? PriceRef.recorded_at (CollectionRow.card_prices x)
        then Some (CollectionRow.card_prices x)
        else Some kept
    | None => Some (CollectionRow.card_prices x)
    end
  else latest_for k rows.
Proof.
  induction rows as [|y rows IH]; cbn [latest_for app].
  - by destruct (decide (cardKey x = k)).
  - rewrite IH. clear IH.
    destruct (decide (cardKey y = k)), (decide (cardKey x = k)); try done.
    destruct (latest_for k rows) as [p|].
    + repeat (case_match; try done);
        repeat match goal with
               | H : (_ <? _) = true |- _ => apply Z.ltb_lt in H
               | H : (_ <? _) = false |- _ => apply Z.ltb_ge in H
               | H : Some _ = Some _ |- _ => injection H as <-
               end; first [done | lia].
    + repeat (case_match; try done);
        repeat match goal with
               | H : (_ <? _) = true |- _ => apply Z.ltb_lt in H
               | H : (_ <? _) = false |- _ => apply Z.ltb_ge in H
               | H : Some _ = Some _ |- _ => injection H as <-
               end; first [done | lia].
Qed.

Lemma cardPriceMap_latest (rows : list CollectionRow.t) (k : string) :
  Map_get k (fold_left price_step rows []) = latest_for k rows.
Proof.
  induction rows as [|x rows IH] using rev_ind; [done|].
  rewrite fold_left_app, latest_for_snoc. cbn [fold_left].
  set (m := fold_left price_step rows []) in *.
  unfold price_step, Map_has. cbv zeta.
  destruct (decide (cardKey x = k)) as [<-|Hk].
  - rewrite IH. destruct (latest_for (cardKey x) rows) as [kept|]; cbn [negb orb].
    + destruct (_ <? _); [|by rewrite IH].
      by rewrite Map_get_set, decide_True.
    + by rewrite Map_get_set, decide_True.
  - destruct (negb _ || _); [|done].
    by rewrite Map_get_set, decide_False.
Qed.

Lemma totalValue_sum (m : JsMap PriceRef.t) (rows : list CollectionRow.t) (a : Q) :
  (fold_left (value_step m) rows a ==
   a + foldr Qplus 0
         ((λ item,
             match Map_get (cardKey item) m with
             | Some latest =>
                 PriceRef.price latest * inject_Z (CollectionRow.quantity item)
             | None => 0
             end) <$> rows))%Q.
Proof.
  revert a. induction rows as [|x rows IH]; intros a; cbn [fold_left fmap list_fmap foldr].
  - by rewrite Qplus_0_r.
  - rewrite IH. unfold value_step.
    destruct (Map_get (cardKey x) m); ring.
Qed.

(** What [getCollectionStats] computes: the number of rows of the user in
    [user_collections], and the valuation of the rows that the embedded
    select answers. *)
Lemma collection_stats_value (supabase : Supabase.t) (userId : string) :
  let stats := getCollectionStats supabase userId in
  CollectionStats.totalCards stats
    = Z.of_nat (length (filter (λ u, UserCollection.user_id u = userId)
                          (Supabase.user_collections supabase))) ∧
  (CollectionStats.totalValue stats
    == valuation (default [] (Supabase.collections_with_prices supabase userId)))%Q.
Proof.
  unfold getCollectionStats.
  destruct (Supabase.collections_with_prices supabase userId) as [[|x rows]|];
    cbn [default from_option id]; split; try done.
  cbn [CollectionStats.totalValue].
  rewrite totalValue_sum, Qplus_0_l. unfold valuation.
  set (all := x :: rows). clearbody all.
  assert (Hext : ∀ l : list CollectionRow.t,
     (λ item, match Map_get (cardKey item) (fold_left price_step all []) with
              | Some latest => PriceRef.price latest * inject_Z (CollectionRow.quantity item)
              | None => 0
              end)%Q <$> l
     = (λ item, match latest_for (cardKey item) all with
                | Some latest => PriceRef.price latest * inject_Z (CollectionRow.quantity item)
                | None => 0
                end)%Q <$> l).
  { intros l. apply list_fmap_ext. intros i item _. by rewrite cardPriceMap_latest. }
  by rewrite Hext.
Qed.
End Valuation.

Lemma latest_for_None (k : string) (rows : list CollectionRow.t) :
  k ∉ CollectionRepository.cardKey <$> rows → latest_for k rows = None.
Proof.
  induction rows as [|y rows IH]; [done|]. rewrite fmap_cons, not_elem_of_cons.
  intros [Hk Hrest]. cbn [latest_for]. rewrite decide_False by done. auto.
Qed.

Lemma latest_for_distinct (rows : list CollectionRow.t) (item : CollectionRow.t) :
  NoDup (CollectionRepository.cardKey <$> rows) → item ∈ rows →
  latest_for (CollectionRepository.cardKey item) rows
    = Some (CollectionRow.card_prices item).
Proof.
  induction rows as [|y rows IH]; [by intros _ ?%elem_of_nil|].
  rewrite fmap_cons, NoDup_cons. intros [Hy Hnd] [->|Hin]%elem_of_cons.
  - cbn [latest_for]. rewrite decide_True by done. by rewrite latest_for_None.
  - cbn [latest_for]. rewrite decide_False; [auto|].
    intros Heq. apply Hy. rewrite Heq. by apply list_elem_of_fmap_2.
Qed.

(** With one row per key, as when each entry has a single price, the
    valuation is the sum of price times quantity over the rows. *)
Lemma valuation_distinct_keys (rows : list CollectionRow.t) :
  NoDup (CollectionRepository.cardKey <$> rows) →
  valuation rows =
  foldr Qplus 0%Q
    ((λ item, PriceRef.price (CollectionRow.card_prices item)
              * inject_Z (CollectionRow.quantity item))%Q <$> rows).
Proof.
  intros Hnd. unfold valuation. f_equal.
  apply Forall_fmap_ext_1, Forall_forall. intros item Hin.
  by rewrite latest_for_distinct.
Qed.



(** C9. For every store and user, the [topGainer] field of the collection
    statistics is the placeholder of name "Dark Magician" and change 8.2,
    at the repository and, for a non-empty user id, through the service. *)
Theorem collection_stats_top_gainer_placeholder (supabase : Supabase.t)
    (userId : string) :
  CollectionStats.topGainer (CollectionRepository.getCollectionStats supabase userId)
    = TopGainer.mk "Dark Magician" 8.2 ∧
  CollectionStats.topGainer <$> CollectionService.getCollectionStats supabase userId
    = if truthy userId
      then Ok (TopGainer.mk "Dark Magician" 8.2)
      else Throw "User ID is required".
Proof.
  assert (Hrepo : CollectionStats.topGainer
                    (CollectionRepository.getCollectionStats supabase userId)
                  = TopGainer.mk "Dark Magician" 8.2).
  { unfold CollectionRepository.getCollectionStats.
    by destruct (Supabase.collections_with_prices supabase userId) as [[|x rows]|]. }
  split; [done|]. unfold CollectionService.getCollectionStats.
  destruct (truthy userId); cbn; [by rewrite Hrepo | done].
Qed.

(** * Further properties *)

(** ** Routing, authentication and the guards of the writes *)

Lemma not_served (method : string) :
  method ∉ served_methods ↔
  method ≠ "GET" ∧ method ≠ "POST" ∧ method ≠ "PUT" ∧ method ≠ "DELETE".
Proof.
  unfold served_methods. rewrite !not_elem_of_cons.
  split; [tauto|]. intros (? & ? & ? & ?). repeat split; try done.
  apply not_elem_of_nil.
Qed.

(** X1. The prices and the cards function answer 405 exactly to the
    methods other than GET, POST, PUT, DELETE and OPTIONS; the collection
    function does so once the caller is authenticated. *)
Theorem method_not_allowed (supabase : Supabase.t) (now : Z)
    (repository : CardRepository.t) :
  (∀ req,
     Response.status (PriceController.serve supabase now req) = 405
     ↔ (Request.method req ≠ "OPTIONS") ∧ (Request.method req ∉ served_methods)) ∧
  (∀ req,
     Response.status (CardController_serve repository req) = 405
     ↔ (Request.method req ≠ "OPTIONS") ∧ (Request.method req ∉ served_methods)) ∧
  (∀ req,
     Response.status (CollectionController_serve supabase req) = 405
     ↔ (Request.method req ≠ "OPTIONS") ∧ (Request.method req ∉ served_methods)
       ∧ ∃ authHeader user_id,
           Request.authorization req = Some authHeader ∧ authHeader ≠ ""
           ∧ Supabase.auth_getUser supabase authHeader = Some user_id).
Proof.
  split; [|split]; intros req; rewrite not_served.
  - unfold PriceController.serve, PriceController.handleRequest,
      PriceController.dispatch.
    run_controller; cbn; split; try (intros (? & ? & ? & ? & ?)); 
      first [done | congruence | by repeat split].
  - unfold CardController_serve, CardController.handleRequest,
      CardController.dispatch.
    run_controller; cbn; try case_bool_decide; cbn;
      split; try (intros (? & ? & ? & ? & ?));
      first [done | congruence | by repeat split].
  - unfold CollectionController_serve, CollectionController.handleRequest,
      CollectionController.dispatch.
    case_bool_decide as Hopt.
    { cbn. split; [done|]. by intros [? _]. }
    destruct (Request.authorization req) as [authHeader|] eqn:Hauth; cbn;
      [|split; [done | by intros (_ & _ & ? & ? & ? & _)]].
    unfold truthy. case_bool_decide as Hempty; cbn.
    { split; [done|]. intros (_ & _ & a & u & [= <-] & ? & _). done. }
    destruct (Supabase.auth_getUser supabase authHeader) as [user_id|] eqn:Huser; cbn.
    2:{ split; [done|]. intros (_ & _ & a & u & [= <-] & _ & Hu). congruence. }
    run_controller; cbn; split;
      try (intros (? & (? & ? & ? & ?) & ?));
      first [done | congruence | (split; [done|]; split; [by repeat split|]; eauto)].
Qed.

(** X2. The collection function answers 401 exactly to a request of a
    method other than OPTIONS that carries no authorization header, an
    empty one, or one that the identity provider resolves to no user; the
    answer is then the same for every such method, path, query and body.
    OPTIONS is answered 200 before any look at the header. *)
Theorem collection_unauthorized (supabase : Supabase.t)
    (req : Request.t CollectionBody.t) :
  (Response.status (CollectionController_serve supabase req) = 401
   ↔ (Request.method req ≠ "OPTIONS")
     ∧ ∀ authHeader, Request.authorization req = Some authHeader →
                      authHeader ≠ "" →
                      Supabase.auth_getUser supabase authHeader = None) ∧
  (Response.status (CollectionController_serve supabase req) = 401 →
   ∀ method pathSegments searchParams json,
     method ≠ "OPTIONS" →
     CollectionController_serve supabase
       (Request.mk method pathSegments searchParams (Request.authorization req) json)
     = CollectionController_serve supabase req) ∧
  (Request.method req = "OPTIONS" →
   CollectionController_serve supabase req = Response.mk 200 Response.Empty).
Proof.
  unfold CollectionController_serve.
  split; [|split]; [| |by intros ->].
  - case_bool_decide as Hoptions; cbn; [split; [done | by intros [? _]]|].
    unfold CollectionController.handleRequest, CollectionController.dispatch.
    destruct (Request.authorization req) as [authHeader|] eqn:Hauth; cbn;
      [|split; [split; [done | by intros ? [=]] | done]].
    unfold truthy. case_bool_decide as Hempty; cbn.
    { split; [|done]. split; [done|]. intros a [= <-] Ha. done. }
    destruct (Supabase.auth_getUser supabase authHeader) as [user_id|] eqn:Huser; cbn.
    2:{ split; [|done]. split; [done|]. by intros a [= <-] _. }
    assert (Hnot : ∀ P : Prop,
              (Request.method req ≠ "OPTIONS")
              ∧ (∀ a, Some authHeader = Some a → a ≠ "" →
                      Supabase.auth_getUser supabase a = None) → P).
    { intros P [_ H]. specialize (H authHeader eq_refl Hempty). congruence. }
    run_controller; cbn; (split; [done | apply Hnot]).
  - case_bool_decide as Hoptions; cbn; [done|].
    intros H401 method pathSegments searchParams json Hmethod.
    rewrite bool_decide_eq_false_2 by done.
    revert H401.
    unfold CollectionController.handleRequest, CollectionController.dispatch.
    cbn [Request.authorization].
    destruct (Request.authorization req) as [authHeader|] eqn:Hauth; [|done].
    destruct (negb (truthy authHeader)); [done|].
    destruct (Supabase.auth_getUser supabase authHeader) as [user_id|]; [|done].
    cbn [Request.method Request.pathSegments].
    run_controller; cbn; done.
Qed.

(** X3. For a card id that the repository does not find, reading the
    card, updating it and deleting it are all answered with status 404
    and the message "Card not found", whatever the repository would
    answer to the update or the deletion. *)
Theorem missing_card_not_found (repository : CardRepository.t)
    (req : Request.t CardBody.t) :
  last_segment (Request.pathSegments req) ≠ "" →
  CardRepository.getCardById repository (last_segment (Request.pathSegments req))
    = Ok None →
  (Request.method req = "GET" ∧ (1 < length (Request.pathSegments req))%nat)
  ∨ (Request.method req = "PUT" ∧ Request.json req ≠ None)
  ∨ Request.method req = "DELETE" →
  CardController.handleRequest repository req
    = Response.mk 404 (Response.Error "Card not found").
Proof.
  intros Hid Hmissing Hroute.
  unfold CardController.handleRequest, CardController.dispatch,
    CardService.updateCard, CardService.deleteCard, CardService.getCardById,
    req_json.
  rewrite truthy_true by done. cbn [negb]. rewrite Hmissing.
  destruct Hroute as [[-> Hlen] | [[-> Hjson] | ->]]; decide_constants.
  - apply Nat.ltb_lt in Hlen. rewrite Hlen. by cbn.
  - destruct (Request.json req); [by cbn | done].
  - by cbn.
Qed.

Lemma missing_card_not_found_witness :
  CardController.handleRequest (list_card_repository [ex_card])
    (Request.mk "DELETE" ["cards"; "card-9"] no_query None None)
    = Response.mk 404 (Response.Error "Card not found").
Proof.
  apply missing_card_not_found.
  - discriminate.
  - reflexivity.
  - right. right. reflexivity.
Defined.

Lemma addPrice_Ok (supabase : Supabase.t) (cardId condition : string)
    (price : option Q) (currency source : option string) (stored : CardPrice.t) :
  PriceService.addPrice supabase cardId condition price currency source = Ok stored
  ↔ cardId ≠ "" ∧ condition ∈ validConditions
    ∧ (∀ p, price = Some p → (0 < p)%Q)
    ∧ default "EUR" currency ∈ validCurrencies
    ∧ Supabase.insert_price supabase
        (PriceBody.mk cardId condition price (Some (default "EUR" currency)) source)
      = Ok stored.
Proof.
  unfold PriceService.addPrice, PriceRepository.addPrice, truthy, includes.
  assert (Hprice : (∀ p, price = Some p → (0 < p)%Q)
                   ↔ match price with Some p => Qle_bool p 0 | None => false end = false).
  { destruct price as [p|]; [|split; [done | by intros _ ? [=]]].
    rewrite <- not_true_iff_false, Qle_bool_iff. split.
    - intros H. apply Qlt_not_le. by apply H.
    - intros H q [= <-]. by apply Qnot_le_lt. }
  rewrite Hprice.
  split.
  - intros H.
    destruct (match price with Some p => Qle_bool p 0 | None => false end).
    + repeat match type of H with
             | context [bool_decide ?P] =>
                 destruct (bool_decide_reflect P); cbn in H; try discriminate
             end.
    + repeat match type of H with
             | context [bool_decide ?P] =>
                 destruct (bool_decide_reflect P); cbn in H; try discriminate
             end.
      done.
  - intros (Hid & Hc & -> & Hcur & Hins).
    assert (condition ≠ "").
    { intros ->. repeat (apply elem_of_cons in Hc as [?|Hc]; [discriminate|]).
      by apply elem_of_nil in Hc. }
    rewrite !bool_decide_eq_false_2 by done. cbn.
    by rewrite !bool_decide_eq_true_2 by done.
Qed.

Lemma updatePrice_Ok (supabase : Supabase.t) (priceId : string)
    (updates : PriceBody.t) (stored : CardPrice.t) :
  PriceService.updatePrice supabase priceId updates = Ok stored
  ↔ priceId ≠ ""
    ∧ (∀ p, PriceBody.price updates = Some p → (0 < p)%Q)
    ∧ Supabase.update_price supabase priceId updates = Ok stored.
Proof.
  unfold PriceService.updatePrice, PriceRepository.updatePrice, truthy.
  assert (Hprice : (∀ p, PriceBody.price updates = Some p → (0 < p)%Q)
                   ↔ match PriceBody.price updates with
                      | Some p => Qle_bool p 0
                      | None => false
                      end = false).
  { destruct (PriceBody.price updates) as [p|]; [|split; [done | by intros _ ? [=]]].
    rewrite <- not_true_iff_false, Qle_bool_iff. split.
    - intros H. apply Qlt_not_le. by apply H.
    - intros H q [= <-]. by apply Qnot_le_lt. }
  rewrite Hprice.
  destruct (match PriceBody.price updates with
            | Some p => Qle_bool p 0
            | None => false
            end);
    case_bool_decide; cbn; split; try (intros (? & ? & ?)); done.
Qed.

(** X4. The prices function answers a POST with status 201 and the
    stored record exactly when the body parses, names a card and one of
    the six conditions, carries no price or a positive one and a currency
    that is absent (then EUR) or one of EUR, USD, GBP and JPY, and the
    store accepts the insert of exactly these data; it answers a PUT with
    status 200 and the updated record exactly when the body parses, the
    path ends in a price id, the price of the update is absent or
    positive and the store accepts the update.  A price that is zero or
    negative never reaches the store. *)
Theorem price_writes_guarded (supabase : Supabase.t) (now : Z)
    (req : Request.t PriceBody.t) (stored : CardPrice.t) :
  (PriceController.handleRequest supabase now req
     = Response.mk 201 (Response.Json (PricePayload.Price stored))
   ↔ Request.method req = "POST"
     ∧ ∃ priceData,
         Request.json req = Some priceData
         ∧ PriceBody.card_id priceData ≠ ""
         ∧ PriceBody.condition priceData ∈ validConditions
         ∧ (∀ p, PriceBody.price priceData = Some p → (0 < p)%Q)
         ∧ default "EUR" (PriceBody.currency priceData) ∈ validCurrencies
         ∧ Supabase.insert_price supabase
             (PriceBody.mk (PriceBody.card_id priceData)
                (PriceBody.condition priceData) (PriceBody.price priceData)
                (Some (default "EUR" (PriceBody.currency priceData)))
                (PriceBody.source priceData))
           = Ok stored) ∧
  (Request.method req = "PUT" →
   (PriceController.handleRequest supabase now req
      = ok_response (PricePayload.Price stored)
    ↔ ∃ updateData,
        Request.json req = Some updateData
        ∧ last_segment (Request.pathSegments req) ≠ ""
        ∧ (∀ p, PriceBody.price updateData = Some p → (0 < p)%Q)
        ∧ Supabase.update_price supabase
            (last_segment (Request.pathSegments req)) updateData
          = Ok stored)).
Proof.
  split.
  - split.
    + unfold PriceController.handleRequest, PriceController.dispatch, req_json.
      case_bool_decide as Hget.
      { run_controller; cbn; discriminate. }
      case_bool_decide as Hpost.
      2:{ run_controller; cbn; discriminate. }
      destruct (Request.json req) as [priceData|]; cbn; [|discriminate].
      destruct (PriceService.addPrice _ _ _ _ _ _) as [newPrice|message] eqn:Hadd;
        cbn; [|discriminate].
      intros [= ->]. split; [done|]. exists priceData. split; [done|].
      by apply addPrice_Ok.
    + intros (Hpost & priceData & Hjson & Hadd).
      unfold PriceController.handleRequest, PriceController.dispatch, req_json.
      rewrite Hpost, Hjson. decide_constants. cbn.
      by rewrite (proj2 (addPrice_Ok _ _ _ _ _ _ _) Hadd).
  - intros Hput.
    unfold PriceController.handleRequest, PriceController.dispatch, req_json.
    rewrite Hput. decide_constants. split.
    + destruct (Request.json req) as [updateData|]; cbn; [|discriminate].
      destruct (PriceService.updatePrice _ _ _) as [updated|message] eqn:Hupd;
        cbn; [|discriminate].
      intros [= ->]. exists updateData. split; [done|]. by apply updatePrice_Ok.
    + intros (updateData & -> & Hupd). cbn.
      by rewrite (proj2 (updatePrice_Ok _ _ _ _) Hupd).
Qed.

Lemma addCardToCollection_Ok (supabase : Supabase.t) (userId cardId condition : string)
    (quantity : option Z) (purchasePrice : option Q) (notes : option string)
    (item : UserCollection.t) :
  CollectionService.addCardToCollection supabase userId cardId condition quantity
    purchasePrice notes = Ok item
  ↔ userId ≠ "" ∧ cardId ≠ ""
    ∧ (∀ q, quantity = Some q → 0 < q)
    ∧ condition ∈ validConditions
    ∧ Supabase.insert_collection supabase userId
        (CollectionBody.mk cardId condition quantity purchasePrice notes)
      = Ok item.
Proof.
  unfold CollectionService.addCardToCollection, CollectionRepository.addToCollection,
    truthy, includes.
  assert (Hq : (∀ q, quantity = Some q → 0 < q)
               ↔ match quantity with Some q => q <=? 0 | None => false end = false).
  { destruct quantity as [q|]; [|split; [done | by intros _ ? [=]]].
    rewrite Z.leb_gt. split; [by intros H; apply H | by intros H ? [= <-]]. }
  rewrite Hq.
  destruct (match quantity with Some q => q <=? 0 | None => false end);
    repeat case_bool_decide; cbn; split; try (intros (? & ? & ? & ? & ?)); done.
Qed.

(** X5. The collection function answers a POST with status 201 and the
    stored entry exactly when the caller is authenticated, the body
    parses, names a card and one of the six conditions, carries no
    quantity or a positive one, and the store accepts the insert; the
    entry is inserted for the authenticated user. *)
Theorem collection_add_guarded (supabase : Supabase.t)
    (req : Request.t CollectionBody.t) (item : UserCollection.t) :
  CollectionController.handleRequest supabase req
    = Response.mk 201 (Response.Json (CollectionPayload.Item item))
  ↔ Request.method req = "POST"
    ∧ ∃ authHeader user_id addData,
        Request.authorization req = Some authHeader ∧ authHeader ≠ ""
        ∧ Supabase.auth_getUser supabase authHeader = Some user_id
        ∧ Request.json req = Some addData
        ∧ user_id ≠ ""
        ∧ CollectionBody.card_id addData ≠ ""
        ∧ (∀ q, CollectionBody.quantity addData = Some q → 0 < q)
        ∧ CollectionBody.condition addData ∈ validConditions
        ∧ Supabase.insert_collection supabase user_id
            (CollectionBody.mk (CollectionBody.card_id addData)
               (CollectionBody.condition addData) (CollectionBody.quantity addData)
               (CollectionBody.purchase_price addData) (CollectionBody.notes addData))
          = Ok item.
Proof.
  unfold CollectionController.handleRequest. split.
  - destruct (Request.authorization req) as [authHeader|]; [|discriminate].
    unfold truthy. case_bool_decide as Hempty; cbn [negb]; [discriminate|].
    destruct (Supabase.auth_getUser supabase authHeader) as [user_id|] eqn:Huser;
      [|discriminate].
    unfold CollectionController.dispatch, req_json.
    case_bool_decide as Hget.
    { run_controller; cbn; discriminate. }
    case_bool_decide as Hpost.
    2:{ run_controller; cbn; discriminate. }
    destruct (Request.json req) as [addData|]; cbn; [|discriminate].
    destruct (CollectionService.addCardToCollection _ _ _ _ _ _ _)
      as [newItem|message] eqn:Hadd; cbn; [|discriminate].
    intros [= ->]. split; [done|]. exists authHeader, user_id, addData.
    apply addCardToCollection_Ok in Hadd. tauto.
  - intros (Hpost & authHeader & user_id & addData & -> & Hempty & -> & Hjson & Hadd).
    rewrite truthy_true by done. cbn [negb].
    unfold CollectionController.dispatch, req_json.
    rewrite Hpost, Hjson. decide_constants. cbn.
    by rewrite (proj2 (addCardToCollection_Ok _ _ _ _ _ _ _ _) Hadd).
Qed.

Lemma trim_empty (s : string) : trim s ≠ "" → s ≠ "".
Proof. by intros H ->. Qed.

Lemma createCard_Ok (repository : CardRepository.t) (cardData : CardBody.t)
    (card : Card.t) :
  CardService.createCard repository cardData = Ok card
  ↔ trim (CardBody.name cardData) ≠ ""
    ∧ CardBody.game cardData ∈ validGames
    ∧ CardRepository.createCard repository
        (CardBody.mk (trim (CardBody.name cardData)) (CardBody.game cardData)
           (CardBody.set_name cardData) (CardBody.rarity cardData))
      = Ok card.
Proof.
  unfold CardService.createCard, truthy, includes.
  destruct (decide (trim (CardBody.name cardData) = "")) as [Htrim|Htrim].
  - rewrite Htrim. change (js_length "" =? 0)%nat with true.
    rewrite orb_true_r. split; [done | by intros [? _]].
  - assert (CardBody.name cardData ≠ "") by by apply trim_empty.
    rewrite bool_decide_eq_false_2, js_length_blank by done. cbn [negb orb].
    case_bool_decide; cbn [negb]; split; try (intros (? & ? & ?)); done.
Qed.

(** X6. The cards function answers a POST with status 201 and the stored
    card exactly when the body parses, its name is not blank (it holds
    more than the white space that [trim] strips, that of Unicode
    included), its game is one of yugioh, mtg and pokemon, and the
    repository accepts the card; the name reaches the repository
    trimmed. *)
Theorem card_create_guarded (repository : CardRepository.t)
    (req : Request.t CardBody.t) (card : Card.t) :
  CardController.handleRequest repository req
    = Response.mk 201 (Response.Json (CardPayload.OneCard card))
  ↔ Request.method req = "POST"
    ∧ ∃ createData,
        Request.json req = Some createData
        ∧ trim (CardBody.name createData) ≠ ""
        ∧ CardBody.game createData ∈ validGames
        ∧ CardRepository.createCard repository
            (CardBody.mk (trim (CardBody.name createData)) (CardBody.game createData)
               (CardBody.set_name createData) (CardBody.rarity createData))
          = Ok card.
Proof.
  unfold CardController.handleRequest, CardController.dispatch, req_json. split.
  - case_bool_decide as Hget.
    { run_controller; cbn; try case_bool_decide; discriminate. }
    case_bool_decide as Hpost.
    2:{ run_controller; cbn; try case_bool_decide; discriminate. }
    destruct (Request.json req) as [createData|]; cbn; [|discriminate].
    destruct (CardService.createCard _ _) as [newCard|message] eqn:Hadd; cbn;
      [|case_bool_decide; discriminate].
    intros [= ->]. split; [done|]. exists createData. split; [done|].
    by apply createCard_Ok.
  - intros (Hpost & createData & Hjson & Hadd).
    rewrite Hpost, Hjson. decide_constants. cbn -[trim js_length].
    by rewrite (proj2 (createCard_Ok _ _ _) Hadd).
Qed.

(** A name of one no-break space is blank. *)
Example blank_name_refused :
  CardController.handleRequest (list_card_repository [])
    (create_card_request (CardBody.mk nbsp "yugioh" None None))
  = Response.mk 500 (Response.Error "Card name is required").
Proof. reflexivity. Qed.

(** ** The price history and the latest prices *)

(** X7. For valid inputs the history holds exactly the observations of
    the requested card and condition that are dated at or after the
    cutoff, each once, with their price, currency, source and timestamp. *)
Theorem price_history_exact (supabase : Supabase.t) (now : Z)
    (cardId condition : string) (days : Z) :
  cardId ≠ "" → condition ∈ validConditions → days ≤ 365 →
  Z.abs (daysAgo now days) ≤ maxTime →
  ∃ rows,
    PriceService.getPriceHistory supabase now cardId condition (Some days)
      = Ok (PriceHistory.mk cardId condition (PriceService.pricePoint <$> rows)) ∧
    rows ≡ₚ filter (λ p, CardPrice.card_id p = cardId
                         ∧ condition_str (CardPrice.condition p) = condition
                         ∧ now - days * msPerDay ≤ CardPrice.recorded_at p)
              (Supabase.card_prices supabase).
Proof.
  intros Hid Hcond Hdays Hrange. eexists. split; [by apply service_history_ok|].
  apply stable_sort_Permutation.
Qed.

Lemma price_history_exact_witness :
  ∃ rows,
    PriceService.getPriceHistory (one_price_store (ex_now - msPerDay)) ex_now
        "card-1" "near_mint" (Some 30)
      = Ok (PriceHistory.mk "card-1" "near_mint" (PriceService.pricePoint <$> rows)) ∧
    rows ≡ₚ filter (λ p, CardPrice.card_id p = "card-1"
                         ∧ condition_str (CardPrice.condition p) = "near_mint"
                         ∧ ex_now - 30 * msPerDay ≤ CardPrice.recorded_at p)
              (Supabase.card_prices (one_price_store (ex_now - msPerDay))).
Proof.
  apply (price_history_exact (one_price_store (ex_now - msPerDay)) ex_now
           "card-1" "near_mint" 30).
  - discriminate.
  - vm_compute. do 1 right. left.
  - lia.
  - vm_compute. discriminate.
Defined.

Lemma Map_set_fresh {V} (k : string) (v : V) (m : JsMap V) :
  Map_get k m = None → Map_set k v m = m ++ [(k, v)].
Proof.
  induction m as [|[k0 v0] m IH]; cbn [Map_get Map_set app]; [done|].
  case_decide; [done|]. intros Hnone. by rewrite IH.
Qed.

Section ResolverOrder.
Import PriceRepository.

Lemma latest_fold_sorted (data : list CardPrice.t) :
  StronglySorted newer_first data →
  StronglySorted newer_first (Map_values (fold_left latest_step data [])).
Proof.
  induction data as [|x data IH] using rev_ind; intros Hs; [constructor|].
  apply StronglySorted_app in Hs as (Hlast & Hdata & _).
  specialize (IH Hdata). rewrite fold_left_app. cbn [fold_left].
  destruct (latest_fold_inv data) as (Hnd & Hkeys & Hget).
  set (m := fold_left latest_step data []) in *.
  unfold latest_step, Map_has.
  destruct (Map_get _ m) as [kept|] eqn:Hkept; cbn [negb orb].
  - destruct (Hget _ _ Hkept) as [_ Hin%first_latest_elem_of].
    specialize (Hlast kept x Hin ltac:(left)). unfold newer_first in Hlast.
    by rewrite (proj2 (Z.ltb_ge _ _) Hlast).
  - rewrite Map_set_fresh by done. unfold Map_values. rewrite fmap_app.
    apply StronglySorted_app_2; [|done|repeat constructor].
    intros a b [[k a'] [-> Ha]]%list_elem_of_fmap ->%list_elem_of_singleton.
    apply Hlast; [|left].
    by apply (Map_elem_get _ _ _ Hnd), Hget in Ha as [_ ?%first_latest_elem_of].
Qed.

Lemma latest_fold_distinct (data : list CardPrice.t) :
  NoDup (CardPrice.condition <$> data) →
  fold_left latest_step data []
    = (λ r, (condition_str (CardPrice.condition r), r)) <$> data.
Proof.
  induction data as [|x data IH] using rev_ind; intros Hnd; [done|].
  rewrite fmap_app in Hnd. apply NoDup_app in Hnd as (Hdata & Hfresh & _).
  rewrite fold_left_app, fmap_app, IH by done. cbn [fold_left].
  unfold latest_step, Map_has.
  assert (Hnone : Map_get (condition_str (CardPrice.condition x))
                    ((λ r, (condition_str (CardPrice.condition r), r)) <$> data)
                  = None).
  { apply Map_get_None_key. unfold Map_keys. rewrite <- list_fmap_compose.
    intros (r & Heq%condition_str_inj & Hin)%list_elem_of_fmap.
    apply (Hfresh (CardPrice.condition r)); [by apply list_elem_of_fmap_2|].
    rewrite <- Heq. left. }
  rewrite Hnone. cbn [negb orb]. by rewrite Map_set_fresh.
Qed.
End ResolverOrder.

#[local] Instance newer_first_trans : Transitive newer_first.
Proof. unfold newer_first. intros a b c. lia. Qed.

Lemma order_newest_first (rows : list CardPrice.t) :
  StronglySorted newer_first (order_recorded_at false rows).
Proof.
  apply Sorted_StronglySorted; [apply _|].
  unfold order_recorded_at, order_by.
  eapply Sorted_weaken; [|apply stable_sort_Sorted].
  - intros a b Hab. by apply Z.leb_le.
  - intros a b. rewrite !Z.leb_le. lia.
Qed.

(** X8. The latest prices of a card come back ordered from the newest
    record to the oldest. *)
Theorem latest_prices_newest_first (supabase : Supabase.t) (cardId : string) :
  ∃ out,
    PriceRepository.getLatestPricesForCard supabase cardId = Ok out ∧
    StronglySorted newer_first out.
Proof.
  eexists. split; [done|]. apply latest_fold_sorted, order_newest_first.
Qed.

(** X9. Resolving the latest prices of the result of the resolver
    changes nothing, and records with pairwise distinct conditions are
    returned as they are, in their order. *)
Theorem latest_prices_idempotent (data : list CardPrice.t) :
  PriceRepository.latestPrices (Some (PriceRepository.latestPrices (Some data)))
    = PriceRepository.latestPrices (Some data) ∧
  (NoDup (CardPrice.condition <$> data) →
   PriceRepository.latestPrices (Some data) = data).
Proof.
  assert (Hid : ∀ l : list CardPrice.t,
            NoDup (CardPrice.condition <$> l) →
            PriceRepository.latestPrices (Some l) = l).
  { intros l Hnd. unfold PriceRepository.latestPrices, Map_values.
    rewrite latest_fold_distinct by done.
    rewrite <- list_fmap_compose. apply list_fmap_id. }
  split; [|apply Hid]. apply Hid, latestPrices_conditions.
Qed.

(** ** The top-gainers ranking *)

Section GainersSource.
Variable now : Z.

Lemma entry_from_more data x k e :
  entry_from now data k e → entry_from now (data ++ [x]) k e.
Proof.
  intros ((r & Hr & Hk & Hc) & Hcur & Hprev). split; [|split].
  - exists r. split; [apply elem_of_app; by left | done].
  - destruct Hcur as [?|(r' & ? & ?)]; [by left | right].
    exists r'. split; [apply elem_of_app; by left | done].
  - destruct Hprev as [?|(r' & ? & ?)]; [by left | right].
    exists r'. split; [apply elem_of_app; by left | done].
Qed.

Lemma step_source data m x :
  (∀ k e, Map_get k m = Some e → entry_from now data k e) →
  ∀ k e, Map_get k (TopGainers.step (daysAgo now 7) (daysAgo now 14) m x) = Some e →
         entry_from now (data ++ [x]) k e.
Proof.
  intros Hm. unfold TopGainers.step.
  set (kx := TopGainers.key x).
  set (init := PriceChange.mk (CardPriceWithCard.cards x) 0 0 0 0).
  set (m1 := if negb (Map_has kx m) then Map_set kx init m else m).
  assert (Hx : x ∈ data ++ [x]) by (apply elem_of_app; right; left).
  assert (Hm1 : ∀ k e, Map_get k m1 = Some e → entry_from now (data ++ [x]) k e).
  { intros k e. unfold m1. destruct (Map_has kx m); cbn [negb].
    - intros He. by apply entry_from_more, Hm.
    - rewrite Map_get_set. case_decide as Hk.
      + intros [= <-]. subst k. split; [|split]; [|by left|by left].
        exists x. done.
      + intros He. by apply entry_from_more, Hm. }
  clearbody m1.
  destruct (Map_get kx m1) as [existing|] eqn:Hex; [|done].
  destruct (Hm1 _ _ Hex) as (Hcard & Hcur & Hprev).
  assert (Hset : ∀ e2, entry_from now (data ++ [x]) kx e2 →
            ∀ k e, Map_get k (Map_set kx e2 m1) = Some e →
                   entry_from now (data ++ [x]) k e).
  { intros e2 He2 k e. rewrite Map_get_set. case_decide as Hk; [|by apply Hm1].
    intros [= <-]. by subst k. }
  destruct (_ && Qeq_bool (PriceChange.currentPrice existing) 0) eqn:Hc1.
  - apply Hset. apply andb_prop in Hc1 as [Ht _].
    split; [done|]. split; [|done]. right. exists x. done.
  - destruct (_ && Qeq_bool (PriceChange.previousPrice existing) 0) eqn:Hc2;
      [|done].
    apply Hset. apply andb_prop in Hc2 as [[Hlt Ht]%andb_prop _].
    split; [done|]. split; [done|]. right. exists x.
    split; [done|]. split; [done|]. split; [|done].
    unfold in_previous. by rewrite Ht, Hlt.
Qed.

Lemma cardPriceChanges_source data k e :
  Map_get k (TopGainers.cardPriceChanges now data) = Some e →
  entry_from now data k e.
Proof.
  unfold TopGainers.cardPriceChanges. revert k e.
  induction data as [|x data IH] using rev_ind; [done|].
  rewrite fold_left_app. cbn [fold_left]. by apply step_source.
Qed.

Lemma Map_set_NoDup {V} k (v : V) m :
  NoDup (Map_keys m) → NoDup (Map_keys (Map_set k v m)).
Proof.
  intros Hnd. rewrite Map_keys_set. unfold Map_has.
  destruct (Map_get k m) eqn:Hk; [done|].
  apply NoDup_app. split; [done|]. split; [|apply NoDup_singleton].
  intros k' Hk' ->%list_elem_of_singleton. by apply Map_get_None_key in Hk.
Qed.

Lemma cardPriceChanges_NoDup data :
  NoDup (Map_keys (TopGainers.cardPriceChanges now data)).
Proof.
  unfold TopGainers.cardPriceChanges.
  induction data as [|x data IH] using rev_ind; [constructor|].
  rewrite fold_left_app. cbn [fold_left].
  set (m := fold_left (TopGainers.step _ _) data []) in *.
  unfold TopGainers.step. cbv zeta.
  set (m1 := if negb (Map_has _ m) then Map_set _ _ m else m).
  assert (Hm1 : NoDup (Map_keys m1)).
  { unfold m1. destruct (negb _); [by apply Map_set_NoDup | done]. }
  clearbody m1. destruct (Map_get _ m1); [|done].
  repeat (destruct (_ && _); [by apply Map_set_NoDup|]). done.
Qed.

Lemma changes_source data item :
  item ∈ TopGainers.changes now data →
  ∃ k r c p,
    r ∈ data ∧ TopGainers.key r = k
    ∧ PriceChange.card item = CardPriceWithCard.cards r
    ∧ c ∈ data ∧ TopGainers.key c = k ∧ in_current now c = true
    ∧ PriceChange.currentPrice item = price_of c
    ∧ p ∈ data ∧ TopGainers.key p = k ∧ in_previous now p = true
    ∧ PriceChange.previousPrice item = price_of p.
Proof.
  unfold TopGainers.changes.
  intros (e & -> & He)%list_elem_of_fmap.
  apply list_elem_of_In, filter_In in He as [He [Hc Hp]%andb_prop].
  apply list_elem_of_In, Map_values_get in He as [k Hin].
  apply (Map_elem_get _ _ _ (cardPriceChanges_NoDup data)) in Hin.
  apply cardPriceChanges_source in Hin as ((r & Hr & Hk & Hcard) & Hcur & Hprev).
  destruct Hcur as [H0|(c & Hcin & Hck & Hcw & Hcp)];
    [by rewrite H0 in Hc|].
  destruct Hprev as [H0|(p & Hpin & Hpk & Hpw & Hpp)];
    [by rewrite H0 in Hp|].
  exists k, r, c, p. done.
Qed.
End GainersSource.

Lemma select_source (supabase : Supabase.t) (now : Z) (game : option string)
    (r : CardPriceWithCard.t) :
  r ∈ TopGainers.select supabase now game →
  CardPriceWithCard.base r ∈ Supabase.card_prices supabase
  ∧ CardPriceWithCard.cards r ∈ Supabase.cards supabase
  ∧ Card.id (CardPriceWithCard.cards r) = CardPrice.card_id (CardPriceWithCard.base r)
  ∧ daysAgo now 14 ≤ CardPrice.recorded_at (CardPriceWithCard.base r)
  ∧ (∀ g, game = Some g → g ≠ "" →
          game_str (Card.game (CardPriceWithCard.cards r)) = g).
Proof.
  unfold TopGainers.select.
  set (joined := omap _ _).
  assert (Hjoined : r ∈ joined →
            CardPriceWithCard.base r ∈ Supabase.card_prices supabase
            ∧ CardPriceWithCard.cards r ∈ Supabase.cards supabase
            ∧ Card.id (CardPriceWithCard.cards r)
              = CardPrice.card_id (CardPriceWithCard.base r)
            ∧ daysAgo now 14 ≤ CardPrice.recorded_at (CardPriceWithCard.base r)).
  { unfold joined. intros (p & Hp & Hfind)%list_elem_of_omap.
    apply stable_sort_elem_of, list_elem_of_In, filter_In in Hp as [Hp Ht].
    destruct (List.find _ _) as [c|] eqn:Hc; [|done].
    cbn in Hfind. injection Hfind as <-. cbn.
    apply find_some in Hc as [Hc Hid%bool_decide_eq_true].
    split; [by apply list_elem_of_In|]. split; [by apply list_elem_of_In|].
    split; [done|]. by apply Z.leb_le. }
  destruct game as [g|].
  - case_bool_decide as Hg.
    + intros Hr%Hjoined. split_and!; try tauto. intros g' [= <-]. done.
    + intros [Hr%list_elem_of_In%Hjoined Hgame%bool_decide_eq_true]%list_elem_of_In%filter_In.
      split_and!; try tauto. by intros g' [= <-].
  - intros Hr%Hjoined. split_and!; try tauto. done.
Qed.

Lemma gainers_subseteq (now : Z) (data : list CardPriceWithCard.t) (limit : Z)
    (item : PriceChange.t) :
  item ∈ TopGainers.gainers now data limit → item ∈ TopGainers.changes now data.
Proof.
  unfold TopGainers.gainers, slice0. intros Hin%subseteq_take.
  by apply stable_sort_elem_of in Hin.
Qed.

(** X10. When top gainers are asked for one game, every result is a card
    of that game. *)
Theorem top_gainers_of_one_game (supabase : Supabase.t) (now : Z)
    (game : string) (limit : option Z) :
  game ≠ "" →
  ∃ out,
    PriceRepository.getTopGainers supabase now (Some game) limit = Ok out ∧
    Forall (λ r, game_str (Card.game (CardPriceWithCard.cards r)) = game) out.
Proof.
  intros Hgame. unfold PriceRepository.getTopGainers.
  destruct (TopGainers.select supabase now (Some game)) as [|r0 data0] eqn:Hsel.
  - exists []. split; [done|constructor].
  - rewrite <- Hsel. eexists. split; [done|].
    apply Forall_fmap, Forall_forall. intros item Hitem%gainers_subseteq.
    apply changes_source in Hitem as (k & r & _ & _ & Hr & _ & Hcard & _).
    cbn. rewrite Hcard.
    by apply (select_source _ _ _ _ Hr).
Qed.

Lemma top_gainers_of_one_game_witness :
  ∃ out,
    PriceRepository.getTopGainers bulk_store ex_now (Some "yugioh") (Some 3) = Ok out ∧
    Forall (λ r, game_str (Card.game (CardPriceWithCard.cards r)) = "yugioh") out.
Proof. apply top_gainers_of_one_game. discriminate. Defined.

(** X11. Every result of the top gainers carries a positive price that is
    the price of an observation of the store for the result's card, dated
    at or after seven days before now, and the store holds a further
    observation of that card with a positive price dated within the week
    before that. *)
Theorem top_gainers_from_store (supabase : Supabase.t) (now : Z)
    (game : option string) (limit : option Z) :
  ∃ out,
    PriceRepository.getTopGainers supabase now game limit = Ok out ∧
    Forall
      (λ r,
         (0 < CardPrice.price (CardPriceWithCard.base r))%Q
         ∧ (∃ c, c ∈ Supabase.card_prices supabase
                 ∧ CardPrice.card_id c = CardPrice.card_id (CardPriceWithCard.base r)
                 ∧ CardPrice.price c = CardPrice.price (CardPriceWithCard.base r)
                 ∧ now - 7 * msPerDay ≤ CardPrice.recorded_at c)
         ∧ (∃ p, p ∈ Supabase.card_prices supabase
                 ∧ CardPrice.card_id p = CardPrice.card_id (CardPriceWithCard.base r)
                 ∧ (0 < CardPrice.price p)%Q
                 ∧ now - 14 * msPerDay ≤ CardPrice.recorded_at p
                   < now - 7 * msPerDay))
      out.
Proof.
  unfold PriceRepository.getTopGainers.
  destruct (TopGainers.select supabase now game) as [|r0 data0] eqn:Hsel.
  - exists []. split; [done|constructor].
  - rewrite <- Hsel. eexists. split; [done|].
    apply Forall_fmap, Forall_forall. intros item Hitem%gainers_subseteq.
    destruct (changes_formula _ _ _ Hitem) as (Hcpos & Hppos & _).
    apply changes_source in Hitem
      as (k & r & c & p & Hr & Hrk & Hcard & Hc & Hck & Hcw & Hcp
            & Hp & Hpk & Hpw & Hpp).
    apply select_source in Hr as (_ & _ & Hrid & _).
    apply select_source in Hc as (Hcin & _ & _ & _).
    apply select_source in Hp as (Hpin & _ & _ & _).
    assert (Hidc : CardPrice.card_id (CardPriceWithCard.base c)
                   = CardPrice.card_id (CardPriceWithCard.base r)).
    { rewrite <- Hrk in Hck. by apply dash_key_inj in Hck as [? _]. }
    assert (Hidp : CardPrice.card_id (CardPriceWithCard.base p)
                   = CardPrice.card_id (CardPriceWithCard.base r)).
    { rewrite <- Hrk in Hpk. by apply dash_key_inj in Hpk as [? _]. }
    cbn. rewrite Hcard, Hrid. split; [done|]. split.
    + exists (CardPriceWithCard.base c). split; [done|]. split; [done|].
      split; [by rewrite Hcp|]. by apply Z.leb_le in Hcw.
    + exists (CardPriceWithCard.base p). split; [done|]. split; [done|].
      split; [by rewrite Hpp in Hppos|].
      apply andb_prop in Hpw as [?%Z.leb_le ?%Z.ltb_lt]. done.
Qed.

#[local] Instance ranks_above_trans : Transitive ranks_above.
Proof. unfold ranks_above. intros a b c Hab Hbc. by eapply Qle_trans. Qed.

Lemma ranking_sorted (now : Z) (data : list CardPriceWithCard.t) :
  StronglySorted ranks_above (ranking now data).
Proof.
  apply Sorted_StronglySorted; [apply _|]. unfold ranking.
  eapply Sorted_weaken; [|apply stable_sort_Sorted, byChangePercent_total].
  intros a b Hab. by apply Qle_bool_iff.
Qed.

(** X12. For every limit, the gainers that are returned are the first
    entries of the ranking by descending change percent: what is left out
    ranks no higher than anything returned, the ranking holds the kept
    entries each once, and the number of gainers is what [slice] leaves:
    the limit capped by the number of entries for a limit of zero or
    more, all but the last [-limit] entries for a negative limit. *)
Theorem gainers_top_of_ranking (now : Z) (data : list CardPriceWithCard.t)
    (limit : Z) :
  ∃ rest,
    ranking now data = TopGainers.gainers now data limit ++ rest ∧
    ranking now data ≡ₚ TopGainers.changes now data ∧
    (∀ a b, a ∈ TopGainers.gainers now data limit → b ∈ rest →
            (PriceChange.changePercent b <= PriceChange.changePercent a)%Q) ∧
    length (TopGainers.gainers now data limit)
      = sliced_length limit (length (TopGainers.changes now data)).
Proof.
  unfold TopGainers.gainers, slice0. fold (ranking now data).
  set (n := Z.to_nat _).
  exists (drop n (ranking now data)). split; [by rewrite take_drop|].
  split; [apply stable_sort_Permutation|]. split.
  - pose proof (ranking_sorted now data) as Hs.
    rewrite <- (take_drop n (ranking now data)) in Hs.
    apply StronglySorted_app in Hs as (Hcross & _ & _).
    intros a b Ha Hb. by apply Hcross.
  - rewrite length_take. unfold n, sliced_length, ranking.
    rewrite stable_sort_length.
    destruct (Z.ltb_spec limit 0); lia.
Qed.

Lemma first_of_Some window k data (r : CardPriceWithCard.t) :
  first_of window k data = Some r → r ∈ data ∧ TopGainers.key r = k.
Proof.
  intros [Hin [Hk%bool_decide_eq_true _]%andb_prop]%find_some.
  split; [by apply list_elem_of_In | done].
Qed.

Lemma first_of_any window k data (r : CardPriceWithCard.t) :
  first_of window k data = Some r → is_Some (first_of (λ _, true) k data).
Proof.
  intros [Hin Hk]%first_of_Some. unfold first_of.
  destruct (List.find _ data) as [r0|] eqn:Hfind; [done|]. exfalso.
  apply list_elem_of_In in Hin.
  pose proof (find_none _ _ Hfind r Hin) as Hnone. cbn in Hnone.
  by rewrite bool_decide_eq_true_2 in Hnone.
Qed.

(** X13. The ranking keeps the keys whose price fell: when every price is
    positive and the first record in the current window carries a lower
    price than the first record in the previous window, the key has an
    entry, with a negative change percent. *)
Theorem falling_prices_are_ranked (now : Z) (data : list CardPriceWithCard.t)
    (k : string) (c p : CardPriceWithCard.t) :
  (∀ r, r ∈ data → (0 < CardPrice.price (CardPriceWithCard.base r))%Q) →
  first_of (in_current now) k data = Some c →
  first_of (in_previous now) k data = Some p →
  (CardPrice.price (CardPriceWithCard.base c)
     < CardPrice.price (CardPriceWithCard.base p))%Q →
  ∃ item,
    item ∈ TopGainers.changes now data ∧
    PriceChange.currentPrice item = CardPrice.price (CardPriceWithCard.base c) ∧
    PriceChange.previousPrice item = CardPrice.price (CardPriceWithCard.base p) ∧
    (PriceChange.changePercent item < 0)%Q.
Proof.
  intros Hpos Hc Hp Hlt. rewrite changes_expected by done.
  destruct (first_of_any _ _ _ _ Hc) as [r0 Hr0].
  destruct (first_of_Some _ _ _ _ Hc) as [Hcin Hck].
  destruct (first_of_Some _ _ _ _ Hp) as [Hpin _].
  eexists. split.
  - unfold expected_changes. apply list_elem_of_omap. exists k. split.
    + apply elem_of_nub, list_elem_of_fmap. by exists c.
    + unfold expected_change. by rewrite Hr0, Hc, Hp.
  - cbn. split; [done|]. split; [done|].
    set (pc := CardPrice.price (CardPriceWithCard.base c)) in *.
    set (pp := CardPrice.price (CardPriceWithCard.base p)) in *.
    assert (Hpp : (0 < pp)%Q) by by apply Hpos.
    assert (Hdiff : (pc - pp < 0)%Q).
    { apply (Qplus_lt_l _ _ pp). by ring_simplify. }
    assert (Hdiv : ((pc - pp) / pp < 0)%Q).
    { apply Qlt_shift_div_r; [done|]. by rewrite Qmult_0_l. }
    apply (Qmult_lt_compat_r _ _ 100) in Hdiv; [|reflexivity].
    by rewrite Qmult_0_l in Hdiv.
Qed.

Lemma falling_prices_are_ranked_witness :
  ∃ item,
    item ∈ TopGainers.changes ex_now ex_data_falling ∧
    PriceChange.currentPrice item = 90%Q ∧
    PriceChange.previousPrice item = 100%Q ∧
    (PriceChange.changePercent item < 0)%Q.
Proof.
  apply (falling_prices_are_ranked ex_now ex_data_falling "card-1-near_mint"
           (ex_price "p2" 90 1) (ex_price "p1" 100 10)).
  - intros r Hr. repeat (apply elem_of_cons in Hr as [->|Hr]); try reflexivity.
    by apply elem_of_nil in Hr.
  - reflexivity.
  - reflexivity.
  - reflexivity.
Defined.

Lemma top_gainers_ranked_within_limit_witness :
  (0 ≤ 3 ≤ 50 →
   let gainers :=
     TopGainers.gainers ex_now (TopGainers.select bulk_store ex_now (Some "yugioh")) 3 in
   PriceService.getTopGainers bulk_store ex_now (Some "yugioh") (Some 3)
     = Ok (TopGainers.output ex_now <$> gainers) ∧
   Sorted (λ a b, (PriceChange.changePercent b <= PriceChange.changePercent a)%Q)
     gainers ∧
   Z.of_nat (length (TopGainers.output ex_now <$> gainers)) ≤ 3) ∧
  (50 < 3 →
   PriceService.getTopGainers bulk_store ex_now (Some "yugioh") (Some 3)
     = Throw "Limit cannot exceed 50") ∧
  PriceService.getTopGainers bulk_store ex_now (Some "yugioh") None
    = PriceService.getTopGainers bulk_store ex_now (Some "yugioh") (Some 10).
Proof.
  apply top_gainers_ranked_within_limit. intros _.
  apply (bool_decide_eq_true_1 (_ ∈ _)). reflexivity.
Defined.

(** ** The collection function: listing and statistics *)

Section SortHead.
Context {A : Type} (le : A → A → bool).
Hypothesis le_total : ∀ x y, le x y = true ∨ le y x = true.
Hypothesis le_trans : ∀ x y z, le x y = true → le y z = true → le x z = true.

(** The head of a stable sort is the first least element of the list. *)
Lemma stable_sort_head (l : list A) (x : A) (rest : list A) :
  stable_sort le l = x :: rest →
  ∃ pre post, l = pre ++ x :: post ∧
              (∀ y, y ∈ pre → le y x = false) ∧
              (∀ y, y ∈ post → le x y = true).
Proof.
  revert x rest. induction l as [|a l IH]; intros x rest; [done|].
  cbn [stable_sort foldr]. fold (stable_sort le l).
  destruct (stable_sort le l) as [|h t] eqn:Hsort.
  - assert (l = []) as ->.
    { apply length_zero_iff_nil. by rewrite <- (stable_sort_length le), Hsort. }
    intros [= <- <-]. exists [], []. split; [done|].
    split; intros y Hy; by apply elem_of_nil in Hy.
  - destruct (IH _ _ eq_refl) as (pre & post & -> & Hpre & Hpost).
    cbn [insert_sorted]. destruct (le a h) eqn:Hah.
    + intros [= <- <-]. exists [], (pre ++ h :: post). split; [done|].
      split; [intros y Hy; by apply elem_of_nil in Hy|].
      intros y [Hy | [-> | Hy]%elem_of_cons]%elem_of_app.
      * apply (le_trans _ h); [done|].
        destruct (le_total h y) as [Hhy | Hyh]; [done|].
        by rewrite (Hpre y Hy) in Hyh.
      * done.
      * apply (le_trans _ h); auto.
    + intros [= <- <-]. exists (a :: pre), post. split; [done|].
      split; [|done].
      intros y [-> | Hy]%elem_of_cons; auto.
Qed.
End SortHead.

Lemma priceOr0_latest (rows : list CollectionRow.t) (item : CollectionRow.t) :
  (CollectionRepository.priceOr0 (fold_left CollectionRepository.price_step rows []) item
   == latest_price rows item)%Q.
Proof.
  unfold CollectionRepository.priceOr0, latest_price. rewrite cardPriceMap_latest.
  destruct (latest_for _ rows) as [p|]; [|done].
  destruct (Qeq_bool (PriceRef.price p) 0) eqn:Hz; [|done].
  apply Qeq_bool_iff in Hz. by rewrite Hz.
Qed.

Lemma label_truthy (item : CollectionRow.t) :
  truthy (CollectionRepository.label item) = true.
Proof.
  apply truthy_true. unfold CollectionRepository.label.
  destruct (Card.name (CollectionRow.cards item)); discriminate.
Qed.

(** X14. The rarest card of the statistics is the label, name and set in
    brackets, of the first row in the order of the select whose key has the
    highest latest price: the rows before it are strictly cheaper, the rows
    after it are not dearer.  When the select answers no rows, the rarest
    card reads [No cards] and the total value is zero. *)
Theorem collection_stats_rarest (supabase : Supabase.t) (userId : string) :
  let stats := CollectionRepository.getCollectionStats supabase userId in
  match Supabase.collections_with_prices supabase userId with
  | Some ((_ :: _) as rows) =>
      ∃ pre first post,
        rows = pre ++ first :: post ∧
        CollectionStats.rarest stats = CollectionRepository.label first ∧
        (∀ y, y ∈ pre → (latest_price rows y < latest_price rows first)%Q) ∧
        (∀ y, y ∈ post → (latest_price rows y <= latest_price rows first)%Q)
  | _ => CollectionStats.rarest stats = "No cards"
         ∧ CollectionStats.totalValue stats = 0%Q
  end.
Proof.
  unfold CollectionRepository.getCollectionStats.
  destruct (Supabase.collections_with_prices supabase userId) as [[|x rows]|];
    [done| |done].
  set (all := x :: rows).
  set (m := fold_left CollectionRepository.price_step all []).
  set (le := λ a b : CollectionRow.t,
         Qle_bool (CollectionRepository.priceOr0 m b) (CollectionRepository.priceOr0 m a)).
  cbn [CollectionStats.rarest].
  destruct (stable_sort le all) as [|first rest] eqn:Hsort.
  { apply (f_equal length) in Hsort. by rewrite stable_sort_length in Hsort. }
  apply stable_sort_head in Hsort as (pre & post & Hall & Hpre & Hpost).
  - exists pre, first, post. split; [done|]. rewrite label_truthy.
    split; [done|]. split.
    + intros y Hy. rewrite <- !priceOr0_latest. fold m.
      apply Qnot_le_lt. intros Hle%Qle_bool_iff.
      specialize (Hpre y Hy). unfold le in Hpre. congruence.
    + intros y Hy. rewrite <- !priceOr0_latest. fold m.
      apply Qle_bool_iff. by apply Hpost.
  - intros a b. unfold le. rewrite !Qle_bool_iff.
    destruct (Qlt_le_dec (CollectionRepository.priceOr0 m a)
                (CollectionRepository.priceOr0 m b));
      [right; by apply Qlt_le_weak | by left].
  - intros a b c. unfold le. rewrite !Qle_bool_iff. intros Hab Hbc.
    by eapply Qle_trans.
Qed.

(** X15. When the select of the statistics answers one row per entry (no
    two rows share card and condition), the total value is the sum over
    the rows of price times quantity, and the number of cards is the number
    of entries of the user. *)
Theorem collection_value_one_row_per_entry (supabase : Supabase.t)
    (userId : string) (rows : list CollectionRow.t) :
  Supabase.collections_with_prices supabase userId = Some rows →
  NoDup (CollectionRepository.cardKey <$> rows) →
  let stats := CollectionRepository.getCollectionStats supabase userId in
  (CollectionStats.totalValue stats
   == foldr Qplus 0
        ((λ item, PriceRef.price (CollectionRow.card_prices item)
                  * inject_Z (CollectionRow.quantity item)) <$> rows))%Q ∧
  CollectionStats.totalCards stats
    = Z.of_nat (length (filter (λ u, UserCollection.user_id u = userId)
                          (Supabase.user_collections supabase))).
Proof.
  intros Hrows Hnd stats.
  destruct (collection_stats_value supabase userId) as [Hcards Hvalue].
  split; [|done]. fold stats in Hvalue. rewrite Hvalue, Hrows.
  cbn [default from_option id]. by rewrite valuation_distinct_keys.
Qed.

Lemma collection_value_one_row_per_entry_witness :
  let stats := CollectionRepository.getCollectionStats two_entries_store "user-1" in
  (CollectionStats.totalValue stats
   == foldr Qplus 0
        ((λ item, PriceRef.price (CollectionRow.card_prices item)
                  * inject_Z (CollectionRow.quantity item))
           <$> [CollectionRow.mk "card-a" near_mint 2 card_a (PriceRef.mk 10 ex_now);
                CollectionRow.mk "card-b" near_mint 1 card_b (PriceRef.mk 50 ex_now)]))%Q ∧
  CollectionStats.totalCards stats
    = Z.of_nat (length (filter (λ u, UserCollection.user_id u = "user-1")
                          (Supabase.user_collections two_entries_store))).
Proof.
  apply (collection_value_one_row_per_entry two_entries_store "user-1").
  - reflexivity.
  - apply (bool_decide_eq_true_1 (NoDup _)). reflexivity.
Defined.

(** X16. To a signed-in user, a GET that does not name the statistics
    answers 200 with the entries of that user and no others, each once,
    from the newest to the oldest by creation time, each with the card of
    its card id. *)
Theorem collections_listing (supabase : Supabase.t)
    (req : Request.t CollectionBody.t) (authHeader user_id : string) :
  Request.method req = "GET" →
  "stats" ∉ Request.pathSegments req →
  Request.authorization req = Some authHeader →
  authHeader ≠ "" →
  Supabase.auth_getUser supabase authHeader = Some user_id →
  user_id ≠ "" →
  ∃ collections,
    CollectionController.handleRequest supabase req
      = Response.mk 200 (Response.Json (CollectionPayload.Collections collections)) ∧
    CollectionWithCard.base <$> collections
      ≡ₚ filter (λ u, UserCollection.user_id u = user_id)
           (Supabase.user_collections supabase) ∧
    Sorted (λ a b, UserCollection.created_at (CollectionWithCard.base b)
                   ≤ UserCollection.created_at (CollectionWithCard.base a))
      collections ∧
    ∀ c, c ∈ collections →
         CollectionWithCard.cards c
           = List.find (λ card, bool_decide
                          (Card.id card
                           = UserCollection.card_id (CollectionWithCard.base c)))
               (Supabase.cards supabase).
Proof.
  intros Hget Hstats Hauth Hheader Huser Hid.
  unfold CollectionController.handleRequest. rewrite Hauth, (truthy_true _ Hheader).
  cbn [negb]. rewrite Huser. unfold CollectionController.dispatch.
  rewrite (bool_decide_eq_true_2 _ Hget), (includes_false _ _ Hstats).
  unfold CollectionService.getUserCollections. rewrite (truthy_true _ Hid).
  cbn [negb]. unfold CollectionRepository.getUserCollections.
  eexists. split; [reflexivity|].
  set (mine := filter _ (Supabase.user_collections supabase)).
  split; [|split].
  - rewrite <- list_fmap_compose.
    rewrite (list_fmap_ext _ id (order_by UserCollection.created_at false mine))
      by done.
    rewrite list_fmap_id. apply stable_sort_Permutation.
  - apply (Sorted_fmap _ (λ a b, UserCollection.created_at b
                                  ≤ UserCollection.created_at a)); [done|].
    eapply Sorted_weaken; [|apply stable_sort_Sorted].
    + intros a b Hab. by apply Z.leb_le.
    + intros a b. rewrite !Z.leb_le. lia.
  - by intros c (u & -> & _)%list_elem_of_fmap.
Qed.

Lemma collections_listing_witness :
  ∃ collections,
    CollectionController.handleRequest (signed_in two_entries_store "user-1")
      (collections_request "Bearer token")
      = Response.mk 200 (Response.Json (CollectionPayload.Collections collections)) ∧
    CollectionWithCard.base <$> collections
      ≡ₚ filter (λ u, UserCollection.user_id u = "user-1")
           (Supabase.user_collections (signed_in two_entries_store "user-1")) ∧
    Sorted (λ a b, UserCollection.created_at (CollectionWithCard.base b)
                   ≤ UserCollection.created_at (CollectionWithCard.base a))
      collections ∧
    ∀ c, c ∈ collections →
         CollectionWithCard.cards c
           = List.find (λ card, bool_decide
                          (Card.id card
                           = UserCollection.card_id (CollectionWithCard.base c)))
               (Supabase.cards (signed_in two_entries_store "user-1")).
Proof.
  apply (collections_listing (signed_in two_entries_store "user-1")
           (collections_request "Bearer token") "Bearer token" "user-1").
  - reflexivity.
  - apply (bool_decide_eq_false_1 (_ ∈ _)). reflexivity.
  - reflexivity.
  - discriminate.
  - reflexivity.
  - discriminate.
Defined.

(** ** The cards function: the latest price of each card *)

Section CardRows.
Import CardsWithLatestPrices.

Lemma first_latest_row_keep data r x :
  first_latest_row data r →
  (Card.id (CardRow.card x) = Card.id (CardRow.card r) →
   LatestPrice.recorded_at (CardRow.card_prices x)
     ≤ LatestPrice.recorded_at (CardRow.card_prices r)) →
  first_latest_row (data ++ [x]) r.
Proof.
  intros (pre & post & -> & Hpre & Hpost) Hx.
  exists pre, (post ++ [x]). split; [by rewrite <- app_assoc|].
  split; [done|].
  intros r' [Hin | ->%list_elem_of_singleton]%elem_of_app; auto.
Qed.

Lemma first_latest_row_new data x :
  (∀ r', r' ∈ data → Card.id (CardRow.card r') = Card.id (CardRow.card x) →
         LatestPrice.recorded_at (CardRow.card_prices r')
           < LatestPrice.recorded_at (CardRow.card_prices x)) →
  first_latest_row (data ++ [x]) x.
Proof.
  intros Hlt. exists data, []. split; [done|]. split; [done|].
  intros r' Hin. by apply elem_of_nil in Hin.
Qed.

Lemma first_latest_row_bound data r r' :
  first_latest_row data r → r' ∈ data →
  Card.id (CardRow.card r') = Card.id (CardRow.card r) →
  LatestPrice.recorded_at (CardRow.card_prices r')
    ≤ LatestPrice.recorded_at (CardRow.card_prices r).
Proof.
  intros (pre & post & -> & Hpre & Hpost).
  intros [Hin | [-> | Hin]%elem_of_cons]%elem_of_app Hc.
  - specialize (Hpre _ Hin Hc). lia.
  - lia.
  - auto.
Qed.

Lemma card_step_inv data m x :
  card_rows_inv data m → card_rows_inv (data ++ [x]) (step m x).
Proof.
  intros [Hkeys Hget]. unfold step. cbv zeta.
  set (cardId := Card.id (CardRow.card x)).
  assert (Hids : ∀ r', r' ∈ data → Card.id (CardRow.card r') = cardId →
                       cardId ∈ Map_keys m).
  { intros r' Hin Hid. rewrite Hkeys. apply elem_of_nub, list_elem_of_fmap. eauto. }
  destruct (Map_get cardId m) as [kept|] eqn:Hkept.
  - destruct (Hget _ _ Hkept) as (r & Hfl & Hid & ->).
    cbn [entry CardWithLatestPrice.latest_price LatestPrice.recorded_at].
    assert (Hin : cardId ∈ (λ r, Card.id (CardRow.card r)) <$> data).
    { apply elem_of_nub. rewrite <- Hkeys. by eapply Map_get_Some_key. }
    destruct (Z.ltb_spec (LatestPrice.recorded_at (CardRow.card_prices r))
                (LatestPrice.recorded_at (CardRow.card_prices x))) as [Hlt | Hge].
    + split.
      * rewrite Map_keys_set. unfold Map_has. rewrite Hkept, fmap_app, list_fmap_singleton, nub_snoc.
        by rewrite decide_True.
      * intros k e. rewrite Map_get_set. case_decide as Hk.
        -- intros [= <-]. exists x. split; [|done].
           apply first_latest_row_new. intros r' Hr' Hc.
           assert (Hsame : Card.id (CardRow.card r') = Card.id (CardRow.card r))
             by (rewrite Hc, Hid; done).
           pose proof (first_latest_row_bound _ _ r' Hfl Hr' Hsame). lia.
        -- intros He. destruct (Hget _ _ He) as (r0 & Hfl0 & Hid0 & ->).
           exists r0. split; [|done]. apply first_latest_row_keep; [done|].
           intros Hc. exfalso. apply Hk. unfold cardId. congruence.
    + split.
      * rewrite fmap_app, list_fmap_singleton, nub_snoc. by rewrite decide_True.
      * intros k e He. destruct (Hget _ _ He) as (r0 & Hfl0 & Hid0 & ->).
        exists r0. split; [|done]. apply first_latest_row_keep; [done|].
        intros Hc.
        assert (entry r0 = entry r) as Heq.
        { assert (k = cardId) as -> by (unfold cardId; congruence). congruence. }
        injection Heq as _ _ _ _ Hat. lia.
  - assert (Hfresh : cardId ∉ (λ r, Card.id (CardRow.card r)) <$> data).
    { rewrite <- elem_of_nub, <- Hkeys. by apply Map_get_None_key. }
    split.
    + rewrite Map_keys_set. unfold Map_has. rewrite Hkept, fmap_app, list_fmap_singleton, nub_snoc.
      by rewrite decide_False, Hkeys.
    + intros k e. rewrite Map_get_set. case_decide as Hk.
      * intros [= <-]. exists x. split; [|done].
        apply first_latest_row_new. intros r' Hr' Hc. exfalso.
        apply Hfresh, list_elem_of_fmap. eauto.
      * intros He. destruct (Hget _ _ He) as (r0 & Hfl0 & Hid0 & ->).
        exists r0. split; [|done]. apply first_latest_row_keep; [done|].
        intros Hc. exfalso. apply Hk. unfold cardId. congruence.
Qed.

Lemma card_fold_inv data : card_rows_inv data (fold_left step data []).
Proof.
  induction data as [|x data IH] using rev_ind; [done|].
  rewrite fold_left_app. by apply card_step_inv.
Qed.
End CardRows.

(** X17. The rows of cards with prices are reduced to one entry per card,
    in the order in which the cards first occur; the entry of a card
    carries the price of the first row of that card, in the order of the
    rows, that has the greatest timestamp.  A null answer gives no
    entries. *)
Theorem cards_one_latest_price (rows : list CardRow.t) :
  let result := CardsWithLatestPrices.process (Some rows) in
  (λ e, Card.id (CardWithLatestPrice.base e)) <$> result
    = nub ((λ r, Card.id (CardRow.card r)) <$> rows) ∧
  (∀ e, e ∈ result →
        ∃ r, first_latest_row rows r ∧
             CardWithLatestPrice.base e = CardRow.card r ∧
             CardWithLatestPrice.latest_price e = Some (CardRow.card_prices r)) ∧
  CardsWithLatestPrices.process None = [].
Proof.
  unfold CardsWithLatestPrices.process.
  destruct (card_fold_inv rows) as [Hkeys Hget].
  set (m := fold_left CardsWithLatestPrices.step rows []) in *.
  assert (Hnd : NoDup (Map_keys m)) by (rewrite Hkeys; apply NoDup_nub).
  assert (Hentry : ∀ k e, (k, e) ∈ m →
            ∃ r, first_latest_row rows r ∧ Card.id (CardRow.card r) = k
                 ∧ e = CardsWithLatestPrices.entry r).
  { intros k e Hin. by apply Hget, Map_elem_get. }
  split; [|split; [|done]].
  - rewrite <- Hkeys. unfold Map_keys, Map_values. rewrite <- list_fmap_compose.
    apply Forall_fmap_ext_1, Forall_forall. intros [k e] Hin.
    destruct (Hentry _ _ Hin) as (r & _ & <- & ->). done.
  - intros e [k Hin]%Map_values_get.
    destruct (Hentry _ _ Hin) as (r & Hfl & _ & ->).
    exists r. split; [done|]. split; [done|].
    cbn. by destruct (CardRow.card_prices r).
Qed.

(** ** The cards function: listing, search by set, update and deletion *)

Lemma getCards_Ok (repository : CardRepository.t) (game searchTerm : option string)
    (includePrices : bool) (limit offset : Z) (payload : CardPayload.t) :
  CardService.getCards repository game searchTerm includePrices (Some limit) (Some offset)
    = Ok payload
  ↔ (truthy_opt game = true → default "" game ∈ validGames)
    ∧ limit ≤ 100
    ∧ (if includePrices
       then CardPayload.CardsWithPrices
              <$> CardRepository.getCardsWithLatestPrices repository game searchTerm limit
       else CardPayload.Cards
              <$> CardRepository.getAllCards repository game searchTerm limit offset)
      = Ok payload.
Proof.
  unfold CardService.getCards, includes. cbn [default from_option id].
  destruct (truthy_opt game); cbn [andb].
  - case_bool_decide as Hgame; cbn [negb].
    + destruct (Z.ltb_spec 100 limit); [split; [done | lia]|].
      split; [intros ?; split; [done|split; [lia|done]] | by intros (_ & _ & ?)].
    + split; [done | intros [Hg _]; exfalso; by apply Hgame, Hg].
  - destruct (Z.ltb_spec 100 limit); [split; [done | lia]|].
    split; [intros ?; split; [done|split; [lia|done]] | by intros (_ & _ & ?)].
Qed.

(** X18. A GET on the list of cards without a set name answers 200 with
    the cards exactly when the game, if one is given, is one of yugioh, mtg
    and pokemon, the limit (50 when absent) is at most 100, and the
    repository answers; the cards come with their latest prices exactly
    when include_prices is the string true, and an empty game or search
    term counts as absent. *)
Theorem cards_listing_guarded (repository : CardRepository.t)
    (req : Request.t CardBody.t) (payload : CardPayload.t) :
  Request.method req = "GET" →
  (length (Request.pathSegments req) ≤ 1)%nat →
  truthy_opt (Query.set (Request.searchParams req)) = false →
  let query := Request.searchParams req in
  let limit := default 50 (Query.limit query) in
  let offset := default 0 (Query.offset query) in
  CardController.handleRequest repository req = Response.mk 200 (Response.Json payload)
  ↔ (truthy_opt (Query.game query) = true → default "" (Query.game query) ∈ validGames)
    ∧ limit ≤ 100
    ∧ (if bool_decide (Query.include_prices query = Some "true")
       then CardPayload.CardsWithPrices
              <$> CardRepository.getCardsWithLatestPrices repository
                    (given (Query.game query)) (given (Query.search query)) limit
       else CardPayload.Cards
              <$> CardRepository.getAllCards repository
                    (given (Query.game query)) (given (Query.search query)) limit offset)
      = Ok payload.
Proof.
  intros Hget Hlen Hset query limit offset.
  unfold CardController.handleRequest, CardController.dispatch.
  rewrite (bool_decide_eq_true_2 _ Hget), (proj2 (Nat.ltb_ge _ _) Hlen).
  rewrite Hset. fold query limit offset.
  fold (given (Query.game query)) (given (Query.search query)).
  assert (Hgame : (truthy_opt (given (Query.game query)) = true →
                   default "" (given (Query.game query)) ∈ validGames)
                  ↔ (truthy_opt (Query.game query) = true →
                     default "" (Query.game query) ∈ validGames)).
  { unfold given. destruct (truthy_opt (Query.game query)) eqn:Hg; [by rewrite Hg|].
    cbn. split; intros _ ?; done. }
  rewrite <- Hgame, <- getCards_Ok.
  destruct (CardService.getCards _ _ _ _ _ _) as [cards|message]; cbn.
  - unfold ok_response. split; congruence.
  - split; [case_bool_decide; discriminate | discriminate].
Qed.

Lemma cards_listing_guarded_witness :
  CardController.handleRequest (list_card_repository [ex_card])
    (list_cards_request no_query)
    = Response.mk 200 (Response.Json (CardPayload.Cards [ex_card])).
Proof.
  apply cards_listing_guarded.
  - reflexivity.
  - vm_compute. lia.
  - reflexivity.
  - split; [discriminate|]. split; [vm_compute; discriminate | reflexivity].
Defined.

(** X19. When a set name is given, a GET on the list of cards answers
    200 with the cards exactly when the name without its surrounding white
    space, that of Unicode included, has a length of at least two UTF-16
    code units and the repository answers; the repository receives the
    name trimmed, and neither the game nor the limit are validated on
    this route. *)
Theorem set_search_guarded (repository : CardRepository.t)
    (req : Request.t CardBody.t) (setName : string) (payload : CardPayload.t) :
  Request.method req = "GET" →
  (length (Request.pathSegments req) ≤ 1)%nat →
  Query.set (Request.searchParams req) = Some setName →
  setName ≠ "" →
  CardController.handleRequest repository req = Response.mk 200 (Response.Json payload)
  ↔ (2 ≤ js_length (trim setName))%nat
    ∧ CardPayload.Cards
        <$> CardRepository.searchCardsBySet repository (trim setName)
              (given (Query.game (Request.searchParams req)))
      = Ok payload.
Proof.
  intros Hget Hlen Hset Hname.
  unfold CardController.handleRequest, CardController.dispatch.
  rewrite (bool_decide_eq_true_2 _ Hget), (proj2 (Nat.ltb_ge _ _) Hlen), Hset.
  cbn [truthy_opt default from_option id]. rewrite (truthy_true _ Hname).
  fold (given (Query.game (Request.searchParams req))).
  unfold CardService.searchCardsBySet. rewrite (truthy_true _ Hname). cbn [negb orb].
  destruct (Nat.ltb_spec (js_length (trim setName)) 2) as [Hshort | Hlong].
  - cbn. split; [discriminate | lia].
  - destruct (CardRepository.searchCardsBySet _ _ _) as [cards|message]; cbn.
    + unfold ok_response. split; [intros [= <-]; done | by intros [_ [= <-]]].
    + split; [case_bool_decide; discriminate | by intros [_ ?]].
Qed.

Lemma set_search_guarded_witness :
  CardController.handleRequest (list_card_repository [ex_card])
    (list_cards_request
       (Query.mk (Some "chess") (Some 500) None None None None None None
          (Some "  Legend of Blue Eyes ")))
    = Response.mk 200 (Response.Json (CardPayload.Cards [ex_card])).
Proof.
  apply (set_search_guarded _ _ "  Legend of Blue Eyes ").
  - reflexivity.
  - vm_compute. lia.
  - reflexivity.
  - discriminate.
  - split; [vm_compute; lia | reflexivity].
Defined.

(** A set name of a no-break space and one letter is too short. *)
Example short_set_name_refused :
  CardController.handleRequest (list_card_repository [ex_card])
    (list_cards_request
       (Query.mk None None None None None None None None (Some (nbsp +:+ "x"))))
  = Response.mk 500 (Response.Error "Set name must be at least 2 characters long").
Proof. reflexivity. Qed.

Lemma getCardById_Ok (repository : CardRepository.t) (cardId : string)
    (card : Card.t) :
  CardService.getCardById repository cardId = Ok card
  ↔ cardId ≠ "" ∧ CardRepository.getCardById repository cardId = Ok (Some card).
Proof.
  unfold CardService.getCardById, truthy. case_bool_decide as Hid; cbn.
  - split; [done | by intros [? _]].
  - destruct (CardRepository.getCardById repository cardId) as [[c|]|message]; cbn;
      (split; [intros [= ->] | intros [_ [= ->]]]); done.
Qed.

Lemma getCardById_found (repository : CardRepository.t) (cardId : string) :
  (∃ card, CardService.getCardById repository cardId = Ok card)
  ↔ cardId ≠ "" ∧ ∃ existing, CardRepository.getCardById repository cardId
                               = Ok (Some existing).
Proof.
  split.
  - intros [card [? ?]%getCardById_Ok]. eauto.
  - intros [? [existing ?]]. exists existing. by apply getCardById_Ok.
Qed.

Lemma updateCard_Ok (repository : CardRepository.t) (cardId : string)
    (updates : CardBody.t) (card : Card.t) :
  CardService.updateCard repository cardId updates = Ok card
  ↔ cardId ≠ ""
    ∧ ∃ existing,
        CardRepository.getCardById repository cardId = Ok (Some existing)
        ∧ CardRepository.updateCard repository cardId updates = Ok card.
Proof.
  unfold CardService.updateCard, truthy. case_bool_decide as Hid; cbn.
  - split; [done | by intros [? _]].
  - destruct (CardService.getCardById repository cardId) as [c|message] eqn:Hc; cbn.
    + apply getCardById_Ok in Hc as [_ Hc]. split; [eauto|]. by intros (_ & _ & _ & ?).
    + split; [done|]. intros (_ & existing & Hfound & _).
      assert (CardService.getCardById repository cardId = Ok existing) as Hok
        by by apply getCardById_Ok.
      congruence.
Qed.

Lemma deleteCard_Ok (repository : CardRepository.t) (cardId : string) :
  CardService.deleteCard repository cardId = Ok ()
  ↔ cardId ≠ ""
    ∧ ∃ existing,
        CardRepository.getCardById repository cardId = Ok (Some existing)
        ∧ CardRepository.deleteCard repository cardId = Ok ().
Proof.
  unfold CardService.deleteCard, truthy. case_bool_decide as Hid; cbn.
  - split; [done | by intros [? _]].
  - destruct (CardService.getCardById repository cardId) as [c|message] eqn:Hc; cbn.
    + apply getCardById_Ok in Hc as [_ Hc]. split; [eauto|]. by intros (_ & _ & _ & ?).
    + split; [done|]. intros (_ & existing & Hfound & _).
      assert (CardService.getCardById repository cardId = Ok existing) as Hok
        by by apply getCardById_Ok.
      congruence.
Qed.

Lemma getCards_payload (repository : CardRepository.t) (game searchTerm : option string)
    (includePrices : bool) (limit offset : option Z) (payload : CardPayload.t) :
  CardService.getCards repository game searchTerm includePrices limit offset = Ok payload →
  (∀ card, payload ≠ CardPayload.OneCard card) ∧ payload ≠ CardPayload.Success.
Proof.
  unfold CardService.getCards.
  repeat match goal with
         | |- context [if ?b then _ else _] => destruct b
         end; try discriminate.
  - destruct (CardRepository.getCardsWithLatestPrices _ _ _ _); [|discriminate].
    intros [= <-]. done.
  - destruct (CardRepository.getAllCards _ _ _ _ _); [|discriminate].
    intros [= <-]. done.
Qed.

(** X20. The cards function answers 200 with a card exactly to a GET by
    id of a card that the repository finds and to a PUT whose body parses,
    for a card that the repository finds and whose update it accepts; it
    answers 200 with the success flag exactly to a DELETE of a card that
    the repository finds and whose deletion it accepts. *)
Theorem card_by_id_guarded (repository : CardRepository.t)
    (req : Request.t CardBody.t) :
  let cardId := last_segment (Request.pathSegments req) in
  (∀ card,
     CardController.handleRequest repository req
       = Response.mk 200 (Response.Json (CardPayload.OneCard card))
     ↔ cardId ≠ ""
       ∧ ((Request.method req = "GET"
           ∧ (1 < length (Request.pathSegments req))%nat
           ∧ CardRepository.getCardById repository cardId = Ok (Some card))
          ∨ (Request.method req = "PUT"
             ∧ ∃ updateData existing,
                 Request.json req = Some updateData
                 ∧ CardRepository.getCardById repository cardId = Ok (Some existing)
                 ∧ CardRepository.updateCard repository cardId updateData = Ok card))) ∧
  (CardController.handleRequest repository req
     = Response.mk 200 (Response.Json CardPayload.Success)
   ↔ cardId ≠ ""
     ∧ Request.method req = "DELETE"
     ∧ ∃ existing,
         CardRepository.getCardById repository cardId = Ok (Some existing)
         ∧ CardRepository.deleteCard repository cardId = Ok ()).
Proof.
  intros cardId.
  unfold CardController.handleRequest, CardController.dispatch, req_json, ok_response.
  fold cardId.
  destruct (decide (Request.method req = "GET")) as [Hget|Hget].
  { rewrite Hget. decide_constants.
    destruct (Nat.ltb_spec 1 (length (Request.pathSegments req))) as [Hlen|Hlen].
    - pose proof (getCardById_Ok repository cardId) as Hok.
      destruct (CardService.getCardById repository cardId) as [c|message]; cbn.
      + split.
        * intros card. split.
          -- intros [= <-]. destruct (proj1 (Hok c) eq_refl). split; [done|]. by left.
          -- intros [_ [(_ & _ & Hc) | (? & _)]]; [|done].
             assert (Ok c = Ok card) as [= ->] by (apply Hok; split; [|done];
               by destruct (proj1 (Hok c) eq_refl)).
             done.
        * split; [done | by intros (_ & ? & _)].
      + split.
        * intros card. split; [case_bool_decide; discriminate|].
          intros [Hid [(_ & _ & Hc) | (? & _)]]; [|done].
          by assert (Throw message = Ok card) by (apply Hok; done).
        * split; [case_bool_decide; discriminate | by intros (_ & ? & _)].
    - assert (Hno : ¬ (1 < length (Request.pathSegments req))%nat) by lia.
      destruct (truthy_opt (Query.set (Request.searchParams req))).
      + destruct (CardService.searchCardsBySet _ _ _) as [cards|message]; cbn.
        all: split; [intros card|].
        all: split; [try case_bool_decide; discriminate|].
        all: first [ by intros (_ & ? & _)
                   | by intros [_ [(_ & ? & _) | (? & _)]] ].
      + destruct (CardService.getCards _ _ _ _ _ _) as [cards|message] eqn:Hcards;
          cbn.
        * apply getCards_payload in Hcards as [Hone Hsuccess].
          split; [intros card|].
          -- split; [intros [= ->]; by destruct (Hone card)|].
             by intros [_ [(_ & ? & _) | (? & _)]].
          -- split; [by intros [= ->] | by intros (_ & ? & _)].
        * split; [intros card|].
          all: split; [try case_bool_decide; discriminate|].
          all: first [ by intros (_ & ? & _)
                     | by intros [_ [(_ & ? & _) | (? & _)]] ]. }
  destruct (decide (Request.method req = "POST")) as [Hpost|Hpost].
  { rewrite Hpost. decide_constants.
    destruct (Request.json req) as [createData|]; cbn;
      [destruct (CardService.createCard _ _) as [newCard|message]; cbn|].
    all: split; [intros card|].
    all: split; [try case_bool_decide; discriminate|].
    all: first [ by intros (_ & ? & _)
               | by intros [_ [(? & _) | (? & _)]] ]. }
  destruct (decide (Request.method req = "PUT")) as [Hput|Hput].
  { rewrite Hput. decide_constants.
    destruct (Request.json req) as [updateData|]; cbn.
    - pose proof (updateCard_Ok repository cardId updateData) as Hok.
      destruct (CardService.updateCard _ _ _) as [updated|message]; cbn.
      + split; [intros card|].
        * split.
          -- intros [= <-]. destruct (proj1 (Hok updated) eq_refl) as (? & existing & ? & ?).
             split; [done|]. right. split; [done|]. by exists updateData, existing.
          -- intros [Hid [(? & _) | (_ & u & existing & [= <-] & Hfound & Hupd)]]; [done|].
             assert (Ok updated = Ok card) as [= ->] by (apply Hok; eauto).
             done.
        * split; [discriminate | by intros (_ & ? & _)].
      + split; [intros card|].
        * split; [case_bool_decide; discriminate|].
          intros [Hid [(? & _) | (_ & u & existing & [= <-] & Hfound & Hupd)]]; [done|].
          by assert (Throw message = Ok card) by (apply Hok; eauto).
        * split; [case_bool_decide; discriminate | by intros (_ & ? & _)].
    - split; [intros card|].
      + split; [discriminate|].
        by intros [_ [(? & _) | (_ & u & existing & ? & _)]].
      + split; [discriminate | by intros (_ & ? & _)]. }
  destruct (decide (Request.method req = "DELETE")) as [Hdelete|Hdelete].
  { rewrite Hdelete. decide_constants.
    pose proof (deleteCard_Ok repository cardId) as Hok.
    destruct (CardService.deleteCard _ _) as [[]|message]; cbn.
    - split; [intros card|].
      + split; [discriminate | by intros [_ [(? & _) | (? & _)]]].
      + split; [intros _ | done].
        destruct (proj1 Hok eq_refl) as (? & existing & ? & ?). eauto.
    - split; [intros card|].
      + split; [case_bool_decide; discriminate | by intros [_ [(? & _) | (? & _)]]].
      + split; [case_bool_decide; discriminate|].
        intros (Hid & _ & Hfound). by assert (Throw message = Ok ()) by (apply Hok; eauto). }
  rewrite !bool_decide_eq_false_2 by done.
  split; [intros card|].
  - split; [discriminate | by intros [_ [(? & _) | (? & _)]]].
  - split; [discriminate | by intros (_ & ? & _)].
Qed.
